(** * Sentiment analysis core of social-media-osint: a shallow embedding

    The development follows the two analyzer classes of the repository,
    [src/analyzers/sentiment_analyzer.py] (class [SentimentAnalyzer], the
    polarity-threshold variant) and
    [src/analyzers/enhanced_sentiment_analyzer.py] (class
    [EnhancedSentimentAnalyzer], the compound-score variant with
    explanations), together with the ranking code of [src/app.py] that
    orders posts analysed by the enhanced variant.

    Modelling conventions.
    - The scores the models return and the numbers stored in posts are
      written as rational numbers ([Q]), the way Python source writes them
      as decimal literals; the analyzers only compare and round them.
      Where the code computes with numbers (the [sum], [/] and [*] of the
      aggregates), the number written [q] is the double nearest to [q] and
      the operations are those of IEEE 754 binary64, rounding to nearest
      with ties to even, as specified by [SpecFloat]; [round(x, n)] of a
      double is the double nearest to the decimal rounding of its exact
      value.
    - Python strings are [string]s whose characters are the code points
      below 256; [len], slicing, [strip] and [lower] act per character.
    - Python dictionaries are [gmap string value]; the dynamically typed
      values stored in posts are the inductive [value].
    - Exceptions are the [Raise] results of the [result] monad.
    - The two scoring models (VADER and TextBlob) are external libraries:
      they are parameters of the analyzers. *)

From Stdlib Require Import QArith Qabs Ascii String.
From Stdlib Require Import Floats.SpecFloat.
From stdpp Require Import gmap strings list fin_maps pretty sorting.

Set Warnings "-register-all".
Set Default Proof Using "Type".

(** ** Python primitives *)

Module Py.

(** *** Exceptions and results *)

Inductive exn : Type :=
  | AttributeError
  | TypeError
  | ZeroDivisionError
  | Error (msg : string)      (* an exception raised inside a scoring model *)
  | InvalidReference.         (* no Python exception: a location outside the store *)

Inductive result (A : Type) : Type :=
  | Ok (a : A)
  | Raise (e : exn).
Global Arguments Ok {A} a.
Global Arguments Raise {A} e.

Global Instance result_ret : MRet result := λ A a, Ok a.
Global Instance result_bind : MBind result := λ A B f m,
  match m with
  | Ok a => f a
  | Raise e => Raise e
  end.
Global Instance result_fmap : FMap result := λ A B f m,
  match m with
  | Ok a => Ok (f a)
  | Raise e => Raise e
  end.

(** [for x in l: ...] whose body may raise, collecting one result per element. *)
Fixpoint for_each {A B : Type} (f : A → result B) (l : list A) : result (list B) :=
  match l with
  | [] => Ok []
  | x :: l' => y ← f x; ys ← for_each f l'; Ok (y :: ys)
  end.

(** A list comprehension with a condition that may raise. *)
Fixpoint filter_each {A : Type} (f : A → result bool) (l : list A) : result (list A) :=
  match l with
  | [] => Ok []
  | x :: l' =>
      b ← f x; ys ← filter_each f l';
      Ok (if b : bool then x :: ys else ys)
  end.

(** A loop [for x in l] updating an accumulator, with a body that may raise. *)
Fixpoint fold_each {A B : Type} (f : B → A → result B) (acc : B) (l : list A) : result B :=
  match l with
  | [] => Ok acc
  | x :: l' => acc' ← f acc x; fold_each f acc' l'
  end.

(** The outcome of a call into a scoring model: [inl msg] when the call
    raises an exception [e] with [str(e) = msg], [inr a] when it returns. *)
Definition outcome (A : Type) : Type := (string + A)%type.
Definition propagate {A : Type} (o : outcome A) : result A :=
  match o with
  | inl msg => Raise (Error msg)
  | inr a => Ok a
  end.

(** *** Numbers *)

Definition Qleb (x y : Q) : bool := Qle_bool x y.
Definition Qltb (x y : Q) : bool := negb (Qle_bool y x).

(** [abs(x)] *)
Definition py_abs (x : Q) : Q := Qabs x.

(** Nearest integer, ties to the even one. *)
Definition round_half_even (x : Q) : Z :=
  let n := Qnum x in
  let d := Z.pos (Qden x) in
  let fl := (n / d)%Z in
  let r2 := (2 * (n mod d))%Z in
  if (r2 <? d)%Z then fl
  else if (d <? r2)%Z then (fl + 1)%Z
  else if Z.even fl then fl else (fl + 1)%Z.

(** [round(x, ndigits)] *)
Definition py_round (x : Q) (ndigits : nat) : Q :=
  let scale := Pos.pow 10 (Pos.of_nat ndigits) in
  let scale := match ndigits with O => 1%positive | _ => scale end in
  Qmake (round_half_even (x * (Z.pos scale # 1))) scale.

(** *** Floating-point numbers

    Python's [float] is the IEEE 754 binary64 format; its arithmetic rounds
    to nearest, ties to even. *)

Module Float.

Abbreviation float := spec_float.

Definition prec : Z := 53.
Definition emax : Z := 1024.

(** [0.0] *)
Definition zero : float := S754_zero false.

Definition add : float → float → float := SFadd prec emax.
Definition mul : float → float → float := SFmul prec emax.
Definition div : float → float → float := SFdiv prec emax.
Definition ltb : float → float → bool := SFltb.

(** [float(z)] for an integer *)
Definition of_Z (z : Z) : float := binary_normalize prec emax z 0 false.

(** The double nearest to a rational number: the quotient of its numerator
    by its denominator, rounded once.  This is how a decimal literal is
    read and how [int / int] is computed. *)
Definition of_Q (q : Q) : float :=
  match Qnum q with
  | Z0 => S754_zero false
  | Zpos n =>
      let '(m, e, l) := SFdiv_core_binary prec emax (Zpos n) 0 (Zpos (Qden q)) 0 in
      binary_round_aux prec emax false m e l
  | Zneg n =>
      let '(m, e, l) := SFdiv_core_binary prec emax (Zpos n) 0 (Zpos (Qden q)) 0 in
      binary_round_aux prec emax true m e l
  end.

(** The exact value of a finite double. *)
Definition to_Q (x : float) : Q :=
  match x with
  | S754_finite s m e =>
      let n := cond_Zopp s (Zpos m) in
      match e with
      | Zneg k => n # Pos.shiftl 1 (Npos k)
      | _ => inject_Z (n * 2 ^ e)
      end
  | _ => 0
  end.

End Float.

(** [round(x, ndigits)] on a double: infinities and NaN round to
    themselves; a finite [x] is rounded in decimal on its exact value and
    read back; a result that is zero keeps the sign of [x]. *)
Definition py_round_float (x : Float.float) (ndigits : nat) : Float.float :=
  match x with
  | S754_finite s _ _ =>
      let q := py_round (Float.to_Q x) ndigits in
      match Qnum q with
      | Z0 => S754_zero s
      | _ => Float.of_Q q
      end
  | _ => x
  end.

(** [a / b] on integers *)
Definition int_truediv (a b : nat) : result Float.float :=
  match b with
  | O => Raise ZeroDivisionError
  | S _ => Ok (Float.of_Q (Z.of_nat a # Pos.of_nat b))
  end.

(** [x / n] for a double [x] and an integer [n] *)
Definition float_truediv (x : Float.float) (n : nat) : result Float.float :=
  match n with
  | O => Raise ZeroDivisionError
  | S _ => Ok (Float.div x (Float.of_Z (Z.of_nat n)))
  end.

(** The additions of [sum]: from 0, left to right, each one rounded.  This
    is the [sum] of CPython up to version 3.11; from 3.12 on, [sum] also
    carries a compensation term for the rounding errors of the additions,
    which is not part of this embedding. *)
Definition float_sum (l : list Float.float) : Float.float :=
  foldl Float.add Float.zero l.

(** *** Characters and strings *)

Definition code (a : ascii) : N := N_of_ascii a.

Definition in_range (lo hi : N) (a : ascii) : bool :=
  (lo <=? code a)%N && (code a <=? hi)%N.

(** [str.isspace] on one character: the characters [str.strip()] removes. *)
Definition is_space (a : ascii) : bool :=
  in_range 9 13 a || in_range 28 32 a || (code a =? 133)%N || (code a =? 160)%N.

(** The class [\w] of the [re] module. *)
Definition is_word_char (a : ascii) : bool :=
  in_range 48 57 a || in_range 65 90 a || (code a =? 95)%N || in_range 97 122 a
  || (code a =? 170)%N || in_range 178 179 a || (code a =? 181)%N
  || in_range 185 186 a || in_range 188 190 a || in_range 192 214 a
  || in_range 216 246 a || in_range 248 255 a.

Definition lower_char (a : ascii) : ascii :=
  if in_range 65 90 a || in_range 192 214 a || in_range 216 222 a
  then ascii_of_N (code a + 32) else a.

(** [s.lower()] *)
Fixpoint lower (s : string) : string :=
  match s with
  | EmptyString => EmptyString
  | String a s' => String (lower_char a) (lower s')
  end.

Definition is_empty (s : string) : bool :=
  match s with EmptyString => true | _ => false end.

Fixpoint lstrip (s : string) : string :=
  match s with
  | EmptyString => EmptyString
  | String a s' => if is_space a then lstrip s' else s
  end.

Fixpoint rstrip (s : string) : string :=
  match s with
  | EmptyString => EmptyString
  | String a s' =>
      let r := rstrip s' in
      if is_space a && is_empty r then EmptyString else String a r
  end.

(** [s.strip()] *)
Definition strip (s : string) : string := rstrip (lstrip s).

(** [s[:n]] for [n >= 0] *)
Definition str_take (n : nat) (s : string) : string := String.substring 0 n s.

Definition flush (cur : list ascii) : string := string_of_list_ascii (rev cur).

(** [re.findall(r'\b\w+\b', s)]: the maximal runs of word characters. *)
Fixpoint findall_words_go (cur : list ascii) (s : string) : list string :=
  match s with
  | EmptyString => match cur with [] => [] | _ => [flush cur] end
  | String a s' =>
      if is_word_char a then findall_words_go (a :: cur) s'
      else match cur with
           | [] => findall_words_go [] s'
           | _ => flush cur :: findall_words_go [] s'
           end
  end.
Definition findall_words (s : string) : list string := findall_words_go [] s.

(** [re.split(pattern, s)] for a pattern [[...]+] matching the maximal runs
    of the characters [delim]: the pieces between the runs, empty pieces at
    both ends included. *)
Fixpoint split_runs_go (delim : ascii → bool) (cur : list ascii) (in_run : bool)
    (s : string) : list string :=
  match s with
  | EmptyString => [flush cur]
  | String a s' =>
      if delim a then
        if in_run then split_runs_go delim [] true s'
        else flush cur :: split_runs_go delim [] true s'
      else split_runs_go delim (a :: cur) false s'
  end.
Definition split_runs (delim : ascii → bool) (s : string) : list string :=
  split_runs_go delim [] false s.

(** [sep.join(l)] *)
Fixpoint join (sep : string) (l : list string) : string :=
  match l with
  | [] => ""
  | [x] => x
  | x :: l' => x +:+ sep +:+ join sep l'
  end.

(** [f"{x:.3f}"] *)
Definition pad3 (n : Z) : string :=
  let s := pretty n in
  match String.length s with
  | 1 => "00" +:+ s
  | 2 => "0" +:+ s
  | _ => s
  end.
Definition format_3f (x : Q) : string :=
  let n := Z.abs (round_half_even (x * 1000)) in
  (if Qltb x 0 then "-" else "") +:+ pretty (n / 1000)%Z +:+ "." +:+ pad3 (n mod 1000)%Z.

(** *** Dynamically typed values *)

Inductive value : Type :=
  | VNone
  | VNum (q : Q)
  | VStr (s : string)
  | VList (l : list value)
  | VDict (d : gmap string value).

(** A dictionary object: the fields of a post or of an analysis. *)
Abbreviation dict := (gmap string value).

(** Truth value of an object ([not x] is its negation). *)
Definition truthy (v : value) : bool :=
  match v with
  | VNone => false
  | VNum q => negb (Qeq_bool q 0)
  | VStr s => negb (is_empty s)
  | VList l => match l with [] => false | _ => true end
  | VDict d => negb (Nat.eqb (size d) 0)
  end.

(** [a or b] *)
Definition py_or (a b : value) : value := if truthy a then a else b.

(** [d.get(k)] and [d.get(k, default)] *)
Definition get (d : dict) (k : string) : value := default VNone (d !! k).
Definition get_default (d : dict) (k : string) (dflt : value) : value :=
  default dflt (d !! k).

(** [v.get(k, default)] on an arbitrary object: only dictionaries have [get]. *)
Definition obj_get (v : value) (k : string) (dflt : value) : result value :=
  match v with
  | VDict d => Ok (get_default d k dflt)
  | _ => Raise AttributeError
  end.

(** [v == s] for a string [s]: objects of other types are never equal to it. *)
Definition eq_str (v : value) (s : string) : bool :=
  match v with
  | VStr s' => String.eqb s' s
  | _ => false
  end.

(** [x < y], as used by [sorted] on the sort keys: defined between two
    numbers and between two strings; [TypeError] between [None], dictionaries
    and objects of different types.  (Python also orders two lists
    lexicographically; no sort key of this program is a list, and the model
    reports them as [TypeError].) *)
Definition py_lt (x y : value) : result bool :=
  match x, y with
  | VNum a, VNum b => Ok (Qltb a b)
  | VStr a, VStr b => Ok (String.ltb a b)
  | _, _ => Raise TypeError
  end.

(** Number view of a value, as required by [sum]. *)
Definition as_num (v : value) : result Float.float :=
  match v with
  | VNum q => Ok (Float.of_Q q)
  | _ => Raise TypeError
  end.

(** [sum(l)] *)
Definition py_sum (l : list value) : result Float.float :=
  xs ← for_each as_num l; Ok (float_sum xs).

(** Hashability, as required of [Counter] elements and dictionary keys. *)
Definition hashable (v : value) : result value :=
  match v with
  | VList _ | VDict _ => Raise TypeError
  | _ => Ok v
  end.

(** *** [sorted(l, key=..., reverse=...)]

    The keys are computed first, one per element; the elements are then
    ordered by comparing keys with [<] only.  The sort is stable, also with
    [reverse=True]: elements whose keys are equal keep their original
    relative order.  The model inserts each element in front of the already
    ordered later elements, behind those that must precede it. *)

Fixpoint insert_keyed {A : Type} (reverse : bool) (kx : value * A)
    (l : list (value * A)) : result (list (value * A)) :=
  match l with
  | [] => Ok [kx]
  | ky :: l' =>
      behind ← (if reverse then py_lt kx.1 ky.1 else py_lt ky.1 kx.1);
      if behind : bool then r ← insert_keyed reverse kx l'; Ok (ky :: r)
      else Ok (kx :: ky :: l')
  end.

Fixpoint sort_keyed {A : Type} (reverse : bool) (l : list (value * A))
    : result (list (value * A)) :=
  match l with
  | [] => Ok []
  | kx :: l' => r ← sort_keyed reverse l'; insert_keyed reverse kx r
  end.

Definition sorted {A : Type} (key : A → result value) (reverse : bool) (l : list A)
    : result (list A) :=
  keyed ← for_each (λ x, k ← key x; Ok (k, x)) l;
  r ← sort_keyed reverse keyed;
  Ok (r.*2).

(** [l[:n]] for an integer [n]: a negative [n] counts from the end. *)
Definition slice_to {A : Type} (n : Z) (l : list A) : list A :=
  if (0 <=? n)%Z then take (Z.to_nat n) l
  else take (length l - Z.to_nat (- n)) l.

End Py.

Import Py.

(** ** The object store

    Posts are dictionary objects handled by reference: [analyze_posts]
    receives a list of references, copies each object and writes into the
    copy.  The store holds the dictionary objects; a location is an index
    into it and allocation extends it at the end.  The values stored in a
    dictionary are immutable in this model (no operation of the analyzers
    writes into a nested object). *)

Module Store.

Abbreviation loc := nat.
Abbreviation heap := (list dict).

Definition M (A : Type) : Type := heap → result A * heap.

Global Instance M_ret : MRet M := λ A a h, (Ok a, h).
Global Instance M_bind : MBind M := λ A B f m h,
  match m h with
  | (Ok a, h') => f a h'
  | (Raise e, h') => (Raise e, h')
  end.

Definition lift {A : Type} (r : result A) : M A := λ h, (r, h).

(** Reading the object behind a reference. *)
Definition read (l : loc) : M dict := λ h,
  match h !! l with
  | Some d => (Ok d, h)
  | None => (Raise InvalidReference, h)
  end.

(** Allocation of a new object, and replacement of an object's fields. *)
Definition alloc (d : dict) : M loc := λ h, (Ok (length h), h ++ [d]).
Definition write (l : loc) (d : dict) : M unit := λ h, (Ok (), <[l := d]> h).

(** [d.copy()]: a new object with the same fields. *)
Definition copy (l : loc) : M loc :=
  d ← read l; alloc d.

(** [d[k] = v] *)
Definition setitem (l : loc) (k : string) (v : value) : M unit :=
  d ← read l; write l (<[k := v]> d).

End Store.

(** ** Code shared by the two analyzer classes

    [analyze_posts] and [get_sentiment_distribution] have the same body in
    [SentimentAnalyzer] and in [EnhancedSentimentAnalyzer]; the body is
    embedded once, with [self.analyze_text] as a parameter. *)

Module Shared.

Import Store.

(** [post.get('sentiment_analysis', {}).get(field, dflt)] *)
Definition analysis_field (post : dict) (field : string) (dflt : value) : result value :=
  obj_get (get_default post "sentiment_analysis" (VDict ∅)) field dflt.

(** The text a post is analysed on:
    [post.get('full_text') or post.get('text', '')]. *)
Definition post_text (post : dict) : value :=
  py_or (get post "full_text") (get_default post "text" (VStr "")).

Section AnalyzePosts.
Variable analyze_text : value → result dict.

Fixpoint analyze_posts_loop (posts : list loc) (analyzed_posts : list loc) : M (list loc) :=
  match posts with
  | [] => mret analyzed_posts
  | post :: rest =>
      d ← read post;
      let text := post_text d in
      analysis ← lift (analyze_text text);
      post_copy ← copy post;
      _ ← setitem post_copy "sentiment_analysis" (VDict analysis);
      analyze_posts_loop rest (analyzed_posts ++ [post_copy])
  end.

Definition analyze_posts (posts : list loc) : M (list loc) :=
  analyze_posts_loop posts [].
End AnalyzePosts.

Record distribution : Type := {
  total : nat;
  positive : nat;
  negative : nat;
  neutral : nat;
  positive_pct : Float.float;
  negative_pct : Float.float;
  neutral_pct : Float.float
}.

(** [Counter(sentiments).get(label, 0)] *)
Definition count_label (sentiments : list value) (label : string) : nat :=
  length (filter (λ v, eq_str v label = true) sentiments).

(** [round((count / total) * 100, 2)] *)
Definition percentage (count total : nat) : result Float.float :=
  q ← int_truediv count total;
  Ok (py_round_float (Float.mul q (Float.of_Z 100)) 2).

Definition get_sentiment_distribution (posts : list dict) : result distribution :=
  match posts with
  | [] =>
      Ok {| total := 0; positive := 0; negative := 0; neutral := 0;
            positive_pct := Float.zero; negative_pct := Float.zero;
            neutral_pct := Float.zero |}
  | _ =>
      sentiments ← for_each (λ post, analysis_field post "sentiment" (VStr "neutral")) posts;
      sentiment_counts ← for_each hashable sentiments;
      let total := length posts in
      positive_pct ← percentage (count_label sentiment_counts "positive") total;
      negative_pct ← percentage (count_label sentiment_counts "negative") total;
      neutral_pct ← percentage (count_label sentiment_counts "neutral") total;
      Ok {| total := total;
            positive := count_label sentiment_counts "positive";
            negative := count_label sentiment_counts "negative";
            neutral := count_label sentiment_counts "neutral";
            positive_pct := positive_pct;
            negative_pct := negative_pct;
            neutral_pct := neutral_pct |}
  end.

End Shared.

(** ** [EnhancedSentimentAnalyzer] *)

Module Enhanced.

(** The result of [self.vader.polarity_scores(text)]. *)
Record vader_scores : Type := {
  compound : Q;
  pos : Q;
  neg : Q;
  neu : Q
}.

(** The attributes [__init__] sets on the instance: the six lexicons. *)
Record analyzer : Type := {
  strong_positive : gset string;
  strong_negative : gset string;
  positive_words : gset string;
  negative_words : gset string;
  negations : gset string;
  intensifiers : gset string
}.

(** [__init__] *)
Definition init : analyzer := {|
  strong_positive := {[
    "love"; "amazing"; "excellent"; "fantastic"; "wonderful"; "brilliant";
    "awesome"; "great"; "perfect"; "outstanding"; "superb"; "incredible";
    "magnificent"; "spectacular"; "phenomenal"; "exceptional"; "fabulous" ]};
  strong_negative := {[
    "hate"; "terrible"; "awful"; "horrible"; "worst"; "disgusting";
    "pathetic"; "useless"; "garbage"; "trash"; "disappointing";
    "disaster"; "nightmare"; "dreadful"; "appalling"; "atrocious" ]};
  positive_words := {[
    "good"; "nice"; "fine"; "ok"; "decent"; "solid"; "happy"; "pleased";
    "satisfied"; "enjoyable"; "fun"; "interesting"; "cool"; "helpful";
    "useful"; "effective"; "efficient"; "reliable"; "quality" ]};
  negative_words := {[
    "bad"; "poor"; "weak"; "disappointing"; "frustrating"; "annoying";
    "sad"; "unhappy"; "difficult"; "hard"; "confusing"; "complicated";
    "slow"; "expensive"; "broken"; "buggy"; "error"; "issue"; "problem" ]};
  negations := {[
    "not"; "no"; "never"; "nothing"; "neither"; "nobody"; "nowhere";
    "none"; "don't"; "doesn't"; "didn't"; "won't"; "wouldn't"; "shouldn't";
    "can't"; "cannot"; "couldn't" ]};
  intensifiers := {[
    "very"; "extremely"; "incredibly"; "absolutely"; "completely";
    "totally"; "really"; "quite"; "fairly"; "pretty"; "highly";
    "exceptionally"; "remarkably"; "extraordinarily" ]}
|}.

(** One entry of [sentence_breakdown]. *)
Record sentence_entry : Type := {
  entry_text : string;
  entry_sentiment : string;
  entry_score : Q
}.

(** The dictionary [analyze_text] returns, one field per key; the keys
    ['positive_words'], ['negative_words'], ['negations'] and
    ['intensifiers'] are the fields [found_...]. *)
Record analysis : Type := {
  vader_compound : Q;
  vader_positive : Q;
  vader_negative : Q;
  vader_neutral : Q;
  textblob_polarity : Q;
  textblob_subjectivity : Q;
  sentiment : string;
  confidence : string;
  found_positive_words : list (string * string);
  found_negative_words : list (string * string);
  found_negations : list string;
  found_intensifiers : list string;
  sentence_breakdown : list sentence_entry;
  explanation : string;
  reasoning : list string
}.

(** The classification of a compound score, as written in [analyze_text]
    and again in [_analyze_sentences]. *)
Definition classify (compound : Q) : string :=
  if Qleb (5 # 100) compound then "positive"
  else if Qleb compound (- (5 # 100)) then "negative"
  else "neutral".

Definition confidence_of (compound : Q) : string :=
  if Qleb (5 # 100) compound then
    if Qleb (5 # 10) compound then "high"
    else if Qleb (25 # 100) compound then "moderate" else "low"
  else if Qleb compound (- (5 # 100)) then
    if Qleb compound (- (5 # 10)) then "high"
    else if Qleb compound (- (25 # 100)) then "moderate" else "low"
  else "moderate".

Definition nonempty {A : Type} (l : list A) : bool :=
  match l with [] => false | _ => true end.

Section Analyzer.
(** [self.vader.polarity_scores] *)
Variable polarity_scores : string → vader_scores.
(** [TextBlob(text).sentiment], which may raise *)
Variable textblob_sentiment : string → outcome (Q * Q).
(** The order in which [set(l)] is iterated: left unspecified by Python. *)
Variable set_order : list string → list string.
(** The instance *)
Variable self : analyzer.

Definition _tokenize (text : string) : list string :=
  findall_words (lower text).

Definition sentence_delimiter (a : ascii) : bool :=
  (code a =? 46)%N || (code a =? 33)%N || (code a =? 63)%N.

Definition _split_sentences (text : string) : list string :=
  let sentences := split_runs sentence_delimiter text in
  strip <$> filter (λ s, is_empty (strip s) = false) sentences.

Definition _find_sentiment_words (words : list string) (sentiment_type : string)
    : list (string * string) :=
  if String.eqb sentiment_type "positive" then
    omap (λ word,
      if bool_decide (word ∈ strong_positive self) then Some (word, "strong")
      else if bool_decide (word ∈ positive_words self) then Some (word, "moderate")
      else None) words
  else
    omap (λ word,
      if bool_decide (word ∈ strong_negative self) then Some (word, "strong")
      else if bool_decide (word ∈ negative_words self) then Some (word, "moderate")
      else None) words.

Definition _find_negations (words : list string) : list string :=
  filter (λ w, w ∈ negations self) words.

Definition _find_intensifiers (words : list string) : list string :=
  filter (λ w, w ∈ intensifiers self) words.

Definition analyze_sentence (sentence : string) : sentence_entry :=
  let vader_scores := polarity_scores sentence in
  let compound := compound vader_scores in
  {| entry_text :=
       if (100 <? String.length sentence)%nat
       then str_take 100 sentence +:+ "..." else sentence;
     entry_sentiment := classify compound;
     entry_score := py_round compound 3 |}.

Definition _analyze_sentences (sentences : list string) : list sentence_entry :=
  omap (λ sentence,
    if is_empty sentence then None else Some (analyze_sentence sentence))
    (take 5 sentences).

Definition words_of_strength (indicators : list (string * string)) (strength : string)
    : list string :=
  fst <$> filter (λ ws, String.eqb ws.2 strength = true) indicators.

Definition count_sentences (sentence_sentiments : list sentence_entry) (label : string)
    : nat :=
  length (filter (λ s, String.eqb (entry_sentiment s) label = true) sentence_sentiments).

(** The last block of [_generate_explanation] ([# Sentence breakdown]):
    the clauses it appends. *)
Definition sentence_clause (sentence_sentiments : list sentence_entry) : list string :=
  if (1 <? length sentence_sentiments)%nat then
    let pos_sentences := count_sentences sentence_sentiments "positive" in
    let neg_sentences := count_sentences sentence_sentiments "negative" in
    if (neg_sentences <? pos_sentences)%nat then
      ["Most sentences (" +:+ pretty pos_sentences +:+ "/"
         +:+ pretty (length sentence_sentiments) +:+ ") are positive."]
    else if (pos_sentences <? neg_sentences)%nat then
      ["Most sentences (" +:+ pretty neg_sentences +:+ "/"
         +:+ pretty (length sentence_sentiments) +:+ ") are negative."]
    else []
  else [].

Definition indicator_clauses (indicators : list (string * string))
    (strong_prefix moderate_prefix : string) : list string :=
  if nonempty indicators then
    let strong := words_of_strength indicators "strong" in
    let moderate := words_of_strength indicators "moderate" in
    (if nonempty strong
     then [strong_prefix +:+ join ", " (set_order strong) +:+ "."] else [])
    ++ (if nonempty moderate
        then [moderate_prefix +:+ join ", " (set_order moderate) +:+ "."] else [])
  else [].

Definition explanation_parts (sentiment : string) (compound : Q)
    (positive_indicators negative_indicators : list (string * string))
    (negations_found intensifiers_found : list string)
    (sentence_sentiments : list sentence_entry) : list string :=
  [ if String.eqb sentiment "positive"
    then "This text is **POSITIVE** (score: " +:+ format_3f compound +:+ ")."
    else if String.eqb sentiment "negative"
    then "This text is **NEGATIVE** (score: " +:+ format_3f compound +:+ ")."
    else "This text is **NEUTRAL** (score: " +:+ format_3f compound +:+ ")." ]
  ++ indicator_clauses positive_indicators "Strong positive words found: " "Positive words: "
  ++ indicator_clauses negative_indicators "Strong negative words found: " "Negative words: "
  ++ (if nonempty negations_found
      then ["Negations detected (" +:+ join ", " (set_order negations_found)
              +:+ ") which may flip sentiment."]
      else [])
  ++ (if nonempty intensifiers_found
      then ["Intensifiers found (" +:+ join ", " (set_order intensifiers_found)
              +:+ ") which amplify sentiment."]
      else [])
  ++ sentence_clause sentence_sentiments.

Definition _generate_explanation (sentiment : string) (compound : Q)
    (positive_indicators negative_indicators : list (string * string))
    (negations_found intensifiers_found : list string)
    (sentence_sentiments : list sentence_entry) : string :=
  join " " (explanation_parts sentiment compound positive_indicators
              negative_indicators negations_found intensifiers_found
              sentence_sentiments).

Definition _generate_reasoning (sentiment : string)
    (positive_indicators negative_indicators : list (string * string))
    (negations intensifiers : list string) : list string :=
  (if String.eqb sentiment "positive" then
     (if nonempty positive_indicators
      then ["Contains " +:+ pretty (length positive_indicators) +:+ " positive indicators"]
      else [])
     ++ (if nonempty intensifiers
         then ["Uses " +:+ pretty (length intensifiers) +:+ " intensifiers to strengthen tone"]
         else [])
     ++ (if nonempty negative_indicators then []
         else ["No significant negative language detected"])
   else if String.eqb sentiment "negative" then
     (if nonempty negative_indicators
      then ["Contains " +:+ pretty (length negative_indicators) +:+ " negative indicators"]
      else [])
     ++ (if nonempty intensifiers
         then ["Uses " +:+ pretty (length intensifiers)
                 +:+ " intensifiers to strengthen criticism"]
         else [])
     ++ (if nonempty positive_indicators then []
         else ["No significant positive language detected"])
   else
     ["Balanced or factual language"]
     ++ (if nonempty positive_indicators || nonempty negative_indicators then []
         else ["Lacks strong emotional indicators"]))
  ++ (if nonempty negations
      then ["Contains " +:+ pretty (length negations) +:+ " negations that may affect meaning"]
      else []).

Definition _empty_result : analysis := {|
  vader_compound := 0;
  vader_positive := 0;
  vader_negative := 0;
  vader_neutral := 1;
  textblob_polarity := 0;
  textblob_subjectivity := 0;
  sentiment := "neutral";
  confidence := "low";
  found_positive_words := [];
  found_negative_words := [];
  found_negations := [];
  found_intensifiers := [];
  sentence_breakdown := [];
  explanation := "Empty or invalid text.";
  reasoning := ["No content to analyze"]
|}.

(** The body of [analyze_text] after the blank-input test. *)
Definition analyze_nonblank (text : string) : result analysis :=
  let vader_scores := polarity_scores text in
  '(textblob_polarity, textblob_subjectivity) ← propagate (textblob_sentiment text);
  let words := _tokenize (lower text) in
  let sentences := _split_sentences text in
  let positive_indicators := _find_sentiment_words words "positive" in
  let negative_indicators := _find_sentiment_words words "negative" in
  let negations_found := _find_negations words in
  let intensifiers_found := _find_intensifiers words in
  let sentence_sentiments := _analyze_sentences sentences in
  let compound := compound vader_scores in
  let sentiment := classify compound in
  let confidence := confidence_of compound in
  let explanation :=
    _generate_explanation sentiment compound positive_indicators
      negative_indicators negations_found intensifiers_found sentence_sentiments in
  Ok {|
    vader_compound := py_round compound 3;
    vader_positive := py_round (pos vader_scores) 3;
    vader_negative := py_round (neg vader_scores) 3;
    vader_neutral := py_round (neu vader_scores) 3;
    textblob_polarity := py_round textblob_polarity 3;
    textblob_subjectivity := py_round textblob_subjectivity 3;
    sentiment := sentiment;
    confidence := confidence;
    found_positive_words := positive_indicators;
    found_negative_words := negative_indicators;
    found_negations := negations_found;
    found_intensifiers := intensifiers_found;
    sentence_breakdown := sentence_sentiments;
    explanation := explanation;
    reasoning :=
      _generate_reasoning sentiment positive_indicators negative_indicators
        negations_found intensifiers_found
  |}.

(** [analyze_text]; [text] is whatever object the caller passes.  The test
    [not text or not text.strip()] calls [strip] on every truthy object,
    which only strings have. *)
Definition analyze_text (text : value) : result analysis :=
  if negb (truthy text) then Ok _empty_result
  else match text with
       | VStr s =>
           if is_empty (strip s) then Ok _empty_result else analyze_nonblank s
       | _ => Raise AttributeError
       end.

(** The returned dictionary as an object stored in a post. *)
Definition indicator_value (ws : string * string) : value :=
  VList [VStr ws.1; VStr ws.2].
Definition entry_value (e : sentence_entry) : value :=
  VDict (list_to_map [
    ("text", VStr (entry_text e));
    ("sentiment", VStr (entry_sentiment e));
    ("score", VNum (entry_score e)) ]).
Definition analysis_dict (r : analysis) : dict :=
  list_to_map [
    ("vader_compound", VNum (vader_compound r));
    ("vader_positive", VNum (vader_positive r));
    ("vader_negative", VNum (vader_negative r));
    ("vader_neutral", VNum (vader_neutral r));
    ("textblob_polarity", VNum (textblob_polarity r));
    ("textblob_subjectivity", VNum (textblob_subjectivity r));
    ("sentiment", VStr (sentiment r));
    ("confidence", VStr (confidence r));
    ("positive_words", VList (indicator_value <$> found_positive_words r));
    ("negative_words", VList (indicator_value <$> found_negative_words r));
    ("negations", VList (VStr <$> found_negations r));
    ("intensifiers", VList (VStr <$> found_intensifiers r));
    ("sentence_breakdown", VList (entry_value <$> sentence_breakdown r));
    ("explanation", VStr (explanation r));
    ("reasoning", VList (VStr <$> reasoning r)) ].

Definition analyze_posts (posts : list Store.loc) : Store.M (list Store.loc) :=
  Shared.analyze_posts (λ text, analysis_dict <$> analyze_text text) posts.

Definition get_sentiment_distribution (posts : list dict) : result Shared.distribution :=
  Shared.get_sentiment_distribution posts.

End Analyzer.

End Enhanced.

(** ** [SentimentAnalyzer] *)

Module Simple.

Definition POSITIVE_THRESHOLD : Q := 1 # 10.
Definition NEGATIVE_THRESHOLD : Q := - (1 # 10).

(** The dictionary [analyze_text] returns; [error] is the key present only
    in the result of the [except] branch. *)
Record analysis : Type := {
  polarity : Q;
  subjectivity : Q;
  sentiment : string;
  confidence : Q;
  error : option string
}.

(** The classification written in [analyze_text], on the score the model
    returns.  [get_average_sentiment] writes the same comparisons again, on
    the average it has computed. *)
Definition classify (polarity : Q) : string :=
  if Qltb POSITIVE_THRESHOLD polarity then "positive"
  else if Qltb polarity NEGATIVE_THRESHOLD then "negative"
  else "neutral".

Definition neutral_result (error : option string) : analysis := {|
  polarity := 0;
  subjectivity := 0;
  sentiment := "neutral";
  confidence := 0;
  error := error
|}.

Record average : Type := {
  avg_polarity : Float.float;
  avg_subjectivity : Float.float;
  overall_sentiment : string
}.

(** The platform groups of [get_platform_sentiment]: a dictionary keyed by
    the platform objects, in insertion order. *)
Definition key_eqb (a b : value) : bool :=
  match a, b with
  | VNone, VNone => true
  | VNum x, VNum y => Qeq_bool x y
  | VStr x, VStr y => String.eqb x y
  | _, _ => false
  end.

Fixpoint group_append {A : Type} (platform : value) (post : A)
    (groups : list (value * list A)) : list (value * list A) :=
  match groups with
  | [] => [(platform, [post])]
  | (k, l) :: rest =>
      if key_eqb k platform then (k, l ++ [post]) :: rest
      else (k, l) :: group_append platform post rest
  end.

Section Analyzer.
(** [TextBlob(text).sentiment], which may raise *)
Variable textblob_sentiment : string → outcome (Q * Q).

(** The [try] block of [analyze_text] with its [except] branch. *)
Definition analyze_nonblank (text : string) : analysis :=
  match textblob_sentiment text with
  | inr (polarity, subjectivity) =>
      let sentiment := classify polarity in
      let confidence := py_abs polarity in
      {| polarity := py_round polarity 3;
         subjectivity := py_round subjectivity 3;
         sentiment := sentiment;
         confidence := py_round confidence 3;
         error := None |}
  | inl e => neutral_result (Some e)
  end.

(** [analyze_text]; the blank-input test precedes the [try] block, so its
    [strip] raises on a truthy object that is not a string. *)
Definition analyze_text (text : value) : result analysis :=
  if negb (truthy text) then Ok (neutral_result None)
  else match text with
       | VStr s =>
           if is_empty (strip s) then Ok (neutral_result None)
           else Ok (analyze_nonblank s)
       | _ => Raise AttributeError
       end.

(** The returned dictionary as an object stored in a post. *)
Definition analysis_dict (r : analysis) : dict :=
  let d : dict := list_to_map [
    ("polarity", VNum (polarity r));
    ("subjectivity", VNum (subjectivity r));
    ("sentiment", VStr (sentiment r));
    ("confidence", VNum (confidence r)) ] in
  match error r with
  | Some e => <["error" := VStr e]> d
  | None => d
  end.

Definition analyze_posts (posts : list Store.loc) : Store.M (list Store.loc) :=
  Shared.analyze_posts (λ text, analysis_dict <$> analyze_text text) posts.
End Analyzer.

Definition get_sentiment_distribution (posts : list dict) : result Shared.distribution :=
  Shared.get_sentiment_distribution posts.

Definition get_platform_sentiment (posts : list dict)
    : result (list (value * Shared.distribution)) :=
  platform_posts ← fold_each (λ groups post,
      platform ← hashable (get_default post "platform" (VStr "unknown"));
      Ok (group_append platform post groups)) [] posts;
  for_each (λ g : value * list dict,
      d ← get_sentiment_distribution g.2; Ok (g.1, d)) platform_posts.

Definition get_top_posts_by_sentiment (posts : list dict) (sentiment : string)
    (limit : Z) : result (list dict) :=
  filtered_posts ← filter_each (λ post,
      s ← Shared.analysis_field post "sentiment" VNone;
      Ok (eq_str s sentiment)) posts;
  sorted_posts ← sorted (λ p, Shared.analysis_field p "confidence" (VNum 0))
                   true filtered_posts;
  Ok (slice_to limit sorted_posts).

Definition get_average_sentiment (posts : list dict) : result average :=
  match posts with
  | [] =>
      Ok {| avg_polarity := Float.zero; avg_subjectivity := Float.zero;
            overall_sentiment := "neutral" |}
  | _ =>
      polarities ← for_each (λ post, Shared.analysis_field post "polarity" (VNum 0)) posts;
      subjectivities ←
        for_each (λ post, Shared.analysis_field post "subjectivity" (VNum 0)) posts;
      sum_polarities ← py_sum polarities;
      avg_polarity ← float_truediv sum_polarities (length polarities);
      sum_subjectivities ← py_sum subjectivities;
      avg_subjectivity ← float_truediv sum_subjectivities (length subjectivities);
      let overall_sentiment :=
        if Float.ltb (Float.of_Q POSITIVE_THRESHOLD) avg_polarity then "positive"
        else if Float.ltb avg_polarity (Float.of_Q NEGATIVE_THRESHOLD) then "negative"
        else "neutral" in
      Ok {| avg_polarity := py_round_float avg_polarity 3;
            avg_subjectivity := py_round_float avg_subjectivity 3;
            overall_sentiment := overall_sentiment |}
  end.

End Simple.

(** ** The ranking of [app.py]

    The application ranks the posts analysed by the enhanced variant itself:
    the five most positive posts by descending [vader_compound], the five
    most negative ones by ascending [vader_compound]. *)

Module App.

Definition posts_with_sentiment (analyzed_posts : list dict) (label : string)
    : result (list dict) :=
  filter_each (λ p,
      s ← Shared.analysis_field p "sentiment" VNone;
      Ok (eq_str s label)) analyzed_posts.

Definition compound_key (p : dict) : result value :=
  Shared.analysis_field p "vader_compound" (VNum 0).

Definition top_positive (analyzed_posts : list dict) : result (list dict) :=
  l ← posts_with_sentiment analyzed_posts "positive";
  sorted_posts ← sorted compound_key true l;
  Ok (slice_to 5 sorted_posts).

Definition top_negative (analyzed_posts : list dict) : result (list dict) :=
  l ← posts_with_sentiment analyzed_posts "negative";
  sorted_posts ← sorted compound_key false l;
  Ok (slice_to 5 sorted_posts).

Definition average_sentiment (analyzed_posts : list dict) : result Simple.average :=
  polarities ← for_each compound_key analyzed_posts;
  subjectivities ←
    for_each (λ p, Shared.analysis_field p "textblob_subjectivity" (VNum 0)) analyzed_posts;
  avg_polarity ←
    (if Enhanced.nonempty polarities
     then s ← py_sum polarities; float_truediv s (length polarities)
     else Ok Float.zero);
  avg_subjectivity ←
    (if Enhanced.nonempty subjectivities
     then s ← py_sum subjectivities; float_truediv s (length subjectivities)
     else Ok Float.zero);
  let overall :=
    if Float.ltb (Float.of_Q (5 # 100)) avg_polarity then "positive"
    else if Float.ltb avg_polarity (Float.of_Q (- (5 # 100))) then "negative"
    else "neutral" in
  Ok {| Simple.avg_polarity := py_round_float avg_polarity 3;
        Simple.avg_subjectivity := py_round_float avg_subjectivity 3;
        Simple.overall_sentiment := overall |}.

End App.

(** ** Vocabulary of the statements *)

(** A string all of whose characters are whitespace (the empty one included). *)
Fixpoint whitespace_only (s : string) : bool :=
  match s with
  | EmptyString => true
  | String a s' => is_space a && whitespace_only s'
  end.

(** The inputs the analyzers treat as blank: [None], and the strings made of
    whitespace only (the empty string among them). *)
Definition blank (text : value) : Prop :=
  text = VNone ∨ ∃ s, text = VStr s ∧ whitespace_only s = true.

(** The strong tier a token is tested against first, for a sentiment type. *)
Definition strong_tier (self : Enhanced.analyzer) (sentiment_type : string) : gset string :=
  if String.eqb sentiment_type "positive"
  then Enhanced.strong_positive self else Enhanced.strong_negative self.

(** Number of occurrences of [x] in [l]. *)
Definition occurrences {A : Type} `{EqDecision A} (x : A) (l : list A) : nat :=
  length (filter (λ y, y = x) l).

(** Sample scoring models, used to run the analyzers on concrete inputs:
    a compound-valence model that knows one sentence, and polarity models
    returning a fixed score or raising. *)
Definition sample_scores (text : string) : Enhanced.vader_scores :=
  if String.eqb text "I love it"
  then {| Enhanced.compound := 6369 # 10000; Enhanced.pos := 8 # 10;
          Enhanced.neg := 0; Enhanced.neu := 2 # 10 |}
  else {| Enhanced.compound := 0; Enhanced.pos := 0;
          Enhanced.neg := 0; Enhanced.neu := 1 |}.
Definition fixed_polarity (polarity subjectivity : Q) (text : string) : outcome (Q * Q) :=
  inr (polarity, subjectivity).
Definition failing_model (text : string) : outcome (Q * Q) :=
  inl "model unavailable".

(** A sentence entry with a given label. *)
Definition labelled (text label : string) (score : Q) : Enhanced.sentence_entry :=
  {| Enhanced.entry_text := text; Enhanced.entry_sentiment := label;
     Enhanced.entry_score := score |}.

(** *** Reading analysed posts *)

(** The field [field] of the analysis of a post is usable as a number: the
    post has no analysis, or its analysis is a dictionary in which the field
    is missing or a number. *)
Definition well_typed_field (post : dict) (field : string) : bool :=
  match post !! "sentiment_analysis" with
  | None => true
  | Some (VDict a) =>
      match a !! field with
      | None | Some (VNum _) => true
      | Some _ => false
      end
  | Some _ => false
  end.

(** The number read from that field, 0 when the analysis or the field is
    missing. *)
Definition field_or_zero (field : string) (post : dict) : Q :=
  match post !! "sentiment_analysis" with
  | Some (VDict a) =>
      match a !! field with
      | Some (VNum q) => q
      | _ => 0
      end
  | _ => 0
  end.

(** The post carries an analysis whose sentiment is the string [label]. *)
Definition has_sentiment (label : string) (post : dict) : bool :=
  match post !! "sentiment_analysis" with
  | Some (VDict a) =>
      match a !! "sentiment" with
      | Some v => eq_str v label
      | None => false
      end
  | _ => false
  end.

(** *** Rankings *)

(** The order [sorted] establishes on numeric keys: descending when
    [reverse] is set, ascending otherwise. *)
Definition in_order {A : Type} (key : A → Q) (reverse : bool) (a b : A) : Prop :=
  if reverse then (key b <= key a)%Q else (key a <= key b)%Q.

(** The stable sort on numeric keys as a function: each element is put in
    front of the ordered later elements, behind those that precede it. *)
Definition behind (reverse : bool) (kx ky : Q) : bool :=
  if reverse then Qltb kx ky else Qltb ky kx.

Fixpoint insert_by {A : Type} (key : A → Q) (reverse : bool) (x : A) (l : list A)
    : list A :=
  match l with
  | [] => [x]
  | y :: l' =>
      if behind reverse (key x) (key y) then y :: insert_by key reverse x l'
      else x :: y :: l'
  end.

Fixpoint sort_by {A : Type} (key : A → Q) (reverse : bool) (l : list A) : list A :=
  match l with
  | [] => []
  | x :: l' => insert_by key reverse x (sort_by key reverse l')
  end.

(** [out] is the ranking of the posts of [posts] labelled [label], by the
    key [key], cut after [k] posts:
    - it has [k] posts, or all the labelled posts when they are fewer;
    - each of its posts is labelled [label];
    - it is ordered by the key;
    - posts with equal keys keep the relative order they have in [posts]:
      for every key value, the posts of [out] with that key are the first
      ones, in order, of the labelled posts of [posts] with that key;
    - it is made of labelled posts of [posts], and the labelled posts it
      leaves out do not precede any of its posts in the order. *)
Definition is_ranking (key : dict → Q) (reverse : bool) (label : string) (k : nat)
    (posts out : list dict) : Prop :=
  let candidates := filter (λ p, has_sentiment label p = true) posts in
  length out = k `min` length candidates
  ∧ Forall (λ p, has_sentiment label p = true) out
  ∧ StronglySorted (in_order key reverse) out
  ∧ (∀ c : Q, filter (λ p, Qeq_bool (key p) c = true) out
             `prefix_of` filter (λ p, Qeq_bool (key p) c = true) candidates)
  ∧ (∃ rest, out ++ rest ≡ₚ candidates
             ∧ ∀ a b, a ∈ out → b ∈ rest → in_order key reverse a b).

(** *** Sample posts *)

(** A post as [SentimentAnalyzer.analyze_posts] leaves it. *)
Definition simple_post (text label : string) (polarity : Q) : dict :=
  {[ "text" := VStr text;
     "sentiment_analysis" := VDict {[
        "polarity" := VNum polarity;
        "subjectivity" := VNum (1 # 2);
        "sentiment" := VStr label;
        "confidence" := VNum (Qabs polarity) ]} ]}.

(** A post as [EnhancedSentimentAnalyzer.analyze_posts] leaves it (the
    fields the rankings read). *)
Definition enhanced_post (text label : string) (compound : Q) : dict :=
  {[ "text" := VStr text;
     "sentiment_analysis" := VDict {[
        "vader_compound" := VNum compound;
        "textblob_subjectivity" := VNum (1 # 2);
        "sentiment" := VStr label;
        "confidence" := VStr "moderate" ]} ]}.

(** *** Averages *)

(** The arithmetic mean of rational numbers. *)
Definition mean (l : list Q) : Q :=
  (foldr Qplus 0 l / inject_Z (Z.of_nat (length l)))%Q.

(** The mean of the numbers written [l] as [sum(l) / len(l)] computes it
    on doubles. *)
Definition float_mean (l : list Q) : Float.float :=
  Float.div (float_sum (Float.of_Q <$> l)) (Float.of_Z (Z.of_nat (length l))).

(** The posts carrying a sentiment analysis. *)
Definition carries_analysis (post : dict) : bool :=
  match post !! "sentiment_analysis" with
  | Some _ => true
  | None => false
  end.

(** *** Batches in the store *)

(** An object [analyze_text] accepts without raising in its blank-input
    test: a falsy object or a string. *)
Definition text_like (v : value) : bool :=
  negb (truthy v) || match v with VStr _ => true | _ => false end.

(** [run] is the outcome of a batch analysis of [posts] in the store [h]
    that returns one new record per post: the returned references are
    pairwise distinct and denote no object of [h]; every object of [h] is
    left as it was; the record returned for a post holds the analysis of
    the post's text under ['sentiment_analysis'] and, under every other
    key, what the post holds. *)
Definition copies_with_analysis (analyze_text : value → result dict)
    (h : Store.heap) (posts : list Store.loc)
    (run : result (list Store.loc) * Store.heap) : Prop :=
  ∃ out h',
    run = (Ok out, h')
    ∧ length out = length posts
    ∧ NoDup out
    ∧ (∀ l d, h !! l = Some d → h' !! l = Some d)
    ∧ ∀ i post d,
        posts !! i = Some post → h !! post = Some d →
        ∃ l' d' a,
          out !! i = Some l'
          ∧ h !! l' = None
          ∧ h' !! l' = Some d'
          ∧ analyze_text (Shared.post_text d) = Ok a
          ∧ d' !! "sentiment_analysis" = Some (VDict a)
          ∧ ∀ k, k ≠ "sentiment_analysis" → d' !! k = d !! k.

(** *** Shapes of strings *)

(** Every character of the string satisfies [P]. *)
Fixpoint all_chars (P : ascii → bool) (s : string) : bool :=
  match s with
  | EmptyString => true
  | String a s' => P a && all_chars P s'
  end.

(** A character [lower] leaves as it is. *)
Definition is_lowered (a : ascii) : bool := bool_decide (lower_char a = a).

(** The apostrophe. *)
Definition is_apostrophe (a : ascii) : bool := (code a =? 39)%N.

(** *** Counting posts *)

(** The distribution can count the post: it has no analysis, or its analysis
    is a dictionary whose sentiment, if any, is hashable. *)
Definition countable (post : dict) : bool :=
  match post !! "sentiment_analysis" with
  | None => true
  | Some (VDict a) =>
      match a !! "sentiment" with
      | Some (VList _) | Some (VDict _) => false
      | _ => true
      end
  | Some _ => false
  end.

(** The post has the sentiment ['neutral'], or no sentiment at all. *)
Definition counted_neutral (post : dict) : bool :=
  match post !! "sentiment_analysis" with
  | None => true
  | Some (VDict a) =>
      match a !! "sentiment" with
      | None => true
      | Some v => eq_str v "neutral"
      end
  | Some _ => false
  end.

(** The sentiment the distribution reads from a post. *)
Definition sentiment_value (post : dict) : value :=
  match post !! "sentiment_analysis" with
  | Some (VDict a) => get_default a "sentiment" (VStr "neutral")
  | _ => VStr "neutral"
  end.

(** The platform a post is grouped under. *)
Definition platform_of (post : dict) : value :=
  get_default post "platform" (VStr "unknown").

Definition is_hashable (v : value) : bool :=
  match v with
  | VList _ | VDict _ => false
  | _ => true
  end.

(** *** Groups of posts *)

(** No key is equal, as a dictionary key, to a later one. *)
Fixpoint pairwise_distinct (keys : list value) : Prop :=
  match keys with
  | [] => True
  | k :: keys' =>
      Forall (λ k', Simple.key_eqb k k' = false) keys' ∧ pairwise_distinct keys'
  end.

(** [groups] groups the posts of [posts] by platform: the keys are pairwise
    distinct, no group is empty, the posts of a group have the platform of
    its key, and the groups together hold the posts of [posts], each as
    often as [posts] does. *)
Definition is_grouping (posts : list dict) (groups : list (value * list dict)) : Prop :=
  pairwise_distinct groups.*1
  ∧ Forall (λ g, g.2 ≠ []
                 ∧ Forall (λ p, Simple.key_eqb g.1 (platform_of p) = true) g.2) groups
  ∧ concat groups.*2 ≡ₚ posts.

(** A post with its platform set. *)
Definition on_platform (platform : string) (post : dict) : dict :=
  <["platform" := VStr platform]> post.

(** *** Analysed batches *)

(** The objects behind a list of references. *)
Definition records (h : Store.heap) (refs : list Store.loc) : list dict :=
  omap (λ l, h !! l) refs.

(** The record carries an analysis returned by [analyze_text]. *)
Definition carries (analyze_text : value → result dict) (record : dict) : Prop :=
  ∃ text a, analyze_text text = Ok a
            ∧ record !! "sentiment_analysis" = Some (VDict a).

(** The numeric rank of a confidence label of the enhanced variant in the
    order of strings: ['high'] < ['low'] < ['moderate']. *)
Definition label_rank (post : dict) : Q :=
  match post !! "sentiment_analysis" with
  | Some (VDict a) =>
      match a !! "confidence" with
      | Some (VStr "moderate") => 2
      | Some (VStr "low") => 1
      | _ => 0
      end
  | _ => 0
  end.

(** A compound-valence model with one text for each confidence level. *)
Definition graded_scores (text : string) : Enhanced.vader_scores :=
  let c : Q :=
    if String.eqb text "superb" then 9 # 10
    else if String.eqb text "great" then 3 # 10
    else if String.eqb text "good" then 1 # 10
    else 0%Q in
  {| Enhanced.compound := c; Enhanced.pos := c; Enhanced.neg := 0;
     Enhanced.neu := (1 - c)%Q |}.

(** A collected post with a text. *)
Definition text_post (text : string) : dict := {[ "text" := VStr text ]}.

(** * Properties *)

(** ** Comparisons of scores *)

Lemma Qleb_le (x y : Q) : Qleb x y = true ↔ (x <= y)%Q.
Proof. apply Qle_bool_iff. Qed.

Lemma Qleb_gt (x y : Q) : Qleb x y = false ↔ (y < x)%Q.
Proof.
  unfold Qleb. split; intros H.
  - apply Qnot_le_lt. intros Hle. apply Qle_bool_iff in Hle. congruence.
  - destruct (Qle_bool x y) eqn:E; [|done].
    apply Qle_bool_iff in E. exfalso. exact (Qlt_not_le _ _ H E).
Qed.

Lemma Qltb_lt (x y : Q) : Qltb x y = true ↔ (x < y)%Q.
Proof.
  unfold Qltb. rewrite negb_true_iff. apply (Qleb_gt y x).
Qed.

Lemma Qltb_ge (x y : Q) : Qltb x y = false ↔ (y <= x)%Q.
Proof.
  unfold Qltb. rewrite negb_false_iff. apply (Qleb_le y x).
Qed.

(** ** Blank strings *)

Lemma is_empty_true (s : string) : is_empty s = true ↔ s = EmptyString.
Proof. destruct s; simpl; split; congruence. Qed.

Lemma rstrip_empty (s : string) : is_empty (rstrip s) = whitespace_only s.
Proof.
  induction s as [|a s IH]; [done|]. simpl.
  rewrite IH. destruct (is_space a), (whitespace_only s); done.
Qed.

Lemma lstrip_whitespace (s : string) : whitespace_only (lstrip s) = whitespace_only s.
Proof.
  induction s as [|a s IH]; [done|]. simpl.
  destruct (is_space a) eqn:E; simpl; [done|]. by rewrite E.
Qed.

Lemma strip_empty (s : string) : is_empty (strip s) = whitespace_only s.
Proof. unfold strip. by rewrite rstrip_empty, lstrip_whitespace. Qed.

(** The stripped form of a string that is not blank is not empty. *)
Lemma strip_nonblank (s : string) :
  whitespace_only s = false → strip s ≠ EmptyString.
Proof.
  intros H E. apply is_empty_true in E. rewrite strip_empty in E. congruence.
Qed.

(** ** The lexicons and the indicator extractor *)

Lemma omap_cons_eq {A B : Type} (f : A → option B) (x : A) (l : list A) :
  omap f (x :: l) = match f x with Some y => y :: omap f l | None => omap f l end.
Proof. reflexivity. Qed.

(** One scanning loop of [_find_sentiment_words], for a strong tier [strong]
    and a moderate tier [moderate]. *)
Lemma tier_scan (strong moderate : gset string) (words : list string) (w : string) :
  w ∈ strong →
  let found := omap (λ word,
    if bool_decide (word ∈ strong) then Some (word, "strong")
    else if bool_decide (word ∈ moderate) then Some (word, "moderate")
    else None) words in
  occurrences (w, "strong") found = occurrences w words ∧ (w, "moderate") ∉ found.
Proof.
  intros Hw. unfold occurrences. simpl.
  induction words as [|x words [IHc IHn]]; [split; [done|apply not_elem_of_nil]|].
  rewrite omap_cons_eq, (filter_cons _ x).
  destruct (decide (x = w)) as [->|Hne].
  - rewrite bool_decide_eq_true_2 by done.
    rewrite filter_cons, decide_True by done. simpl. split; [by rewrite IHc|].
    rewrite not_elem_of_cons. split; [congruence|done].
  - repeat case_bool_decide; try done;
      (rewrite filter_cons, decide_False by congruence; split; [done|];
       rewrite not_elem_of_cons; split; [congruence|done]).
Qed.

(** C10.  The indicator extractor tests each token against the strong tier
    first: a word of the strong tier of the requested polarity, whether or
    not the moderate tier lists it too, is reported with strength ['strong']
    once per occurrence in the token list and never with strength
    ['moderate'].  ['disappointing'] is such a word: [__init__] lists it in
    both negative tiers. *)
Theorem strong_tier_tested_first (self : Enhanced.analyzer) (words : list string)
    (w sentiment_type : string) :
  w ∈ strong_tier self sentiment_type →
  (occurrences (w, "strong") (Enhanced._find_sentiment_words self words sentiment_type)
    = occurrences w words)
  ∧ ((w, "moderate") ∉ Enhanced._find_sentiment_words self words sentiment_type)
  ∧ "disappointing" ∈ Enhanced.strong_negative Enhanced.init
  ∧ "disappointing" ∈ Enhanced.negative_words Enhanced.init.
Proof.
  unfold strong_tier. intros Hw.
  assert (Hscan : occurrences (w, "strong")
            (Enhanced._find_sentiment_words self words sentiment_type)
            = occurrences w words
          ∧ (w, "moderate") ∉ Enhanced._find_sentiment_words self words sentiment_type).
  { unfold Enhanced._find_sentiment_words.
    destruct (String.eqb sentiment_type "positive"); by apply tier_scan. }
  destruct Hscan as [Hc Hn]. split_and!; [exact Hc|exact Hn|by vm_compute..].
Qed.

Lemma strong_tier_tested_first_witness :
  "disappointing" ∈ strong_tier Enhanced.init "negative"
  ∧ Enhanced._find_sentiment_words Enhanced.init
      ["a"; "disappointing"; "bad"; "disappointing"] "negative"
    = [("disappointing", "strong"); ("bad", "moderate"); ("disappointing", "strong")]
  ∧ occurrences ("disappointing", "strong")
      (Enhanced._find_sentiment_words Enhanced.init
         ["a"; "disappointing"; "bad"; "disappointing"] "negative") = 2.
Proof.
  assert (H : "disappointing" ∈ strong_tier Enhanced.init "negative") by (by vm_compute).
  split; [exact H|]. split; [by vm_compute|].
  rewrite (proj1 (strong_tier_tested_first Enhanced.init
    ["a"; "disappointing"; "bad"; "disappointing"] "disappointing" "negative" H)).
  reflexivity.
Defined.

(** C2.  The strong-negative and the moderate-negative lexicon of
    [__init__] are not disjoint: ['disappointing'] is listed in both (it is
    their only common word); the five other pairs of tiers are disjoint. *)
Theorem disappointing_in_both_negative_tiers :
  "disappointing" ∈ Enhanced.strong_negative Enhanced.init
  ∧ "disappointing" ∈ Enhanced.negative_words Enhanced.init
  ∧ Enhanced.strong_negative Enhanced.init ∩ Enhanced.negative_words Enhanced.init
      = {[ "disappointing" ]}
  ∧ Enhanced.strong_positive Enhanced.init ∩ Enhanced.positive_words Enhanced.init = ∅
  ∧ Enhanced.strong_positive Enhanced.init ∩ Enhanced.strong_negative Enhanced.init = ∅
  ∧ Enhanced.strong_positive Enhanced.init ∩ Enhanced.negative_words Enhanced.init = ∅
  ∧ Enhanced.positive_words Enhanced.init ∩ Enhanced.strong_negative Enhanced.init = ∅
  ∧ Enhanced.positive_words Enhanced.init ∩ Enhanced.negative_words Enhanced.init = ∅.
Proof. repeat split; by vm_compute. Qed.

(** ** The sentence clause of the explanation *)

(** When the clause is produced: more than one sentence was analysed and the
    positive and the negative sentences differ in number; the clause names
    the more frequent of the two. *)
Lemma sentence_clause_cases (entries : list Enhanced.sentence_entry) :
  let p := Enhanced.count_sentences entries "positive" in
  let n := Enhanced.count_sentences entries "negative" in
  (length entries ≤ 1 → Enhanced.sentence_clause entries = [])
  ∧ (p = n → Enhanced.sentence_clause entries = [])
  ∧ (1 < length entries → n < p →
       Enhanced.sentence_clause entries =
         ["Most sentences (" +:+ pretty p +:+ "/" +:+ pretty (length entries)
            +:+ ") are positive."])
  ∧ (1 < length entries → p < n →
       Enhanced.sentence_clause entries =
         ["Most sentences (" +:+ pretty n +:+ "/" +:+ pretty (length entries)
            +:+ ") are negative."]).
Proof.
  intros p n. unfold Enhanced.sentence_clause. fold p n.
  destruct (Nat.ltb_spec 1 (length entries)), (Nat.ltb_spec n p), (Nat.ltb_spec p n);
    split_and!; intros; try done; lia.
Qed.

(** C5.  On three analysed sentences of which one is positive and two are
    neutral, [_generate_explanation] appends the clause
    "Most sentences (1/3) are positive.": the clause is produced for a
    sentiment that holds no majority among the entries. *)
Theorem majority_clause_without_majority (set_order : list string → list string) :
  let entries := [ labelled "I love it" "positive" (637 # 1000);
                   labelled "The sky" "neutral" 0;
                   labelled "The door" "neutral" 0 ] in
  Enhanced.count_sentences entries "positive" = 1
  ∧ length entries = 3
  ∧ Enhanced.sentence_clause entries = ["Most sentences (1/3) are positive."]
  ∧ Enhanced._generate_explanation set_order "positive" (6369 # 10000) [] [] [] [] entries
    = "This text is **POSITIVE** (score: 0.637). Most sentences (1/3) are positive.".
Proof. split_and!; reflexivity. Qed.

(** ** Blank input *)

(** C3, the claim as stated fails: on the empty string the enhanced variant
    does not return all scores zeroed, its neutral proportion is 1. *)
Lemma blank_scores_not_all_zero :
  ¬ (∀ polarity_scores textblob_sentiment set_order self,
       ∃ r, Enhanced.analyze_text polarity_scores textblob_sentiment set_order self
              (VStr "") = Ok r
            ∧ (Enhanced.vader_compound r == 0)%Q
            ∧ (Enhanced.vader_positive r == 0)%Q
            ∧ (Enhanced.vader_negative r == 0)%Q
            ∧ (Enhanced.vader_neutral r == 0)%Q
            ∧ (Enhanced.textblob_polarity r == 0)%Q
            ∧ (Enhanced.textblob_subjectivity r == 0)%Q).
Proof.
  intros H.
  destruct (H sample_scores failing_model (λ l, l) Enhanced.init)
    as (r & Hr & _ & _ & _ & Hneu & _).
  simpl in Hr. injection Hr as <-. simpl in Hneu. discriminate Hneu.
Qed.

(** C3, amended.  On [None], the empty string and every whitespace-only
    string, whatever the scoring models are (neither is consulted), both
    variants return one fixed result: the simple variant polarity,
    subjectivity and confidence 0 with sentiment ['neutral']; the enhanced
    variant compound, positive, negative, polarity and subjectivity 0,
    neutral proportion 1, sentiment ['neutral'], confidence ['low'], empty
    indicator lists and sentence breakdown, the explanation
    ['Empty or invalid text.'] and the reasoning ['No content to analyze']. *)
Theorem blank_input_fixed_result
    (polarity_scores : string → Enhanced.vader_scores)
    (textblob_sentiment : string → outcome (Q * Q))
    (set_order : list string → list string) (self : Enhanced.analyzer)
    (text : value) :
  blank text →
  Enhanced.analyze_text polarity_scores textblob_sentiment set_order self text
    = Ok {| Enhanced.vader_compound := 0;
            Enhanced.vader_positive := 0;
            Enhanced.vader_negative := 0;
            Enhanced.vader_neutral := 1;
            Enhanced.textblob_polarity := 0;
            Enhanced.textblob_subjectivity := 0;
            Enhanced.sentiment := "neutral";
            Enhanced.confidence := "low";
            Enhanced.found_positive_words := [];
            Enhanced.found_negative_words := [];
            Enhanced.found_negations := [];
            Enhanced.found_intensifiers := [];
            Enhanced.sentence_breakdown := [];
            Enhanced.explanation := "Empty or invalid text.";
            Enhanced.reasoning := ["No content to analyze"] |}
  ∧ Simple.analyze_text textblob_sentiment text
    = Ok {| Simple.polarity := 0;
            Simple.subjectivity := 0;
            Simple.sentiment := "neutral";
            Simple.confidence := 0;
            Simple.error := None |}.
Proof.
  intros [->|(s & -> & Hs)]; [done|].
  unfold Enhanced.analyze_text, Simple.analyze_text.
  destruct s as [|a s]; [done|].
  cbn [truthy is_empty negb]. by rewrite strip_empty, Hs.
Qed.

Lemma blank_input_fixed_result_witness :
  blank (VStr "  ")
  ∧ Enhanced.sentiment <$>
      Enhanced.analyze_text sample_scores failing_model (λ l, l) Enhanced.init (VStr "  ")
    = Ok "neutral"
  ∧ Simple.sentiment <$> Simple.analyze_text failing_model (VStr "  ") = Ok "neutral".
Proof.
  assert (H : blank (VStr "  ")) by (right; by eexists).
  split; [exact H|].
  destruct (blank_input_fixed_result sample_scores failing_model (λ l, l)
              Enhanced.init (VStr "  ") H) as [-> ->].
  split; reflexivity.
Defined.

(** ** Classification by thresholds *)

Lemma enhanced_classify_cases (c : Q) :
  ((5 # 100 <= c)%Q → Enhanced.classify c = "positive")
  ∧ ((c <= - (5 # 100))%Q → Enhanced.classify c = "negative")
  ∧ ((- (5 # 100) < c)%Q → (c < 5 # 100)%Q → Enhanced.classify c = "neutral").
Proof.
  unfold Enhanced.classify.
  destruct (Qleb (5 # 100) c) eqn:Hp; [apply Qleb_le in Hp|apply Qleb_gt in Hp];
    (destruct (Qleb c (- (5 # 100))) eqn:Hn; [apply Qleb_le in Hn|apply Qleb_gt in Hn]);
    split_and!; intros; try done; exfalso; unfold Qle, Qlt in *; simpl in *; lia.
Qed.

Lemma simple_classify_cases (p : Q) :
  ((1 # 10 < p)%Q → Simple.classify p = "positive")
  ∧ ((p < - (1 # 10))%Q → Simple.classify p = "negative")
  ∧ ((- (1 # 10) <= p)%Q → (p <= 1 # 10)%Q → Simple.classify p = "neutral").
Proof.
  unfold Simple.classify, Simple.POSITIVE_THRESHOLD, Simple.NEGATIVE_THRESHOLD.
  destruct (Qltb (1 # 10) p) eqn:Hp; [apply Qltb_lt in Hp|apply Qltb_ge in Hp];
    (destruct (Qltb p (- (1 # 10))) eqn:Hn; [apply Qltb_lt in Hn|apply Qltb_ge in Hn]);
    split_and!; intros; try done; exfalso; unfold Qle, Qlt in *; simpl in *; lia.
Qed.

Lemma enhanced_analyze_nonblank_string
    (polarity_scores : string → Enhanced.vader_scores)
    (textblob_sentiment : string → outcome (Q * Q))
    (set_order : list string → list string) (self : Enhanced.analyzer) (s : string) :
  whitespace_only s = false →
  Enhanced.analyze_text polarity_scores textblob_sentiment set_order self (VStr s)
    = Enhanced.analyze_nonblank polarity_scores textblob_sentiment set_order self s.
Proof.
  intros Hs. unfold Enhanced.analyze_text.
  destruct s as [|a s]; [done|].
  cbn [truthy is_empty negb]. by rewrite strip_empty, Hs.
Qed.

Lemma simple_analyze_nonblank_string (textblob_sentiment : string → outcome (Q * Q))
    (s : string) :
  whitespace_only s = false →
  Simple.analyze_text textblob_sentiment (VStr s)
    = Ok (Simple.analyze_nonblank textblob_sentiment s).
Proof.
  intros Hs. unfold Simple.analyze_text.
  destruct s as [|a s]; [done|].
  cbn [truthy is_empty negb]. by rewrite strip_empty, Hs.
Qed.

(** C1, the claim as stated fails: in the simple variant a polarity of
    exactly 0.1 is not classified ['positive']. *)
Lemma simple_boundary_not_positive :
  ¬ (∀ (textblob_sentiment : string → outcome (Q * Q)) (s : string) (p sub : Q),
       whitespace_only s = false →
       textblob_sentiment s = inr (p, sub) →
       (1 # 10 <= p)%Q →
       Simple.sentiment <$> Simple.analyze_text textblob_sentiment (VStr s)
         = Ok "positive").
Proof.
  intros H.
  specialize (H (fixed_polarity (1 # 10) 0) "fine" (1 # 10)%Q 0%Q
                eq_refl eq_refl (Qle_refl _)).
  vm_compute in H. discriminate H.
Qed.

(** C1, amended.  For every text that is not blank and on which the
    polarity model returns, the label is fixed by the model score alone.
    Enhanced variant: compound >= 0.05 gives ['positive'], compound <= -0.05
    gives ['negative'], a compound strictly between gives ['neutral'], and
    the label is the same for every choice of the lexicons.  Simple variant:
    polarity > 0.1 gives ['positive'], polarity < -0.1 gives ['negative'],
    and a polarity from -0.1 to 0.1, both bounds included, gives
    ['neutral']. *)
Theorem sentiment_by_thresholds
    (polarity_scores : string → Enhanced.vader_scores)
    (textblob_sentiment : string → outcome (Q * Q))
    (set_order set_order' : list string → list string)
    (self self' : Enhanced.analyzer) (s : string) (p sub : Q) :
  whitespace_only s = false →
  textblob_sentiment s = inr (p, sub) →
  (∃ r r',
      Enhanced.analyze_text polarity_scores textblob_sentiment set_order self (VStr s)
        = Ok r
      ∧ Enhanced.analyze_text polarity_scores textblob_sentiment set_order' self' (VStr s)
        = Ok r'
      ∧ Enhanced.sentiment r' = Enhanced.sentiment r
      ∧ let c := Enhanced.compound (polarity_scores s) in
        ((5 # 100 <= c)%Q → Enhanced.sentiment r = "positive")
        ∧ ((c <= - (5 # 100))%Q → Enhanced.sentiment r = "negative")
        ∧ ((- (5 # 100) < c)%Q → (c < 5 # 100)%Q → Enhanced.sentiment r = "neutral"))
  ∧ (∃ r,
      Simple.analyze_text textblob_sentiment (VStr s) = Ok r
      ∧ ((1 # 10 < p)%Q → Simple.sentiment r = "positive")
      ∧ ((p < - (1 # 10))%Q → Simple.sentiment r = "negative")
      ∧ ((- (1 # 10) <= p)%Q → (p <= 1 # 10)%Q → Simple.sentiment r = "neutral")).
Proof.
  intros Hs Htb. split.
  - rewrite !enhanced_analyze_nonblank_string by done.
    unfold Enhanced.analyze_nonblank. rewrite Htb. simpl.
    eexists _, _. do 3 (split; [reflexivity|]).
    exact (enhanced_classify_cases _).
  - rewrite simple_analyze_nonblank_string by done.
    eexists. split; [reflexivity|].
    unfold Simple.analyze_nonblank. rewrite Htb.
    exact (simple_classify_cases _).
Qed.

Lemma sentiment_by_thresholds_witness :
  Enhanced.sentiment <$>
    Enhanced.analyze_text sample_scores (fixed_polarity (1 # 10) 0) (λ l, l)
      Enhanced.init (VStr "I love it") = Ok "positive"
  ∧ Simple.sentiment <$>
      Simple.analyze_text (fixed_polarity (1 # 10) 0) (VStr "I love it") = Ok "neutral".
Proof.
  destruct (sentiment_by_thresholds sample_scores (fixed_polarity (1 # 10) 0)
              (λ l, l) (λ l, l) Enhanced.init Enhanced.init "I love it" (1 # 10) 0
              eq_refl eq_refl)
    as [(r & r' & Hr & _ & _ & Hpos & _) (q & Hq & _ & _ & Hneu)].
  rewrite Hr, Hq. simpl. split; f_equal.
  - apply Hpos. vm_compute. discriminate.
  - apply Hneu; vm_compute; discriminate.
Defined.

(** ** The sentence breakdown *)








(** ** Results of loops *)

Lemma for_each_length {A B : Type} (f : A → result B) (l : list A) (out : list B) :
  for_each f l = Ok out → length out = length l.
Proof.
  revert out. induction l as [|x l IH]; intros out H; simpl in H.
  - by injection H as <-.
  - destruct (f x); [|done]. simpl in H.
    destruct (for_each f l) eqn:E; [|done]. simpl in H. injection H as <-.
    simpl. f_equal. by apply IH.
Qed.

Lemma for_each_ok {A B : Type} (f : A → result B) (g : A → B) (l : list A) :
  Forall (λ x, f x = Ok (g x)) l → for_each f l = Ok (g <$> l).
Proof.
  induction 1 as [|x l Hx _ IH]; [done|]. simpl. by rewrite Hx, IH.
Qed.

Lemma for_each_raises {A B : Type} (f : A → result B) (l : list A) (e : exn) :
  for_each f l = Raise e → ∃ x, x ∈ l ∧ f x = Raise e.
Proof.
  induction l as [|x l IH]; [done|]. simpl.
  destruct (f x) eqn:Hx; simpl.
  - destruct (for_each f l); [done|]. simpl. intros [= <-].
    destruct IH as (y & Hy & Hfy); [done|]. exists y. split; [by right|done].
  - intros [= <-]. exists x. split; [by left|done].
Qed.

Lemma filter_each_ok {A : Type} (f : A → result bool) (g : A → bool) (l : list A) :
  Forall (λ x, f x = Ok (g x)) l →
  filter_each f l = Ok (filter (λ x, g x = true) l).
Proof.
  induction 1 as [|x l Hx _ IH]; [done|]. simpl. rewrite Hx, IH. simpl.
  rewrite filter_cons. destruct (g x); by rewrite ?decide_True, ?decide_False by done.
Qed.

Lemma float_truediv_len {A : Type} (a : Float.float) (x : A) (l : list A) :
  float_truediv a (length (x :: l))
  = Ok (Float.div a (Float.of_Z (Z.of_nat (length (x :: l))))).
Proof. reflexivity. Qed.

Lemma slice_to_nil {A : Type} (n : Z) : slice_to n ([] : list A) = [].
Proof. unfold slice_to. destruct (0 <=? n)%Z; apply take_nil. Qed.

Lemma slice_to_nat {A : Type} (k : nat) (l : list A) :
  slice_to (Z.of_nat k) l = take k l.
Proof.
  unfold slice_to. destruct (Z.leb_spec 0 (Z.of_nat k)); [|lia].
  by rewrite Nat2Z.id.
Qed.

Lemma bind_raises {A B : Type} (m : result A) (f : A → result B) (e : exn) :
  m ≫= f = Raise e → m = Raise e ∨ ∃ a, m = Ok a ∧ f a = Raise e.
Proof.
  destruct m as [a|e']; unfold mbind, result_bind; intros H;
    [right; eauto|left; congruence].
Qed.

Lemma fold_each_raises {A B : Type} (f : B → A → result B) (acc : B) (l : list A)
    (e : exn) :
  fold_each f acc l = Raise e → ∃ acc' x, f acc' x = Raise e.
Proof.
  revert acc. induction l as [|x l IH]; intros acc; [done|]. simpl.
  intros [H|(acc' & _ & H)]%bind_raises; [by exists acc, x|by eapply IH].
Qed.

Lemma analysis_field_raises (post : dict) (field : string) (dflt : value) (e : exn) :
  Shared.analysis_field post field dflt = Raise e → e = AttributeError.
Proof.
  unfold Shared.analysis_field, obj_get.
  destruct (get_default post "sentiment_analysis" (VDict ∅)); congruence.
Qed.

Lemma hashable_raises (v : value) (e : exn) : hashable v = Raise e → e = TypeError.
Proof. destruct v; simpl; congruence. Qed.

Lemma py_sum_raises (l : list value) (e : exn) : py_sum l = Raise e → e = TypeError.
Proof.
  unfold py_sum. intros [H|(qs & _ & H)]%bind_raises; [|done].
  apply for_each_raises in H as (v & _ & Hv). destruct v; simpl in Hv; congruence.
Qed.

Lemma percentage_succ (count n : nat) :
  Shared.percentage count (S n)
    = Ok (py_round_float
            (Float.mul (Float.of_Q (Z.of_nat count # Pos.of_nat (S n)))
               (Float.of_Z 100)) 2).
Proof. reflexivity. Qed.

(** ** Doubles *)

Lemma shr_1_m (mrs : shr_record) :
  (0 <= shr_m mrs)%Z → shr_m (shr_1 mrs) = Z.div2 (shr_m mrs).
Proof. destruct mrs as [[|[m|m|]|m] r s]; cbn; intros H; try done; lia. Qed.

Lemma iter_shr_1_m (n : positive) (mrs : shr_record) :
  (0 <= shr_m mrs)%Z →
  shr_m (SpecFloat.iter_pos shr_1 n mrs) = Z.shiftr (shr_m mrs) (Z.pos n).
Proof.
  revert mrs. induction n as [n IH|n IH|]; intros mrs H; cbn [SpecFloat.iter_pos].
  - assert (H1 : (0 <= shr_m (shr_1 mrs))%Z)
      by (rewrite shr_1_m by done; by apply Z.div2_nonneg).
    assert (H2 : (0 <= shr_m (SpecFloat.iter_pos shr_1 n (shr_1 mrs)))%Z)
      by (rewrite IH by done; by apply Z.shiftr_nonneg).
    rewrite IH, IH, shr_1_m by done.
    rewrite Z.div2_spec, !Z.shiftr_shiftr by lia. f_equal. lia.
  - assert (H2 : (0 <= shr_m (SpecFloat.iter_pos shr_1 n mrs))%Z)
      by (rewrite IH by done; by apply Z.shiftr_nonneg).
    rewrite IH, IH by done. rewrite Z.shiftr_shiftr by lia. f_equal. lia.
  - rewrite shr_1_m by done. by rewrite Z.div2_spec.
Qed.

Lemma digits2_pos_lower (m : positive) :
  (2 ^ (Z.pos (digits2_pos m) - 1) <= Z.pos m)%Z.
Proof.
  induction m as [m IH|m IH|]; cbn [digits2_pos]; [| |done].
  - rewrite Pos2Z.inj_succ.
    replace (Z.succ (Z.pos (digits2_pos m)) - 1)%Z
      with (Z.succ (Z.pos (digits2_pos m) - 1))%Z by lia.
    rewrite Z.pow_succ_r by lia. lia.
  - rewrite Pos2Z.inj_succ.
    replace (Z.succ (Z.pos (digits2_pos m)) - 1)%Z
      with (Z.succ (Z.pos (digits2_pos m) - 1))%Z by lia.
    rewrite Z.pow_succ_r by lia. lia.
Qed.

(** Shifting a positive mantissa to the exponent the format gives it leaves
    it positive, from the least exponent of the format on. *)
Lemma shr_fexp_positive (m : positive) (e : Z) (l : location) :
  (emin Float.prec Float.emax <= e)%Z →
  let '(mrs, e') := shr_fexp Float.prec Float.emax (Z.pos m) e l in
  (0 < shr_m mrs)%Z ∧ (emin Float.prec Float.emax <= e')%Z.
Proof.
  intros He. unfold shr_fexp, shr. cbn [Zdigits2].
  set (d := Z.pos (digits2_pos m)).
  destruct (fexp Float.prec Float.emax (d + e) - e)%Z as [|n|n] eqn:Hn.
  - split; [by destruct l as [|[]]|done].
  - split; [|lia].
    rewrite iter_shr_1_m by (by destruct l as [|[]]).
    replace (shr_m (shr_record_of_loc (Z.pos m) l)) with (Z.pos m)
      by (by destruct l as [|[]]).
    rewrite Z.shiftr_div_pow2 by lia.
    assert (Hlt : (Z.pos n <= d - 1)%Z).
    { unfold fexp, emin, Float.prec, Float.emax in *. lia. }
    pose proof (digits2_pos_lower m) as Hm. fold d in Hm.
    assert (Hpow : (2 ^ Z.pos n <= 2 ^ (d - 1))%Z)
      by (apply Z.pow_le_mono_r; lia).
    apply Z.div_str_pos. split; [apply Z.pow_pos_nonneg; lia|lia].
  - split; [by destruct l as [|[]]|done].
Qed.

Lemma round_nearest_even_positive (m : Z) (l : location) :
  (0 < m)%Z → (0 < round_nearest_even m l)%Z.
Proof.
  intros H. destruct l as [|[]]; cbn; try done; [|lia].
  destruct (Z.even m); lia.
Qed.

Lemma binary_round_aux_positive (s : bool) (m : positive) (e : Z) (l : location) :
  (emin Float.prec Float.emax <= e)%Z →
  (∃ m' e', binary_round_aux Float.prec Float.emax s (Z.pos m) e l = S754_finite s m' e')
  ∨ binary_round_aux Float.prec Float.emax s (Z.pos m) e l = S754_infinity s.
Proof.
  intros He. unfold binary_round_aux.
  pose proof (shr_fexp_positive m e l He) as H1.
  destruct (shr_fexp Float.prec Float.emax (Z.pos m) e l) as [mrs' e'].
  destruct H1 as [Hm' He'].
  pose proof (round_nearest_even_positive _ (loc_of_shr_record mrs') Hm') as Hr.
  destruct (round_nearest_even (shr_m mrs') (loc_of_shr_record mrs')) as [|m2|m2];
    [lia| |lia].
  pose proof (shr_fexp_positive m2 e' loc_Exact He') as H2.
  destruct (shr_fexp Float.prec Float.emax (Z.pos m2) e' loc_Exact) as [mrs'' e''].
  destruct H2 as [Hm'' _].
  destruct (shr_m mrs'') as [|m3|m3]; [lia| |lia].
  destruct (e'' <=? Float.emax - Float.prec)%Z; eauto.
Qed.

Lemma of_Z_positive (p : positive) :
  (∃ m e, Float.of_Z (Z.pos p) = S754_finite false m e)
  ∨ Float.of_Z (Z.pos p) = S754_infinity false.
Proof.
  unfold Float.of_Z, binary_normalize, binary_round.
  destruct (shl_align p 0 (fexp Float.prec Float.emax (Z.pos (digits2_pos p) + 0)))
    as [mz ez] eqn:Hal.
  apply binary_round_aux_positive.
  unfold shl_align in Hal.
  destruct (fexp Float.prec Float.emax (Z.pos (digits2_pos p) + 0) - 0)%Z eqn:Hd;
    injection Hal as <- <-; unfold fexp, emin, Float.prec, Float.emax in *; lia.
Qed.

Lemma div_zero_by_length (n : nat) :
  Float.div Float.zero (Float.of_Z (Z.of_nat (S n))) = Float.zero.
Proof.
  change (Z.of_nat (S n)) with (Z.pos (Pos.of_succ_nat n)).
  destruct (of_Z_positive (Pos.of_succ_nat n)) as [(m & e & ->)| ->]; reflexivity.
Qed.

Lemma float_sum_zeros (l : list Float.float) :
  Forall (λ x, x = Float.zero) l → float_sum l = Float.zero.
Proof. induction 1 as [|x l -> _ IH]; [done|]. exact IH. Qed.

Lemma of_Q_whole (p : positive) :
  Float.of_Q (Z.pos p # p) = S754_finite false 4503599627370496 (-52).
Proof.
  unfold Float.of_Q. cbn [Qnum Qden]. unfold SFdiv_core_binary. cbn [Zdigits2].
  set (d := Z.pos (digits2_pos p)).
  replace (d + 0 - (d + 0))%Z with 0%Z by lia.
  change (fexp Float.prec Float.emax 0) with (-53)%Z.
  change (Z.min (-53) (0 - 0)) with (-53)%Z.
  change (0 - 0 - -53)%Z with 53%Z. cbv iota.
  pose proof (Z_div_mod (Z.shiftl (Z.pos p) 53) (Z.pos p) ltac:(lia)) as H.
  destruct (Z.div_eucl (Z.shiftl (Z.pos p) 53) (Z.pos p)) as [q r].
  rewrite Z.shiftl_mul_pow2 in H by lia.
  set (K := (2 ^ 53)%Z) in *. destruct H as [Heq Hr].
  assert (Hq : q = K ∧ r = 0%Z).
  { destruct (Z.div_mod_unique (Z.pos p) q K r 0) as [-> ->]; try done; lia. }
  destruct Hq as [-> ->]. unfold K, new_location.
  destruct (Z.even (Z.pos p)); vm_compute; reflexivity.
Qed.

(** ** Aggregates: the distribution *)

Lemma bind_ok_inv {A B : Type} (m : result A) (f : A → result B) (b : B) :
  m ≫= f = Ok b → ∃ a, m = Ok a ∧ f a = Ok b.
Proof. destruct m as [a|e]; unfold mbind, result_bind; intros H; [eauto|done]. Qed.

Lemma distribution_cases (posts : list dict) (d : Shared.distribution) :
  Shared.get_sentiment_distribution posts = Ok d →
  (posts = [] ∧ Shared.total d = 0)
  ∨ (0 < Shared.total d
     ∧ Shared.total d = length posts
     ∧ Shared.percentage (Shared.positive d) (Shared.total d)
       = Ok (Shared.positive_pct d)
     ∧ Shared.percentage (Shared.negative d) (Shared.total d)
       = Ok (Shared.negative_pct d)
     ∧ Shared.percentage (Shared.neutral d) (Shared.total d)
       = Ok (Shared.neutral_pct d)).
Proof.
  destruct posts as [|post posts]; [intros [= <-]; by left|].
  unfold Shared.get_sentiment_distribution.
  intros (sentiments & _ & H)%bind_ok_inv.
  apply bind_ok_inv in H as (counts & _ & H).
  cbv zeta in H. cbn [length] in H. rewrite !percentage_succ in H.
  unfold mbind, result_bind in H. injection H as <-.
  right. cbn [Shared.total Shared.positive Shared.negative Shared.neutral
    Shared.positive_pct Shared.negative_pct Shared.neutral_pct].
  split_and!; [lia|done|apply percentage_succ..].
Qed.

Lemma distribution_no_division_by_zero (posts : list dict) :
  Shared.get_sentiment_distribution posts ≠ Raise ZeroDivisionError.
Proof.
  destruct posts as [|post posts]; [done|].
  unfold Shared.get_sentiment_distribution.
  intros [H|(sentiments & _ & H)]%bind_raises.
  { apply for_each_raises in H as (v & _ & Hv).
    by apply analysis_field_raises in Hv. }
  apply bind_raises in H as [H|(counts & _ & H)].
  { apply for_each_raises in H as (v & _ & Hv). by apply hashable_raises in Hv. }
  cbv zeta in H. cbn [length] in H. rewrite !percentage_succ in H. done.
Qed.

Lemma platform_no_division_by_zero (posts : list dict) :
  Simple.get_platform_sentiment posts ≠ Raise ZeroDivisionError.
Proof.
  unfold Simple.get_platform_sentiment.
  intros [H|(groups & _ & H)]%bind_raises.
  - apply fold_each_raises in H as (acc & post & H).
    apply bind_raises in H as [H|(? & _ & H)]; [|done].
    by apply hashable_raises in H.
  - apply for_each_raises in H as (g & _ & H).
    apply bind_raises in H as [H|(? & _ & H)]; [|done].
    by apply distribution_no_division_by_zero in H.
Qed.

Lemma average_no_division_by_zero (posts : list dict) :
  Simple.get_average_sentiment posts ≠ Raise ZeroDivisionError.
Proof.
  destruct posts as [|post posts]; [done|].
  unfold Simple.get_average_sentiment.
  intros [H|(pols & Hpols & H)]%bind_raises.
  { apply for_each_raises in H as (v & _ & Hv).
    by apply analysis_field_raises in Hv. }
  apply bind_raises in H as [H|(subs & Hsubs & H)].
  { apply for_each_raises in H as (v & _ & Hv).
    by apply analysis_field_raises in Hv. }
  apply for_each_length in Hpols, Hsubs.
  destruct pols as [|pol pols]; [done|]. destruct subs as [|sub subs]; [done|].
  apply bind_raises in H as [H|(sp & _ & H)]; [by apply py_sum_raises in H|].
  rewrite float_truediv_len in H. cbn [mbind result_bind] in H.
  apply bind_raises in H as [H|(ss & _ & H)]; [by apply py_sum_raises in H|].
  rewrite float_truediv_len in H. done.
Qed.

Lemma app_average_no_division_by_zero (posts : list dict) :
  App.average_sentiment posts ≠ Raise ZeroDivisionError.
Proof.
  unfold App.average_sentiment.
  intros [H|(pols & _ & H)]%bind_raises.
  { apply for_each_raises in H as (v & _ & Hv).
    by apply analysis_field_raises in Hv. }
  apply bind_raises in H as [H|(subs & _ & H)].
  { apply for_each_raises in H as (v & _ & Hv).
    by apply analysis_field_raises in Hv. }
  apply bind_raises in H as [H|(ap & _ & H)].
  { destruct pols as [|pol pols]; [done|]. cbn [Enhanced.nonempty] in H.
    apply bind_raises in H as [H|(sp & _ & H)]; [by apply py_sum_raises in H|].
    by rewrite float_truediv_len in H. }
  apply bind_raises in H as [H|(asub & _ & H)]; [|done].
  destruct subs as [|sub subs]; [done|]. cbn [Enhanced.nonempty] in H.
  apply bind_raises in H as [H|(sp & _ & H)]; [by apply py_sum_raises in H|].
  by rewrite float_truediv_len in H.
Qed.

(** C7.  On the empty batch every aggregate returns its default summary:
    the distribution of both variants has every count 0 and every
    percentage 0.0, the platform breakdown is empty, the averages are 0.0
    with overall sentiment ['neutral'], the rankings are empty.  No
    aggregate ever raises [ZeroDivisionError], on any batch: a distribution
    either is the all-zero one of the empty batch, or has a positive total,
    the number of posts, and its percentages are what the division by that
    total gives; the same division by a total of 0 would raise. *)
Theorem empty_batch_defaults :
  let zero := {| Shared.total := 0; Shared.positive := 0; Shared.negative := 0;
                 Shared.neutral := 0; Shared.positive_pct := Float.zero;
                 Shared.negative_pct := Float.zero;
                 Shared.neutral_pct := Float.zero |} in
  Simple.get_sentiment_distribution [] = Ok zero
  ∧ Enhanced.get_sentiment_distribution [] = Ok zero
  ∧ Simple.get_platform_sentiment [] = Ok []
  ∧ Simple.get_average_sentiment []
    = Ok {| Simple.avg_polarity := Float.zero; Simple.avg_subjectivity := Float.zero;
            Simple.overall_sentiment := "neutral" |}
  ∧ (∀ (sentiment : string) (limit : Z),
       Simple.get_top_posts_by_sentiment [] sentiment limit = Ok [])
  ∧ App.top_positive [] = Ok []
  ∧ App.top_negative [] = Ok []
  ∧ App.average_sentiment []
    = Ok {| Simple.avg_polarity := Float.zero; Simple.avg_subjectivity := Float.zero;
            Simple.overall_sentiment := "neutral" |}
  ∧ (∀ posts : list dict,
       Simple.get_sentiment_distribution posts ≠ Raise ZeroDivisionError
       ∧ Enhanced.get_sentiment_distribution posts ≠ Raise ZeroDivisionError
       ∧ Simple.get_platform_sentiment posts ≠ Raise ZeroDivisionError
       ∧ Simple.get_average_sentiment posts ≠ Raise ZeroDivisionError
       ∧ App.average_sentiment posts ≠ Raise ZeroDivisionError)
  ∧ (∀ (posts : list dict) (d : Shared.distribution),
       Simple.get_sentiment_distribution posts = Ok d →
       (posts = [] ∧ d = zero)
       ∨ (0 < Shared.total d
          ∧ Shared.total d = length posts
          ∧ Shared.percentage (Shared.positive d) (Shared.total d)
            = Ok (Shared.positive_pct d)
          ∧ Shared.percentage (Shared.negative d) (Shared.total d)
            = Ok (Shared.negative_pct d)
          ∧ Shared.percentage (Shared.neutral d) (Shared.total d)
            = Ok (Shared.neutral_pct d)))
  ∧ (∀ count : nat, Shared.percentage count 0 = Raise ZeroDivisionError).
Proof.
  intros zero. split_and!; try reflexivity.
  - intros sentiment limit. unfold Simple.get_top_posts_by_sentiment. simpl.
    by rewrite slice_to_nil.
  - intros posts. split_and!.
    + apply distribution_no_division_by_zero.
    + apply distribution_no_division_by_zero.
    + apply platform_no_division_by_zero.
    + apply average_no_division_by_zero.
    + apply app_average_no_division_by_zero.
  - intros posts d Hd. destruct posts as [|post posts].
    + left. split; [done|]. by injection Hd as <-.
    + right. by destruct (distribution_cases _ _ Hd) as [[? _]|?].
Qed.

(** ** The stable sort *)

Section StableSort.
Context {A : Type} (key : A → Q) (reverse : bool).

Lemma behind_keys_differ (x y : A) :
  behind reverse (key x) (key y) = true → ¬ (key x == key y)%Q.
Proof.
  unfold behind. intros H E.
  destruct reverse; apply Qltb_lt in H; rewrite E in H; by apply Qlt_irrefl in H.
Qed.

Lemma behind_in_order (x y : A) :
  behind reverse (key x) (key y) = true → in_order key reverse y x.
Proof.
  unfold behind, in_order.
  destruct reverse; intros H%Qltb_lt; by apply Qlt_le_weak.
Qed.

Lemma not_behind_in_order (x y : A) :
  behind reverse (key x) (key y) = false ↔ in_order key reverse x y.
Proof. unfold behind, in_order. destruct reverse; apply Qltb_ge. Qed.

Lemma in_order_trans (x y z : A) :
  in_order key reverse x y → in_order key reverse y z → in_order key reverse x z.
Proof.
  unfold in_order. destruct reverse; intros H1 H2; eapply Qle_trans; eauto.
Qed.

Lemma insert_by_perm (x : A) (l : list A) : insert_by key reverse x l ≡ₚ x :: l.
Proof.
  induction l as [|y l IH]; [done|]. simpl.
  destruct (behind reverse (key x) (key y)); [|done].
  rewrite IH. apply Permutation_swap.
Qed.

Lemma sort_by_perm (l : list A) : sort_by key reverse l ≡ₚ l.
Proof.
  induction l as [|x l IH]; [done|]. simpl. by rewrite insert_by_perm, IH.
Qed.

Lemma insert_by_sorted (x : A) (l : list A) :
  StronglySorted (in_order key reverse) l →
  StronglySorted (in_order key reverse) (insert_by key reverse x l).
Proof.
  induction 1 as [|y l Hl IH Hy]; simpl.
  - repeat constructor.
  - destruct (behind reverse (key x) (key y)) eqn:E.
    + constructor; [done|]. rewrite insert_by_perm. constructor; [|done].
      by apply behind_in_order.
    + apply not_behind_in_order in E. constructor; [by constructor|].
      constructor; [done|]. eapply Forall_impl; [exact Hy|].
      intros z Hz. by eapply in_order_trans.
Qed.

Lemma sort_by_sorted (l : list A) :
  StronglySorted (in_order key reverse) (sort_by key reverse l).
Proof.
  induction l as [|x l IH]; simpl; [constructor|by apply insert_by_sorted].
Qed.

(** Stability: the elements with a given key come out in the order in
    which they came in. *)
Lemma insert_by_stable (c : Q) (x : A) (l : list A) :
  filter (λ z, Qeq_bool (key z) c = true) (insert_by key reverse x l)
    = filter (λ z, Qeq_bool (key z) c = true) (x :: l).
Proof.
  induction l as [|y l IH]; [done|]. simpl.
  destruct (behind reverse (key x) (key y)) eqn:E; [|done].
  apply behind_keys_differ in E.
  rewrite (filter_cons _ y), IH, !(filter_cons _ x), !(filter_cons _ y).
  destruct (decide (Qeq_bool (key x) c = true)) as [Hx|Hx];
    destruct (decide (Qeq_bool (key y) c = true)) as [Hy|Hy]; try done.
  exfalso. apply E. apply Qeq_bool_iff in Hx, Hy. by rewrite Hx, Hy.
Qed.

Lemma sort_by_stable (c : Q) (l : list A) :
  filter (λ z, Qeq_bool (key z) c = true) (sort_by key reverse l)
    = filter (λ z, Qeq_bool (key z) c = true) l.
Proof.
  induction l as [|x l IH]; [done|]. simpl.
  by rewrite insert_by_stable, !(filter_cons _ x), IH.
Qed.

(** A list that is already in order is left as it is. *)
Lemma sort_by_sorted_id (l : list A) :
  StronglySorted (in_order key reverse) l → sort_by key reverse l = l.
Proof.
  induction 1 as [|x l Hl IH Hx]; [done|]. simpl. rewrite IH.
  destruct Hx as [|y l Hy _]; [done|]. simpl.
  by apply not_behind_in_order in Hy as ->.
Qed.

(** [sorted] computes this sort when every key is a number. *)
Lemma insert_keyed_numeric (x : A) (l : list A) :
  insert_keyed reverse (VNum (key x), x) ((λ y, (VNum (key y), y)) <$> l)
    = Ok ((λ y, (VNum (key y), y)) <$> insert_by key reverse x l).
Proof.
  induction l as [|y l IH]; [done|].
  cbn [fmap list_fmap insert_keyed insert_by fst].
  assert (Hlt : (if reverse then py_lt (VNum (key x)) (VNum (key y))
                 else py_lt (VNum (key y)) (VNum (key x)))
                = Ok (behind reverse (key x) (key y))) by (by destruct reverse).
  rewrite Hlt. cbn [mbind result_bind].
  destruct (behind reverse (key x) (key y)); [|done].
  change (list_fmap _ _ ?f l) with (f <$> l). by rewrite IH.
Qed.

Lemma sort_keyed_numeric (l : list A) :
  sort_keyed reverse ((λ y, (VNum (key y), y)) <$> l)
    = Ok ((λ y, (VNum (key y), y)) <$> sort_by key reverse l).
Proof.
  induction l as [|x l IH]; [done|].
  cbn [fmap list_fmap sort_keyed sort_by].
  change (list_fmap _ _ ?f l) with (f <$> l). rewrite IH.
  cbn [mbind result_bind]. apply insert_keyed_numeric.
Qed.

Lemma sorted_numeric (keyf : A → result value) (l : list A) :
  Forall (λ x, keyf x = Ok (VNum (key x))) l →
  sorted keyf reverse l = Ok (sort_by key reverse l).
Proof.
  intros H. unfold sorted.
  rewrite (for_each_ok _ (λ y, (VNum (key y), y))).
  - cbn [mbind result_bind]. rewrite sort_keyed_numeric. cbn [mbind result_bind].
    f_equal. rewrite <-list_fmap_compose. apply list_fmap_id.
  - eapply Forall_impl; [exact H|]. intros x Hx. simpl. by rewrite Hx.
Qed.
End StableSort.

(** ** Rankings of analysed posts *)

Lemma analysis_field_numeric (post : dict) (field : string) :
  well_typed_field post field = true →
  Shared.analysis_field post field (VNum 0) = Ok (VNum (field_or_zero field post)).
Proof.
  unfold well_typed_field, field_or_zero, Shared.analysis_field, get_default.
  destruct (post !! "sentiment_analysis") as [[| | | |a]|]; simpl; try done.
  unfold get_default. destruct (a !! field) as [[]|]; simpl; done.
Qed.

Lemma analysis_field_sentiment (post : dict) (field label : string) :
  well_typed_field post field = true →
  ∃ v, Shared.analysis_field post "sentiment" VNone = Ok v
       ∧ eq_str v label = has_sentiment label post.
Proof.
  unfold well_typed_field, has_sentiment, Shared.analysis_field, get_default.
  destruct (post !! "sentiment_analysis") as [[| | | |a]|]; simpl; try done.
  - intros _. unfold get_default. destruct (a !! "sentiment"); simpl; eauto.
  - intros _. eauto.
Qed.

Lemma posts_with_sentiment_ok (posts : list dict) (field label : string) :
  Forall (λ p, well_typed_field p field = true) posts →
  filter_each (λ post,
      s ← Shared.analysis_field post "sentiment" VNone;
      Ok (eq_str s label)) posts
    = Ok (filter (λ p, has_sentiment label p = true) posts).
Proof.
  intros H. apply filter_each_ok. eapply Forall_impl; [exact H|].
  intros p Hp. simpl.
  destruct (analysis_field_sentiment p field label Hp) as (v & -> & <-). done.
Qed.

(** The three rankings of the program are one computation: select the posts
    with the label, sort them by a numeric field of the analysis, keep the
    first [k]. *)
Lemma ranking_computation (posts : list dict) (field label : string)
    (reverse : bool) (k : nat) :
  Forall (λ p, well_typed_field p field = true) posts →
  (l ← filter_each (λ post,
         s ← Shared.analysis_field post "sentiment" VNone;
         Ok (eq_str s label)) posts;
   sorted_posts ← sorted (λ p, Shared.analysis_field p field (VNum 0)) reverse l;
   Ok (slice_to (Z.of_nat k) sorted_posts))
  = Ok (take k (sort_by (field_or_zero field) reverse
                  (filter (λ p, has_sentiment label p = true) posts))).
Proof.
  intros H. rewrite (posts_with_sentiment_ok _ field) by done.
  cbn [mbind result_bind].
  rewrite (sorted_numeric (field_or_zero field)).
  - cbn [mbind result_bind]. by rewrite slice_to_nat.
  - apply Forall_forall. intros p [_ Hp]%list_elem_of_filter.
    apply analysis_field_numeric. by eapply Forall_forall in H.
Qed.

Lemma filter_take_prefix {A : Type} (P : A → Prop) `{!∀ x, Decision (P x)}
    (k : nat) (l : list A) :
  filter P (take k l) `prefix_of` filter P l.
Proof.
  exists (filter P (drop k l)). by rewrite <-filter_app, take_drop.
Qed.

Lemma filter_all {A : Type} (P : A → Prop) `{!∀ x, Decision (P x)} (l : list A) :
  Forall P l → filter P l = l.
Proof.
  induction 1 as [|x l Hx _ IH]; [done|].
  by rewrite filter_cons, decide_True, IH.
Qed.

Lemma ranking_is_ranking (key : dict → Q) (reverse : bool) (label : string)
    (k : nat) (posts : list dict) :
  is_ranking key reverse label k posts
    (take k (sort_by key reverse (filter (λ p, has_sentiment label p = true) posts))).
Proof.
  set (candidates := filter _ posts).
  set (ranked := sort_by key reverse candidates).
  assert (Hperm : ranked ≡ₚ candidates) by apply sort_by_perm.
  assert (Hsorted : StronglySorted (in_order key reverse) ranked)
    by apply sort_by_sorted.
  unfold is_ranking. fold candidates. split_and!.
  - by rewrite length_take, Hperm.
  - apply Forall_take. rewrite Hperm. apply Forall_forall.
    by intros p [Hp _]%list_elem_of_filter.
  - rewrite <-(take_drop k ranked) in Hsorted.
    by apply StronglySorted_app_1_l in Hsorted.
  - intros c. rewrite <-(sort_by_stable key reverse c candidates).
    apply filter_take_prefix.
  - exists (drop k ranked). split; [by rewrite take_drop|].
    intros a b Ha Hb. rewrite <-(take_drop k ranked) in Hsorted.
    by eapply StronglySorted_app_1_elem_of.
Qed.

Lemma ranking_again (key : dict → Q) (reverse : bool) (label : string)
    (k : nat) (posts out : list dict) :
  is_ranking key reverse label k posts out →
  take k (sort_by key reverse (filter (λ p, has_sentiment label p = true) out)) = out.
Proof.
  intros (Hlen & Hlab & Hsorted & _).
  rewrite filter_all by done.
  rewrite sort_by_sorted_id by done. apply take_ge. lia.
Qed.

Lemma ranking_well_typed (key : dict → Q) (reverse : bool) (label field : string)
    (k : nat) (posts out : list dict) :
  is_ranking key reverse label k posts out →
  Forall (λ p, well_typed_field p field = true) posts →
  Forall (λ p, well_typed_field p field = true) out.
Proof.
  intros (_ & _ & _ & _ & rest & Hperm & _) H.
  apply Forall_forall. intros p Hp.
  assert (Hin : p ∈ out ++ rest) by (apply elem_of_app; by left).
  rewrite Hperm in Hin. apply list_elem_of_filter in Hin as [_ Hin].
  by eapply Forall_forall in H.
Qed.

(** C4.  On posts analysed by the simple variant (the confidence of an
    analysis is a number, or missing), [get_top_posts_by_sentiment] returns,
    for every label and every number [k] of posts asked for, the ranking by
    descending confidence of the posts with that label, cut after [k] posts:
    at most [k] posts, each with the label, in descending order of
    confidence, posts of equal confidence in their original relative order;
    applied to its own result it returns it unchanged.  On posts analysed
    by the enhanced variant, the application's [top_positive] is the same
    for the label ['positive'], the key [vader_compound] and 5 posts, and
    [top_negative] for the label ['negative'] in ascending order of
    [vader_compound]. *)
Theorem top_posts_ranked (posts : list dict) (label : string) (k : nat) :
  (Forall (λ p, well_typed_field p "confidence" = true) posts →
   ∃ out,
     Simple.get_top_posts_by_sentiment posts label (Z.of_nat k) = Ok out
     ∧ length out ≤ k
     ∧ is_ranking (field_or_zero "confidence") true label k posts out
     ∧ Simple.get_top_posts_by_sentiment out label (Z.of_nat k) = Ok out)
  ∧ (Forall (λ p, well_typed_field p "vader_compound" = true) posts →
     (∃ out,
        App.top_positive posts = Ok out
        ∧ length out ≤ 5
        ∧ is_ranking (field_or_zero "vader_compound") true "positive" 5 posts out
        ∧ App.top_positive out = Ok out)
     ∧ (∃ out,
          App.top_negative posts = Ok out
          ∧ length out ≤ 5
          ∧ is_ranking (field_or_zero "vader_compound") false "negative" 5 posts out
          ∧ App.top_negative out = Ok out)).
Proof.
  assert (Hgen : ∀ field reverse lbl n,
    Forall (λ p, well_typed_field p field = true) posts →
    ∃ out,
      (l ← filter_each (λ post,
             s ← Shared.analysis_field post "sentiment" VNone;
             Ok (eq_str s lbl)) posts;
       sorted_posts ← sorted (λ p, Shared.analysis_field p field (VNum 0)) reverse l;
       Ok (slice_to (Z.of_nat n) sorted_posts)) = Ok out
      ∧ length out ≤ n
      ∧ is_ranking (field_or_zero field) reverse lbl n posts out
      ∧ (l ← filter_each (λ post,
             s ← Shared.analysis_field post "sentiment" VNone;
             Ok (eq_str s lbl)) out;
         sorted_posts ← sorted (λ p, Shared.analysis_field p field (VNum 0)) reverse l;
         Ok (slice_to (Z.of_nat n) sorted_posts)) = Ok out).
  { intros field reverse lbl n Hwt.
    pose proof (ranking_is_ranking (field_or_zero field) reverse lbl n posts) as Hr.
    eexists. split; [by apply ranking_computation|].
    split; [rewrite length_take; lia|]. split; [exact Hr|].
    rewrite ranking_computation by (by eapply ranking_well_typed).
    f_equal. by eapply ranking_again. }
  split; [apply Hgen|].
  intros Hwt. split; [apply (Hgen "vader_compound" true "positive" 5 Hwt)|].
  apply (Hgen "vader_compound" false "negative" 5 Hwt).
Qed.

Lemma top_posts_ranked_witness :
  let posts := [ simple_post "a" "positive" (1 # 2);
                 simple_post "b" "negative" (- (3 # 4));
                 simple_post "c" "positive" (3 # 4);
                 simple_post "d" "positive" (2 # 4);
                 ∅ ] in
  let scored := [ enhanced_post "a" "negative" (- (1 # 2));
                  enhanced_post "b" "positive" (3 # 4);
                  enhanced_post "c" "negative" (- (3 # 4));
                  enhanced_post "d" "negative" (- (2 # 4)) ] in
  (∃ out,
     Simple.get_top_posts_by_sentiment posts "positive" 2 = Ok out
     ∧ is_ranking (field_or_zero "confidence") true "positive" 2 posts out
     ∧ (λ p : dict, p !! "text") <$> out = [Some (VStr "c"); Some (VStr "a")])
  ∧ (∃ out,
       App.top_negative scored = Ok out
       ∧ is_ranking (field_or_zero "vader_compound") false "negative" 5 scored out
       ∧ (λ p : dict, p !! "text") <$> out
         = [Some (VStr "c"); Some (VStr "a"); Some (VStr "d")]).
Proof.
  intros posts scored.
  assert (Hposts : Forall (λ p, well_typed_field p "confidence" = true) posts)
    by (repeat constructor).
  assert (Hscored : Forall (λ p, well_typed_field p "vader_compound" = true) scored)
    by (repeat constructor).
  destruct (top_posts_ranked posts "positive" 2) as [Hsimple _].
  destruct (Hsimple Hposts) as (out & Hout & _ & Hrank & _).
  destruct (top_posts_ranked scored "negative" 5) as [_ Happ].
  destruct (Happ Hscored) as [_ (out' & Hout' & _ & Hrank' & _)].
  split.
  - exists out. split; [exact Hout|]. split; [exact Hrank|].
    assert (E : fmap (M := result) (fmap (λ p : dict, p !! "text"))
                  (Simple.get_top_posts_by_sentiment posts "positive" 2)
                = Ok [Some (VStr "c"); Some (VStr "a")]) by (vm_compute; reflexivity).
    change (Z.of_nat 2) with 2%Z in Hout. rewrite Hout in E. by injection E.
  - exists out'. split; [exact Hout'|]. split; [exact Hrank'|].
    assert (E : fmap (M := result) (fmap (λ p : dict, p !! "text"))
                  (App.top_negative scored)
                = Ok [Some (VStr "c"); Some (VStr "a"); Some (VStr "d")])
      by (vm_compute; reflexivity).
    rewrite Hout' in E. by injection E.
Defined.

(** The limit is an integer for Python: a negative one cuts from the end
    of the ranking instead of counting posts. *)
Remark negative_limit_cuts_from_the_end :
  fmap (M := result) (fmap (λ p : dict, p !! "text"))
    (Simple.get_top_posts_by_sentiment
       [ simple_post "a" "positive" (1 # 2);
         simple_post "c" "positive" (3 # 4);
         simple_post "d" "positive" (1 # 4) ] "positive" (-1))
  = Ok [Some (VStr "c"); Some (VStr "a")].
Proof. vm_compute. reflexivity. Qed.

(** ** Averages *)

Lemma py_sum_numeric (qs : list Q) :
  py_sum (VNum <$> qs) = Ok (float_sum (Float.of_Q <$> qs)).
Proof.
  unfold py_sum.
  rewrite (for_each_ok _ (λ v, match v with
                               | VNum q => Float.of_Q q
                               | _ => Float.zero
                               end)).
  - cbn [mbind result_bind]. f_equal. f_equal. by rewrite <-list_fmap_compose.
  - apply Forall_fmap. by apply Forall_true.
Qed.

Lemma field_values_numeric (posts : list dict) (field : string) :
  Forall (λ p, well_typed_field p field = true) posts →
  for_each (λ post, Shared.analysis_field post field (VNum 0)) posts
    = Ok (VNum <$> (field_or_zero field <$> posts)).
Proof.
  intros H. rewrite <-list_fmap_compose. apply for_each_ok.
  eapply Forall_impl; [exact H|]. intros p Hp. by apply analysis_field_numeric.
Qed.

Lemma mean_len (l : list Q) :
  l ≠ [] →
  float_truediv (float_sum (Float.of_Q <$> l)) (length (VNum <$> l))
  = Ok (float_mean l).
Proof.
  intros Hl. unfold float_mean. rewrite length_fmap. by destruct l.
Qed.

(** C6, the claim as stated fails: with one analysed post of polarity 0.5
    and one post without analysis, the average polarity is not the mean
    over the posts carrying an analysis (0.5), not even within 0.001; it
    is 0.25. *)
Lemma average_not_over_available_posts :
  ¬ (∀ (posts : list dict) (a : Simple.average),
       posts ≠ [] →
       Simple.get_average_sentiment posts = Ok a →
       (Qabs (Float.to_Q (Simple.avg_polarity a)
              - mean (field_or_zero "polarity"
                        <$> filter (λ p, carries_analysis p = true) posts))
        <= 1 # 1000)%Q).
Proof.
  intros H.
  specialize (H [simple_post "a" "positive" (1 # 2); ∅] _ ltac:(done) eq_refl).
  vm_compute in H. by apply H.
Qed.

(** C6, amended.  On a non-empty batch whose polarity and subjectivity
    fields are numbers where present, [get_average_sentiment] returns the
    means of polarity and of subjectivity over all the posts of the batch,
    a post without analysis (or without the field) counting as 0, each
    mean computed on doubles as [sum(...) / len(...)] and rounded to 3
    decimals; the overall sentiment is ['positive'] when the mean
    polarity, not rounded, is above 0.1, ['negative'] when it is below
    -0.1 and ['neutral'] otherwise.  On the empty batch it returns 0.0,
    0.0 and ['neutral']. *)
Theorem average_over_all_posts (posts : list dict) :
  posts ≠ [] →
  Forall (λ p, well_typed_field p "polarity" = true
               ∧ well_typed_field p "subjectivity" = true) posts →
  (∃ a,
     Simple.get_average_sentiment posts = Ok a
     ∧ let mean_polarity := float_mean (field_or_zero "polarity" <$> posts) in
       let mean_subjectivity := float_mean (field_or_zero "subjectivity" <$> posts) in
       Simple.avg_polarity a = py_round_float mean_polarity 3
       ∧ Simple.avg_subjectivity a = py_round_float mean_subjectivity 3
       ∧ (Float.ltb (Float.of_Q (1 # 10)) mean_polarity = true →
            Simple.overall_sentiment a = "positive")
       ∧ (Float.ltb (Float.of_Q (1 # 10)) mean_polarity = false →
          Float.ltb mean_polarity (Float.of_Q (- (1 # 10))) = true →
            Simple.overall_sentiment a = "negative")
       ∧ (Float.ltb (Float.of_Q (1 # 10)) mean_polarity = false →
          Float.ltb mean_polarity (Float.of_Q (- (1 # 10))) = false →
            Simple.overall_sentiment a = "neutral"))
  ∧ Simple.get_average_sentiment []
    = Ok {| Simple.avg_polarity := Float.zero; Simple.avg_subjectivity := Float.zero;
            Simple.overall_sentiment := "neutral" |}.
Proof.
  intros Hne Hwt. split; [|done].
  destruct posts as [|post posts]; [done|].
  unfold Simple.get_average_sentiment.
  rewrite !field_values_numeric
    by (eapply Forall_impl; [exact Hwt|]; by intros p [??]).
  cbn [mbind result_bind]. rewrite !py_sum_numeric. cbn [mbind result_bind].
  rewrite !mean_len by done. cbn [mbind result_bind].
  eexists. split; [reflexivity|].
  cbn [Simple.avg_polarity Simple.avg_subjectivity Simple.overall_sentiment].
  unfold Simple.POSITIVE_THRESHOLD, Simple.NEGATIVE_THRESHOLD.
  split; [done|]. split; [done|]. split_and!.
  - by intros ->.
  - by intros -> ->.
  - by intros -> ->.
Qed.

Lemma average_over_all_posts_witness :
  ∃ a,
    Simple.get_average_sentiment
      [simple_post "a" "neutral" (1 # 10); simple_post "b" "neutral" (1 # 10);
       simple_post "c" "neutral" (1 # 10)]
      = Ok a
    ∧ Simple.avg_polarity a = Float.of_Q (1 # 10)
    ∧ Simple.overall_sentiment a = "positive".
Proof.
  destruct (average_over_all_posts
              [simple_post "a" "neutral" (1 # 10); simple_post "b" "neutral" (1 # 10);
               simple_post "c" "neutral" (1 # 10)])
    as [(a & Ha & Hp & _ & Hpos & _) _]; [done|repeat constructor|].
  exists a. split; [exact Ha|]. split.
  - rewrite Hp. by vm_compute.
  - apply Hpos. by vm_compute.
Defined.

(** ** Batch analysis in the store *)

Section Batch.
Import Store.
Variable analyze_text : value → result dict.

Lemma bind_run {A B : Type} (m : M A) (f : A → M B) (h : heap) :
  (m ≫= f) h = match m h with
               | (Ok a, h') => f a h'
               | (Raise e, h') => (Raise e, h')
               end.
Proof. reflexivity. Qed.

Lemma read_some (l : loc) (h : heap) (d : dict) :
  h !! l = Some d → read l h = (Ok d, h).
Proof. intros H. unfold read. by rewrite H. Qed.

Lemma read_none (l : loc) (h : heap) :
  h !! l = None → read l h = (Raise InvalidReference, h).
Proof. intros H. unfold read. by rewrite H. Qed.

Lemma copy_some (l : loc) (h : heap) (d : dict) :
  h !! l = Some d → copy l h = (Ok (length h), h ++ [d]).
Proof. intros H. unfold copy. by rewrite bind_run, (read_some _ _ _ H). Qed.

Lemma setitem_last (h : heap) (d : dict) (k : string) (v : value) :
  setitem (length h) k v (h ++ [d]) = (Ok (), h ++ [<[k := v]> d]).
Proof.
  unfold setitem. rewrite bind_run, (read_some _ _ d).
  - cbv beta iota. unfold write. by rewrite insert_app_r_alt, Nat.sub_diag by done.
  - by rewrite lookup_app_r, Nat.sub_diag by done.
Qed.

(** One turn of the loop of [analyze_posts] on a post that is analysed
    without error. *)
Lemma analyze_posts_step (post : loc) (rest analyzed : list loc) (h : heap)
    (d a : dict) :
  h !! post = Some d →
  analyze_text (Shared.post_text d) = Ok a →
  Shared.analyze_posts_loop analyze_text (post :: rest) analyzed h
    = Shared.analyze_posts_loop analyze_text rest (analyzed ++ [length h])
        (h ++ [<["sentiment_analysis" := VDict a]> d]).
Proof.
  intros Hd Ha. cbn [Shared.analyze_posts_loop].
  rewrite bind_run, (read_some _ _ _ Hd). cbv beta iota zeta.
  rewrite bind_run. unfold lift at 1. rewrite Ha. cbv beta iota.
  rewrite bind_run, (copy_some _ _ _ Hd). cbv beta iota.
  by rewrite bind_run, setitem_last.
Qed.

(** The store only grows, whatever the outcome. *)
Lemma analyze_posts_loop_extends (posts analyzed : list loc) (h : heap) :
  ∃ new, (Shared.analyze_posts_loop analyze_text posts analyzed h).2 = h ++ new.
Proof.
  revert analyzed h. induction posts as [|post rest IH]; intros analyzed h.
  { exists []. by rewrite app_nil_r. }
  destruct (h !! post) as [d|] eqn:Hd.
  - destruct (analyze_text (Shared.post_text d)) as [a|e] eqn:Ha.
    + rewrite (analyze_posts_step _ _ _ _ _ _ Hd Ha).
      destruct (IH (analyzed ++ [length h])
                  (h ++ [<["sentiment_analysis" := VDict a]> d])) as [new ->].
      eexists. by rewrite <-app_assoc.
    + exists []. cbn [Shared.analyze_posts_loop].
      rewrite bind_run, (read_some _ _ _ Hd). cbv beta iota zeta.
      rewrite bind_run. unfold lift at 1. rewrite Ha. by rewrite app_nil_r.
  - exists []. cbn [Shared.analyze_posts_loop].
    rewrite bind_run, (read_none _ _ Hd). by rewrite app_nil_r.
Qed.

Lemma analyze_posts_frame (posts : list loc) (h : heap) (l : loc) (d : dict) :
  h !! l = Some d →
  (Shared.analyze_posts analyze_text posts h).2 !! l = Some d.
Proof.
  intros Hl. unfold Shared.analyze_posts.
  destruct (analyze_posts_loop_extends posts [] h) as [new ->].
  by apply lookup_app_l_Some.
Qed.

Lemma analyze_posts_loop_ok (posts analyzed : list loc) (h : heap) :
  Forall (λ post, ∃ d a, h !! post = Some d
                         ∧ analyze_text (Shared.post_text d) = Ok a) posts →
  ∃ new,
    Shared.analyze_posts_loop analyze_text posts analyzed h
      = (Ok (analyzed ++ seq (length h) (length posts)), h ++ new)
    ∧ length new = length posts
    ∧ ∀ i post d,
        posts !! i = Some post → h !! post = Some d →
        ∃ a, analyze_text (Shared.post_text d) = Ok a
             ∧ new !! i = Some (<["sentiment_analysis" := VDict a]> d).
Proof.
  revert analyzed h. induction posts as [|post rest IH]; intros analyzed h Hall.
  { exists []. rewrite !app_nil_r. split; [done|]. split; [done|].
    intros i post d Hi. by rewrite lookup_nil in Hi. }
  apply Forall_cons in Hall as [(d & a & Hd & Ha) Hrest].
  rewrite (analyze_posts_step _ _ _ _ _ _ Hd Ha).
  destruct (IH (analyzed ++ [length h])
              (h ++ [<["sentiment_analysis" := VDict a]> d])) as (new & -> & Hlen & Hnew).
  { eapply Forall_impl; [exact Hrest|]. intros p (d' & a' & Hd' & Ha').
    exists d', a'. split; [by apply lookup_app_l_Some|done]. }
  exists (<["sentiment_analysis" := VDict a]> d :: new).
  rewrite length_app. cbn [length seq].
  rewrite <-!app_assoc, Nat.add_1_r. cbn [app].
  split; [done|]. split; [by rewrite Hlen|].
  intros [|i] post' d' Hi Hd'; cbn [lookup list_lookup] in *.
  - injection Hi as <-. rewrite Hd in Hd'. injection Hd' as <-. eauto.
  - eapply Hnew; [exact Hi|]. by apply lookup_app_l_Some.
Qed.

Lemma analyze_posts_copies_generic (posts : list loc) (h : heap) :
  Forall (λ post, ∃ d a, h !! post = Some d
                         ∧ analyze_text (Shared.post_text d) = Ok a) posts →
  copies_with_analysis analyze_text h posts
    (Shared.analyze_posts analyze_text posts h).
Proof.
  intros Hall. unfold Shared.analyze_posts.
  destruct (analyze_posts_loop_ok posts [] h Hall) as (new & Hrun & Hlen & Hnew).
  exists (seq (length h) (length posts)), (h ++ new).
  split; [exact Hrun|]. split; [apply length_seq|]. split; [apply NoDup_seq|].
  split; [intros l d Hl; by apply lookup_app_l_Some|].
  intros i post d Hi Hd.
  destruct (Hnew i post d Hi Hd) as (a & Ha & Hni).
  assert (Hlt : i < length posts) by (by eapply lookup_lt_Some).
  exists (length h + i), (<["sentiment_analysis" := VDict a]> d), a.
  split_and!.
  - by apply lookup_seq_lt.
  - apply lookup_ge_None. lia.
  - rewrite lookup_app_r by lia.
    replace (length h + i - length h) with i by lia. done.
  - done.
  - apply lookup_insert_eq.
  - intros k Hk. by apply lookup_insert_ne.
Qed.
End Batch.

Lemma simple_analyze_text_returns (textblob_sentiment : string → outcome (Q * Q))
    (text : value) :
  text_like text = true → ∃ r, Simple.analyze_text textblob_sentiment text = Ok r.
Proof.
  unfold text_like, Simple.analyze_text.
  destruct (truthy text); cbn [negb orb]; [|eauto].
  destruct text; try done. intros _. destruct (is_empty (strip s)); eauto.
Qed.

Lemma enhanced_analyze_text_returns
    (polarity_scores : string → Enhanced.vader_scores)
    (textblob_sentiment : string → outcome (Q * Q))
    (set_order : list string → list string) (self : Enhanced.analyzer)
    (text : value) :
  text_like text = true →
  (∀ s, ∃ pq, textblob_sentiment s = inr pq) →
  ∃ r, Enhanced.analyze_text polarity_scores textblob_sentiment set_order self text
         = Ok r.
Proof.
  unfold text_like, Enhanced.analyze_text. intros Ht Htb.
  destruct (truthy text); cbn [negb orb] in *; [|eauto].
  destruct text; try done. destruct (is_empty (strip s)); [eauto|].
  unfold Enhanced.analyze_nonblank. destruct (Htb s) as [[p q] ->]. simpl. eauto.
Qed.

(** C9.  [analyze_posts] writes into no object that exists when it is
    called, whatever the batch and whatever its outcome.  When each post of
    the batch is analysed without error (in the simple variant: when the
    text of each post is a string or a falsy object), it returns one new
    record per post, which holds the analysis of the post under
    ['sentiment_analysis'] and under every other key the value the post
    holds. *)
Theorem analyze_posts_copies
    (polarity_scores : string → Enhanced.vader_scores)
    (textblob_sentiment : string → outcome (Q * Q))
    (set_order : list string → list string) (self : Enhanced.analyzer)
    (h : Store.heap) (posts : list Store.loc) :
  Forall (λ post, ∃ d, h !! post = Some d
                       ∧ text_like (Shared.post_text d) = true) posts →
  Forall (λ post, ∃ d a, h !! post = Some d
                         ∧ Enhanced.analyze_text polarity_scores textblob_sentiment
                             set_order self (Shared.post_text d) = Ok a) posts →
  copies_with_analysis
    (λ text, Simple.analysis_dict <$> Simple.analyze_text textblob_sentiment text)
    h posts (Simple.analyze_posts textblob_sentiment posts h)
  ∧ copies_with_analysis
      (λ text, Enhanced.analysis_dict <$>
                 Enhanced.analyze_text polarity_scores textblob_sentiment
                   set_order self text)
      h posts
      (Enhanced.analyze_posts polarity_scores textblob_sentiment set_order self posts h)
  ∧ ∀ (batch : list Store.loc) (l : Store.loc) (d : dict),
      h !! l = Some d →
      (Simple.analyze_posts textblob_sentiment batch h).2 !! l = Some d
      ∧ (Enhanced.analyze_posts polarity_scores textblob_sentiment set_order self
           batch h).2 !! l = Some d.
Proof.
  intros Hsimple Henhanced. split_and!.
  - apply analyze_posts_copies_generic.
    eapply Forall_impl; [exact Hsimple|]. intros post (d & Hd & Ht).
    destruct (simple_analyze_text_returns textblob_sentiment _ Ht) as [r Hr].
    exists d, (Simple.analysis_dict r). by rewrite Hr.
  - apply analyze_posts_copies_generic.
    eapply Forall_impl; [exact Henhanced|]. intros post (d & a & Hd & Ha).
    exists d, (Enhanced.analysis_dict a). by rewrite Ha.
  - intros batch l d Hl. split; by apply analyze_posts_frame.
Qed.

Lemma analyze_posts_copies_witness :
  let h : Store.heap :=
    [ {[ "text" := VStr "I love it"; "platform" := VStr "reddit" ]}; ∅ ] in
  let posts := [0; 1; 0] in
  copies_with_analysis
    (λ text, Simple.analysis_dict <$>
               Simple.analyze_text (fixed_polarity (1 # 2) (1 # 2)) text)
    h posts (Simple.analyze_posts (fixed_polarity (1 # 2) (1 # 2)) posts h)
  ∧ (Simple.analyze_posts (fixed_polarity (1 # 2) (1 # 2)) posts h).1 = Ok [2; 3; 4]
  ∧ (Enhanced.analyze_posts sample_scores (fixed_polarity (1 # 2) (1 # 2)) (λ l, l)
       Enhanced.init posts h).1 = Ok [2; 3; 4].
Proof.
  intros h posts.
  assert (Hs : Forall (λ post, ∃ d, h !! post = Some d
                 ∧ text_like (Shared.post_text d) = true) posts).
  { repeat constructor; eexists; (split; [reflexivity|by vm_compute]). }
  assert (He : Forall (λ post, ∃ d a, h !! post = Some d
                 ∧ Enhanced.analyze_text sample_scores (fixed_polarity (1 # 2) (1 # 2))
                     (λ l, l) Enhanced.init (Shared.post_text d) = Ok a) posts).
  { assert (Hret : ∀ d, text_like (Shared.post_text d) = true →
              ∃ a, Enhanced.analyze_text sample_scores (fixed_polarity (1 # 2) (1 # 2))
                     (λ l, l) Enhanced.init (Shared.post_text d) = Ok a).
    { intros d Hd. apply enhanced_analyze_text_returns; [exact Hd|].
      intros s. by eexists. }
    eapply Forall_impl; [exact Hs|]. intros post (d & Hd & Ht).
    destruct (Hret d Ht) as [a Ha]. by exists d, a. }
  destruct (analyze_posts_copies sample_scores (fixed_polarity (1 # 2) (1 # 2))
              (λ l, l) Enhanced.init h posts Hs He) as (H1 & _ & _).
  split; [exact H1|]. split; by vm_compute.
Defined.

(** * Further properties of the analyzers *)

(** ** Characters *)

Lemma lower_char_idem (a : ascii) : lower_char (lower_char a) = lower_char a.
Proof. destruct a as [[] [] [] [] [] [] [] []]; reflexivity. Qed.

Lemma word_char_not_apostrophe (a : ascii) :
  is_word_char a = true → is_apostrophe a = false.
Proof. destruct a as [[] [] [] [] [] [] [] []]; (reflexivity || discriminate). Qed.

Lemma delimiter_not_space (a : ascii) :
  Enhanced.sentence_delimiter a = true → is_space a = false.
Proof. destruct a as [[] [] [] [] [] [] [] []]; (reflexivity || discriminate). Qed.

Lemma lower_idem (s : string) : lower (lower s) = lower s.
Proof. induction s as [|a s IH]; [done|]. simpl. by rewrite lower_char_idem, IH. Qed.

Lemma lower_is_lowered (s : string) : all_chars is_lowered (lower s) = true.
Proof.
  induction s as [|a s IH]; [done|]. simpl. rewrite IH, andb_true_r.
  apply bool_decide_eq_true. apply lower_char_idem.
Qed.

Lemma all_chars_lowered (s : string) : all_chars is_lowered s = true → lower s = s.
Proof.
  induction s as [|a s IH]; [done|]. simpl.
  intros [Ha Hs]%andb_true_iff. apply bool_decide_eq_true in Ha. by rewrite Ha, IH.
Qed.

Lemma all_chars_string_of_list (P : ascii → bool) (l : list ascii) :
  all_chars P (string_of_list_ascii l) = forallb P l.
Proof. induction l as [|a l IH]; [done|]. simpl. by rewrite IH. Qed.

Lemma forallb_rev {A : Type} (P : A → bool) (l : list A) :
  forallb P (rev l) = forallb P l.
Proof.
  induction l as [|a l IH]; [done|]. simpl.
  rewrite forallb_app, IH. simpl. rewrite andb_true_r. apply andb_comm.
Qed.

Lemma all_chars_flush (P : ascii → bool) (cur : list ascii) :
  all_chars P (flush cur) = forallb P cur.
Proof. unfold flush. by rewrite all_chars_string_of_list, forallb_rev. Qed.

Lemma flush_nonempty (a : ascii) (cur : list ascii) : flush (a :: cur) ≠ EmptyString.
Proof.
  unfold flush. simpl. destruct (rev cur) as [|b l]; simpl; discriminate.
Qed.

Lemma all_chars_impl (P Q : ascii → bool) (s : string) :
  (∀ a, P a = true → Q a = true) → all_chars P s = true → all_chars Q s = true.
Proof.
  intros HPQ. induction s as [|a s IH]; [done|]. simpl.
  intros [Ha Hs]%andb_true_iff. by rewrite (HPQ _ Ha), IH.
Qed.

(** ** The tokenizer *)

Lemma findall_words_go_shape (P : ascii → bool) (cur : list ascii) (s : string) :
  forallb P cur = true → all_chars P s = true →
  Forall (λ t, t ≠ EmptyString
               ∧ all_chars is_word_char t = true
               ∧ all_chars P t = true) (findall_words_go cur s)
  ∨ forallb is_word_char cur = false.
Proof.
  revert cur. induction s as [|a s IH]; intros cur Hcur Hs.
  - destruct (forallb is_word_char cur) eqn:Hw; [left|by right].
    destruct cur as [|c cur]; simpl; [constructor|].
    constructor; [|constructor].
    split; [apply flush_nonempty|]. by rewrite !all_chars_flush.
  - simpl in Hs. apply andb_true_iff in Hs as [Ha Hs]. simpl.
    destruct (forallb is_word_char cur) eqn:Hw; [left|by right].
    destruct (is_word_char a) eqn:Hwa.
    + destruct (IH (a :: cur)) as [H|H]; [simpl; by rewrite Ha|done|done|].
      simpl in H. by rewrite Hwa, Hw in H.
    + destruct (IH []) as [H|H]; [done|done| |done].
      destruct cur as [|c cur]; [done|].
      constructor; [|done].
      split; [apply flush_nonempty|]. by rewrite !all_chars_flush.
Qed.

Lemma tokenize_shape (text : string) :
  Forall (λ t, t ≠ EmptyString
               ∧ all_chars is_word_char t = true
               ∧ all_chars is_lowered t = true) (Enhanced._tokenize text).
Proof.
  unfold Enhanced._tokenize, findall_words.
  by destruct (findall_words_go_shape is_lowered [] (lower text))
    as [H|H]; [|apply lower_is_lowered| |].
Qed.

(** X1.  Every token [_tokenize] produces is non-empty, is made of word
    characters only and is in lower case; the tokens of a text and of its
    lower-cased form are the same, so that the lower-casing [analyze_text]
    does before calling [_tokenize] changes nothing. *)
Theorem tokens_are_lowercase_words (text : string) :
  Forall (λ t, t ≠ EmptyString
               ∧ all_chars is_word_char t = true
               ∧ lower t = t) (Enhanced._tokenize text)
  ∧ Enhanced._tokenize (lower text) = Enhanced._tokenize text.
Proof.
  split.
  - eapply Forall_impl; [apply tokenize_shape|]. intros t (Hne & Hw & Hl).
    split; [done|]. split; [done|]. by apply all_chars_lowered.
  - unfold Enhanced._tokenize. by rewrite lower_idem.
Qed.

(** ** The sentence splitter *)

Lemma lstrip_all_chars (P : ascii → bool) (s : string) :
  all_chars P s = true → all_chars P (lstrip s) = true.
Proof.
  induction s as [|a s IH]; [done|]. simpl.
  intros H. destruct (is_space a); [|done].
  apply andb_true_iff in H as [_ H]. by apply IH.
Qed.

Lemma rstrip_all_chars (P : ascii → bool) (s : string) :
  all_chars P s = true → all_chars P (rstrip s) = true.
Proof.
  induction s as [|a s IH]; [done|]. simpl.
  intros [Ha Hs]%andb_true_iff.
  destruct (is_space a && is_empty (rstrip s)); [done|].
  simpl. by rewrite Ha, IH.
Qed.

Lemma strip_all_chars (P : ascii → bool) (s : string) :
  all_chars P s = true → all_chars P (strip s) = true.
Proof. intros H. unfold strip. by apply rstrip_all_chars, lstrip_all_chars. Qed.

Lemma rstrip_idem (s : string) : rstrip (rstrip s) = rstrip s.
Proof.
  induction s as [|a s IH]; [done|]. simpl.
  destruct (is_space a && is_empty (rstrip s)) eqn:E; [done|].
  simpl. by rewrite IH, E.
Qed.

Lemma lstrip_head (s : string) :
  lstrip s = EmptyString ∨ ∃ a s', lstrip s = String a s' ∧ is_space a = false.
Proof.
  induction s as [|a s IH]; [by left|]. simpl.
  destruct (is_space a) eqn:E; [done|]. right. by exists a, s.
Qed.

Lemma lstrip_rstrip_lstrip (s : string) : lstrip (rstrip (lstrip s)) = rstrip (lstrip s).
Proof.
  destruct (lstrip_head s) as [->|(a & s' & -> & Ha)]; [done|].
  simpl. rewrite Ha. simpl. by rewrite Ha.
Qed.

Lemma strip_idem (s : string) : strip (strip s) = strip s.
Proof. unfold strip. by rewrite lstrip_rstrip_lstrip, rstrip_idem. Qed.

(** The pieces [re.split] returns contain no delimiter. *)
Lemma split_runs_go_pieces (delim : ascii → bool) (cur : list ascii) (in_run : bool)
    (s : string) :
  forallb (λ a, negb (delim a)) cur = true →
  Forall (λ piece, all_chars (λ a, negb (delim a)) piece = true)
    (split_runs_go delim cur in_run s).
Proof.
  revert cur in_run. induction s as [|a s IH]; intros cur in_run Hcur; simpl.
  - constructor; [|constructor]. by rewrite all_chars_flush.
  - destruct (delim a) eqn:Ha.
    + destruct in_run; [by apply IH|].
      constructor; [by rewrite all_chars_flush|by apply IH].
    + apply IH. simpl. by rewrite Ha.
Qed.

(** The pieces are all blank exactly when the text has nothing but
    whitespace and delimiters. *)
Lemma split_runs_go_blank (delim : ascii → bool) (cur : list ascii) (in_run : bool)
    (s : string) :
  (in_run = true → cur = []) →
  Forall (λ piece, whitespace_only piece = true) (split_runs_go delim cur in_run s)
  ↔ forallb is_space cur = true
    ∧ all_chars (λ a, is_space a || delim a) s = true.
Proof.
  assert (Hflush : ∀ l, whitespace_only (flush l) = forallb is_space l).
  { intros l. unfold flush. rewrite <-(forallb_rev is_space l).
    induction (rev l) as [|b l' IHl]; [done|]. simpl. by rewrite IHl. }
  revert cur in_run. induction s as [|a s IH]; intros cur in_run Hinv; simpl.
  - rewrite Forall_singleton, Hflush. naive_solver.
  - destruct (delim a) eqn:Ha.
    + rewrite orb_true_r. cbn [andb]. destruct in_run.
      * rewrite (Hinv eq_refl). rewrite IH by done. done.
      * rewrite Forall_cons, Hflush, IH by done. naive_solver.
    + rewrite orb_false_r. rewrite IH by (intros; done). simpl.
      rewrite !andb_true_iff. naive_solver.
Qed.

(** X2.  Every sentence [_split_sentences] returns is non-empty, has no
    whitespace at either end (stripping it again changes nothing) and
    contains none of the delimiters [.], [!], [?].  No sentence at all is
    returned exactly when the text consists of whitespace and delimiters
    only. *)
Theorem sentences_are_stripped_fragments (text : string) :
  Forall (λ x, x ≠ EmptyString
               ∧ strip x = x
               ∧ all_chars (λ a, negb (Enhanced.sentence_delimiter a)) x = true)
    (Enhanced._split_sentences text)
  ∧ (Enhanced._split_sentences text = []
     ↔ all_chars (λ a, is_space a || Enhanced.sentence_delimiter a) text = true).
Proof.
  unfold Enhanced._split_sentences, split_runs. split.
  - rewrite Forall_fmap. apply Forall_forall.
    intros piece [Hne Hin]%list_elem_of_filter. simpl.
    split; [intros E; by rewrite E in Hne|]. split; [apply strip_idem|].
    apply strip_all_chars.
    pose proof (split_runs_go_pieces Enhanced.sentence_delimiter [] false text eq_refl)
      as Hpieces.
    by eapply Forall_forall in Hpieces.
  - assert (Hnil : ∀ l : list string, strip <$> l = [] ↔ l = [])
      by (by intros [|??]).
    rewrite Hnil.
    pose proof (split_runs_go_blank Enhanced.sentence_delimiter [] false text
                  ltac:(done)) as Hblank.
    cbn [forallb] in Hblank.
    transitivity (Forall (λ piece, whitespace_only piece = true)
                    (split_runs_go Enhanced.sentence_delimiter [] false text));
      [|rewrite Hblank; naive_solver].
    clear Hblank. set (pieces := split_runs_go _ _ _ _). clearbody pieces.
    induction pieces as [|piece pieces IH]; [done|].
    rewrite filter_cons, Forall_cons, strip_empty.
    destruct (whitespace_only piece) eqn:E.
    + rewrite decide_False by done. rewrite IH. naive_solver.
    + rewrite decide_True by done. naive_solver.
Qed.

(** ** The indicator extractor, continued *)

Lemma tier_scan_elem (strong moderate : gset string) (words : list string)
    (w strength : string) :
  ((w, strength) ∈ omap (λ word,
      if bool_decide (word ∈ strong) then Some (word, "strong")
      else if bool_decide (word ∈ moderate) then Some (word, "moderate")
      else None) words)
  ↔ w ∈ words
    ∧ ((strength = "strong" ∧ w ∈ strong)
       ∨ (strength = "moderate" ∧ (w ∉ strong) ∧ w ∈ moderate)).
Proof.
  rewrite list_elem_of_omap. split.
  - intros (word & Hin & Hword). split.
    + repeat case_bool_decide; simplify_eq; done.
    + repeat case_bool_decide; simplify_eq; [by left|by right].
  - intros [Hin [[-> Hs]|(-> & Hns & Hm)]]; exists w; (split; [done|]).
    + by rewrite bool_decide_eq_true_2.
    + by rewrite bool_decide_eq_false_2, bool_decide_eq_true_2.
Qed.

Lemma tier_scan_sublist (strong moderate : gset string) (words : list string) :
  (omap (λ word,
      if bool_decide (word ∈ strong) then Some (word, "strong")
      else if bool_decide (word ∈ moderate) then Some (word, "moderate")
      else None) words).*1 `sublist_of` words.
Proof.
  induction words as [|x words IH]; [done|].
  rewrite omap_cons_eq.
  repeat case_bool_decide; cbn [fmap list_fmap fst];
    (by apply sublist_skip) || (by apply sublist_cons).
Qed.

(** X3.  [_find_sentiment_words] reports exactly the tokens of the two
    tiers of the requested polarity: a pair (w, ['strong']) is reported
    when and only when w is a token of the strong tier, a pair
    (w, ['moderate']) when and only when w is a token of the moderate tier
    that the strong tier does not list; no other strength is ever reported,
    and the reported words follow the order of the tokens. *)
Theorem indicators_sound_and_complete (self : Enhanced.analyzer)
    (words : list string) (sentiment_type w strength : string) :
  let moderate_tier :=
    if String.eqb sentiment_type "positive"
    then Enhanced.positive_words self else Enhanced.negative_words self in
  let found := Enhanced._find_sentiment_words self words sentiment_type in
  ((w, strength) ∈ found
   ↔ w ∈ words
     ∧ ((strength = "strong" ∧ w ∈ strong_tier self sentiment_type)
        ∨ (strength = "moderate" ∧ (w ∉ strong_tier self sentiment_type)
           ∧ w ∈ moderate_tier)))
  ∧ found.*1 `sublist_of` words.
Proof.
  unfold Enhanced._find_sentiment_words, strong_tier.
  destruct (String.eqb sentiment_type "positive"); cbv zeta;
    (split; [apply tier_scan_elem|apply tier_scan_sublist]).
Qed.

(** ** Negations the tokenizer cannot deliver *)

Lemma token_in_negations (t : string) :
  all_chars is_word_char t = true →
  t ∈ Enhanced.negations Enhanced.init →
  t ∈ ["not"; "no"; "never"; "nothing"; "neither"; "nobody"; "nowhere"; "none";
       "cannot"].
Proof.
  intros Hw Hin.
  assert (Hcases : t ∈ ["not"; "no"; "never"; "nothing"; "neither"; "nobody";
                        "nowhere"; "none"; "don't"; "doesn't"; "didn't"; "won't";
                        "wouldn't"; "shouldn't"; "can't"; "cannot"; "couldn't"]).
  { unfold Enhanced.negations, Enhanced.init in Hin.
    rewrite !elem_of_union, !elem_of_singleton in Hin.
    rewrite !elem_of_cons. naive_solver. }
  rewrite !elem_of_cons in Hcases. rewrite !elem_of_cons.
  destruct Hcases as [->|[->|[->|[->|[->|[->|[->|[->|[->|[->|[->|[->|[->|[->|[->|[->|[->|H]]]]]]]]]]]]]]]]];
    try discriminate Hw; try naive_solver.
Qed.

(** X4.  The negation lexicon of [__init__] lists nine contractions
    ([don't], [doesn't], [didn't], [won't], [wouldn't], [shouldn't],
    [can't], [couldn't] and so on) that [analyze_text] can never report: the
    tokenizer cuts a text at every apostrophe, so every negation it reports
    is one of the nine words without apostrophe. *)
Theorem contractions_never_reported
    (polarity_scores : string → Enhanced.vader_scores)
    (textblob_sentiment : string → outcome (Q * Q))
    (set_order : list string → list string) (text : value) (r : Enhanced.analysis) :
  Enhanced.analyze_text polarity_scores textblob_sentiment set_order Enhanced.init text
    = Ok r →
  Forall (λ w, w ∈ ["not"; "no"; "never"; "nothing"; "neither"; "nobody"; "nowhere";
                    "none"; "cannot"]
               ∧ all_chars (λ a, negb (is_apostrophe a)) w = true)
    (Enhanced.found_negations r).
Proof.
  unfold Enhanced.analyze_text. intros Hr.
  assert (Hcases : r = Enhanced._empty_result
            ∨ ∃ t, Enhanced.analyze_nonblank polarity_scores textblob_sentiment
                     set_order Enhanced.init t = Ok r).
  { destruct (negb (truthy text)); [left; congruence|].
    destruct text; try done.
    destruct (is_empty (strip s)); [left; congruence|by right; eexists]. }
  destruct Hcases as [->|[t Ht]]; [constructor|].
  unfold Enhanced.analyze_nonblank in Ht.
  destruct (textblob_sentiment t) as [e|[p q]]; [done|].
  simpl in Ht. injection Ht as <-. cbn [Enhanced.found_negations].
  unfold Enhanced._find_negations. apply Forall_forall.
  intros w [Hneg Htok]%list_elem_of_filter.
  pose proof (tokenize_shape (lower t)) as Hshape.
  eapply Forall_forall in Hshape as (_ & Hw & _); [|exact Htok].
  split; [by apply token_in_negations|].
  eapply all_chars_impl; [|exact Hw].
  intros a Ha. by rewrite (word_char_not_apostrophe a Ha).
Qed.

Lemma contractions_never_reported_witness :
  ∃ r,
    Enhanced.analyze_text sample_scores (fixed_polarity 0 0) (λ l, l) Enhanced.init
      (VStr "I don't like it, not at all") = Ok r
    ∧ Enhanced.found_negations r = ["not"]
    ∧ Forall (λ w, w ∈ ["not"; "no"; "never"; "nothing"; "neither"; "nobody";
                        "nowhere"; "none"; "cannot"]
                   ∧ all_chars (λ a, negb (is_apostrophe a)) w = true)
        (Enhanced.found_negations r).
Proof.
  destruct (Enhanced.analyze_text sample_scores (fixed_polarity 0 0) (λ l, l)
              Enhanced.init (VStr "I don't like it, not at all")) as [r|e] eqn:Hr.
  - exists r. split; [reflexivity|].
    pose proof (contractions_never_reported _ _ _ _ _ Hr) as H.
    split; [|exact H]. vm_compute in Hr. by injection Hr as <-.
  - vm_compute in Hr. discriminate Hr.
Defined.

(** ** Confidence, reasoning and explanation *)

Lemma confidence_of_cases (c : Q) :
  let m := Qabs c in
  (Enhanced.confidence_of c = "high" ↔ (1 # 2 <= m)%Q)
  ∧ (Enhanced.confidence_of c = "low" ↔ (1 # 20 <= m)%Q ∧ (m < 1 # 4)%Q)
  ∧ (Enhanced.confidence_of c = "moderate"
     ↔ (m < 1 # 20)%Q ∨ ((1 # 4 <= m)%Q ∧ (m < 1 # 2)%Q))
  ∧ (Enhanced.classify c = "neutral" ↔ (m < 1 # 20)%Q).
Proof.
  unfold Enhanced.confidence_of, Enhanced.classify. cbv zeta.
  repeat match goal with
  | |- context [Qleb ?a ?b] =>
      let H := fresh "H" in
      destruct (Qleb a b) eqn:H; [apply Qleb_le in H|apply Qleb_gt in H]
  end;
  destruct c as [n d]; unfold Qle, Qlt, Qabs in *; cbn [Qnum Qden Qopp] in *;
  (split_and!; split; intros;
   first [done|discriminate|lia|exfalso; lia]).
Qed.

(** X5.  The confidence label the enhanced variant gives a text that is not
    blank follows the magnitude of the compound score: ['high'] from 0.5,
    ['low'] from 0.05 up to 0.25, and ['moderate'] both from 0.25 up to 0.5
    and below 0.05; a neutral label therefore always comes with confidence
    ['moderate'] (while the result for blank input pairs ['neutral'] with
    ['low']). *)
Theorem confidence_by_magnitude
    (polarity_scores : string → Enhanced.vader_scores)
    (textblob_sentiment : string → outcome (Q * Q))
    (set_order : list string → list string) (self : Enhanced.analyzer)
    (s : string) (pq : Q * Q) :
  whitespace_only s = false →
  textblob_sentiment s = inr pq →
  ∃ r,
    Enhanced.analyze_text polarity_scores textblob_sentiment set_order self (VStr s)
      = Ok r
    ∧ let m := Qabs (Enhanced.compound (polarity_scores s)) in
      (Enhanced.confidence r = "high" ↔ (1 # 2 <= m)%Q)
      ∧ (Enhanced.confidence r = "low" ↔ (1 # 20 <= m)%Q ∧ (m < 1 # 4)%Q)
      ∧ (Enhanced.confidence r = "moderate"
         ↔ (m < 1 # 20)%Q ∨ ((1 # 4 <= m)%Q ∧ (m < 1 # 2)%Q))
      ∧ (Enhanced.sentiment r = "neutral" ↔ (m < 1 # 20)%Q)
      ∧ (Enhanced.sentiment r = "neutral" → Enhanced.confidence r = "moderate").
Proof.
  intros Hs Htb. rewrite enhanced_analyze_nonblank_string by done.
  unfold Enhanced.analyze_nonblank. rewrite Htb. destruct pq as [p q]. simpl.
  eexists. split; [reflexivity|].
  cbn [Enhanced.confidence Enhanced.sentiment].
  destruct (confidence_of_cases (Enhanced.compound (polarity_scores s)))
    as (Hh & Hl & Hm & Hn).
  split_and!; try done. intros H. apply Hm. left. by apply Hn.
Qed.

Lemma confidence_by_magnitude_witness :
  ∃ r,
    Enhanced.analyze_text sample_scores (fixed_polarity 0 0) (λ l, l) Enhanced.init
      (VStr "I love it") = Ok r
    ∧ Enhanced.confidence r = "high".
Proof.
  destruct (confidence_by_magnitude sample_scores (fixed_polarity 0 0) (λ l, l)
              Enhanced.init "I love it" (0, 0)%Q eq_refl eq_refl)
    as (r & Hr & Hh & _).
  exists r. split; [exact Hr|]. apply Hh. vm_compute. discriminate.
Defined.

(** X6.  [_generate_reasoning] returns at most 4 bullets, and it can return
    none: the list is empty exactly when the label is ['positive'] (or
    ['negative']) although no indicator of that polarity and no intensifier
    was found, indicators of the opposite polarity were found and no
    negation was.  For every other label the first bullet is
    ['Balanced or factual language']. *)
Theorem reasoning_may_be_empty (sentiment : string)
    (positive_indicators negative_indicators : list (string * string))
    (negations intensifiers : list string) :
  let reasons :=
    Enhanced._generate_reasoning sentiment positive_indicators negative_indicators
      negations intensifiers in
  length reasons ≤ 4
  ∧ (reasons = []
     ↔ negations = [] ∧ intensifiers = []
       ∧ ((sentiment = "positive" ∧ positive_indicators = []
           ∧ negative_indicators ≠ [])
          ∨ (sentiment = "negative" ∧ negative_indicators = []
             ∧ positive_indicators ≠ [])))
  ∧ (sentiment ≠ "positive" → sentiment ≠ "negative" →
     head reasons = Some "Balanced or factual language").
Proof.
  unfold Enhanced._generate_reasoning. cbv zeta.
  destruct (String.eqb_spec sentiment "positive") as [->|Hp].
  { cbn [String.eqb Ascii.eqb Bool.eqb].
    destruct positive_indicators, negative_indicators, negations, intensifiers;
      cbn [Enhanced.nonempty app length head];
      (split_and!; [lia|split; intros; [try discriminate|]; naive_solver|done]). }
  destruct (String.eqb_spec sentiment "negative") as [->|Hn].
  { destruct positive_indicators, negative_indicators, negations, intensifiers;
      cbn [Enhanced.nonempty app length head];
      (split_and!; [lia|split; intros; [try discriminate|]; naive_solver|done]). }
  destruct positive_indicators, negative_indicators, negations, intensifiers;
    cbn [Enhanced.nonempty app length head orb];
    (split_and!; [lia|split; intros; [try discriminate|]; naive_solver|done]).
Qed.

Lemma reasoning_may_be_empty_witness :
  Enhanced._generate_reasoning "positive" [] [("bad", "moderate")] [] [] = []
  ∧ head (Enhanced._generate_reasoning "neutral" [] [] [] [])
    = Some "Balanced or factual language".
Proof.
  destruct (reasoning_may_be_empty "positive" [] [("bad", "moderate")] [] [])
    as (_ & Hempty & _).
  destruct (reasoning_may_be_empty "neutral" [] [] [] []) as (_ & _ & Hhead).
  split.
  - apply Hempty. split; [done|]. split; [done|]. left. by split_and!.
  - by apply Hhead.
Defined.

Lemma string_length_append (s t : string) :
  String.length (s +:+ t) = String.length s + String.length t.
Proof. induction s as [|a s IH]; [done|]. simpl. by rewrite IH. Qed.

Lemma string_length_substring_le (n m : nat) (s : string) :
  String.length (String.substring n m s) ≤ m.
Proof.
  revert n m. induction s as [|a s IH]; intros [|n] [|m]; simpl; try lia.
  - specialize (IH 0 m). lia.
  - apply (IH n 0).
  - apply (IH n (S m)).
Qed.

Lemma join_prefix (sep p x : string) (l : list string) :
  String.prefix p x = true → String.prefix p (join sep (x :: l)) = true.
Proof.
  intros Hp. assert (Happ : ∀ t, String.prefix p (x +:+ t) = true).
  { revert x Hp. induction p as [|a p IH]; intros x Hp t;
      [by destruct (x +:+ t)|].
    destruct x as [|b x]; simpl in *; [done|].
    destruct (Ascii.ascii_dec a b); [|done]. by apply IH. }
  destruct l as [|y l]; [done|]. cbn [join]. apply Happ.
Qed.

Lemma indicator_clauses_length (set_order : list string → list string)
    (indicators : list (string * string)) (sp mp : string) :
  length (Enhanced.indicator_clauses set_order indicators sp mp) ≤ 2.
Proof.
  unfold Enhanced.indicator_clauses.
  destruct (Enhanced.nonempty indicators); [|simpl; lia].
  cbv zeta. rewrite length_app.
  destruct (Enhanced.nonempty _), (Enhanced.nonempty _); simpl; lia.
Qed.

(** X7.  The explanation is never empty: it is made of at least 1 and at
    most 8 clauses joined by single spaces, and it always begins with the
    overall clause ['This text is **...']. *)
Theorem explanation_begins_with_overall_clause
    (set_order : list string → list string) (sentiment : string) (compound : Q)
    (positive_indicators negative_indicators : list (string * string))
    (negations_found intensifiers_found : list string)
    (sentence_sentiments : list Enhanced.sentence_entry) :
  let parts :=
    Enhanced.explanation_parts set_order sentiment compound positive_indicators
      negative_indicators negations_found intensifiers_found sentence_sentiments in
  1 ≤ length parts ≤ 8
  ∧ Enhanced._generate_explanation set_order sentiment compound positive_indicators
      negative_indicators negations_found intensifiers_found sentence_sentiments
    = join " " parts
  ∧ String.prefix "This text is **"
      (Enhanced._generate_explanation set_order sentiment compound
         positive_indicators negative_indicators negations_found
         intensifiers_found sentence_sentiments) = true.
Proof.
  cbv zeta. unfold Enhanced._generate_explanation, Enhanced.explanation_parts.
  split; [|split; [done|]].
  - rewrite !length_app. cbn [length].
    pose proof (indicator_clauses_length set_order positive_indicators
                  "Strong positive words found: " "Positive words: ").
    pose proof (indicator_clauses_length set_order negative_indicators
                  "Strong negative words found: " "Negative words: ").
    assert (length (Enhanced.sentence_clause sentence_sentiments) ≤ 1).
    { unfold Enhanced.sentence_clause.
      repeat match goal with |- context [if ?b then _ else _] => destruct b end;
        simpl; lia. }
    destruct (Enhanced.nonempty negations_found),
      (Enhanced.nonempty intensifiers_found); simpl; lia.
  - cbn [app]. apply join_prefix.
    destruct (String.eqb sentiment "positive"); [done|].
    destruct (String.eqb sentiment "negative"); done.
Qed.

(** X8.  The text shown for a sentence never exceeds 103 characters, and
    the label of a sentence is one of ['positive'], ['negative'],
    ['neutral']. *)
Theorem breakdown_entries_bounded
    (polarity_scores : string → Enhanced.vader_scores)
    (textblob_sentiment : string → outcome (Q * Q))
    (set_order : list string → list string) (self : Enhanced.analyzer)
    (text : value) (r : Enhanced.analysis) :
  Enhanced.analyze_text polarity_scores textblob_sentiment set_order self text = Ok r →
  Forall (λ e, String.length (Enhanced.entry_text e) ≤ 103
               ∧ Enhanced.entry_sentiment e ∈ ["positive"; "negative"; "neutral"])
    (Enhanced.sentence_breakdown r).
Proof.
  unfold Enhanced.analyze_text. intros Hr.
  assert (Hcases : r = Enhanced._empty_result
            ∨ ∃ t, Enhanced.analyze_nonblank polarity_scores textblob_sentiment
                     set_order self t = Ok r).
  { destruct (negb (truthy text)); [left; congruence|].
    destruct text; try done.
    destruct (is_empty (strip s)); [left; congruence|by right; eexists]. }
  destruct Hcases as [->|[t Ht]]; [constructor|].
  unfold Enhanced.analyze_nonblank in Ht.
  destruct (textblob_sentiment t) as [e|[p q]]; [done|].
  simpl in Ht. injection Ht as <-. cbn [Enhanced.sentence_breakdown].
  unfold Enhanced._analyze_sentences. apply Forall_forall.
  intros e (x & _ & Hx)%list_elem_of_omap.
  destruct (is_empty x); [done|]. injection Hx as <-.
  unfold Enhanced.analyze_sentence.
  cbn [Enhanced.entry_text Enhanced.entry_sentiment]. split.
  - destruct (Nat.ltb_spec 100 (String.length x)); [|lia].
    rewrite string_length_append. unfold str_take.
    pose proof (string_length_substring_le 0 100 x). simpl. lia.
  - unfold Enhanced.classify. rewrite !elem_of_cons.
    destruct (Qleb _ _); [by left|]. destruct (Qleb _ _); auto.
Qed.

Lemma breakdown_entries_bounded_witness :
  ∃ r,
    Enhanced.analyze_text sample_scores (fixed_polarity 0 0) (λ l, l) Enhanced.init
      (VStr "I love it. Really") = Ok r
    ∧ Forall (λ e, String.length (Enhanced.entry_text e) ≤ 103
                   ∧ Enhanced.entry_sentiment e ∈ ["positive"; "negative"; "neutral"])
        (Enhanced.sentence_breakdown r)
    ∧ length (Enhanced.sentence_breakdown r) = 2.
Proof.
  destruct (Enhanced.analyze_text sample_scores (fixed_polarity 0 0) (λ l, l)
              Enhanced.init (VStr "I love it. Really")) as [r|e] eqn:Hr.
  - exists r. split; [reflexivity|].
    pose proof (breakdown_entries_bounded _ _ _ _ _ _ Hr) as H.
    split; [exact H|]. vm_compute in Hr. by injection Hr as <-.
  - vm_compute in Hr. discriminate Hr.
Defined.

(** ** Errors of [analyze_text] *)

Lemma simple_error_key (r : Simple.analysis) :
  Simple.analysis_dict r !! "error" = VStr <$> Simple.error r.
Proof.
  unfold Simple.analysis_dict.
  destruct (Simple.error r); [by rewrite lookup_insert_eq|done].
Qed.

(** The result of the simple variant records an error exactly when the
    model raised on a text that is not blank. *)
Lemma simple_error_cases (textblob_sentiment : string → outcome (Q * Q))
    (text : value) (r : Simple.analysis) (msg : string) :
  Simple.analyze_text textblob_sentiment text = Ok r →
  Simple.error r = Some msg
  ↔ ∃ s, text = VStr s ∧ whitespace_only s = false ∧ textblob_sentiment s = inl msg.
Proof.
  unfold Simple.analyze_text. intros Hr.
  destruct (truthy text) eqn:Ht; cbn [negb] in Hr.
  2:{ injection Hr as <-. split; [done|]. intros (s & -> & Hs & _).
      destruct s; [done|]. done. }
  destruct text as [| |s| |]; try done.
  destruct (is_empty (strip s)) eqn:He; rewrite strip_empty in He.
  { injection Hr as <-. split; [done|]. intros (s' & [= <-] & Hs & _). congruence. }
  injection Hr as <-. unfold Simple.analyze_nonblank.
  destruct (textblob_sentiment s) as [e|[p q]] eqn:Htb; cbn [Simple.error Simple.neutral_result].
  - split.
    + intros [= ->]. by exists s.
    + intros (s' & [= <-] & _ & Htb'). congruence.
  - split; [done|]. intros (s' & [= <-] & _ & Htb'). congruence.
Qed.

(** X9.  What the two variants do when the polarity model raises on a text
    that is not blank: the simple variant catches the exception and returns
    the neutral zero result with the exception's message under ['error'];
    the enhanced variant lets the exception through.  No other result has
    the key ['error']: a result of the simple variant has it exactly when
    the model raised on the text, which then is a string that is not
    blank, and a result of the enhanced variant never has it. *)
Theorem model_failure_handling
    (polarity_scores : string → Enhanced.vader_scores)
    (textblob_sentiment : string → outcome (Q * Q))
    (set_order : list string → list string) (self : Enhanced.analyzer)
    (s msg : string) :
  whitespace_only s = false →
  textblob_sentiment s = inl msg →
  Simple.analyze_text textblob_sentiment (VStr s)
    = Ok {| Simple.polarity := 0; Simple.subjectivity := 0;
            Simple.sentiment := "neutral"; Simple.confidence := 0;
            Simple.error := Some msg |}
  ∧ Enhanced.analyze_text polarity_scores textblob_sentiment set_order self (VStr s)
    = Raise (Error msg)
  ∧ (∀ (text : value) (r : Simple.analysis) (e : value),
       Simple.analyze_text textblob_sentiment text = Ok r →
       Simple.analysis_dict r !! "error" = Some e
       ↔ ∃ s' msg', text = VStr s' ∧ whitespace_only s' = false
                    ∧ textblob_sentiment s' = inl msg' ∧ e = VStr msg')
  ∧ (∀ r : Enhanced.analysis, Enhanced.analysis_dict r !! "error" = None).
Proof.
  intros Hs Htb. split_and!.
  - rewrite simple_analyze_nonblank_string by done.
    unfold Simple.analyze_nonblank. by rewrite Htb.
  - rewrite enhanced_analyze_nonblank_string by done.
    unfold Enhanced.analyze_nonblank. by rewrite Htb.
  - intros text r e Hr. rewrite simple_error_key. split.
    + destruct (Simple.error r) as [msg'|] eqn:He; [|done].
      intros [= <-].
      apply (simple_error_cases _ _ _ _ Hr) in He as (s' & -> & Hs' & Htb').
      by exists s', msg'.
    + intros (s' & msg' & -> & Hs' & Htb' & ->).
      assert (He : Simple.error r = Some msg')
        by (apply (simple_error_cases _ _ _ _ Hr); by exists s').
      by rewrite He.
  - intros r. reflexivity.
Qed.

Lemma model_failure_handling_witness :
  Simple.error <$> Simple.analyze_text failing_model (VStr "I love it")
    = Ok (Some "model unavailable")
  ∧ Enhanced.analyze_text sample_scores failing_model (λ l, l) Enhanced.init
      (VStr "I love it") = Raise (Error "model unavailable").
Proof.
  destruct (model_failure_handling sample_scores failing_model (λ l, l)
              Enhanced.init "I love it" "model unavailable" eq_refl eq_refl)
    as (H1 & H2 & _).
  rewrite H1, H2. by split.
Defined.

(** X10.  Both variants call [strip] on every truthy object they are given:
    a truthy object that is not a string (a number, a non-empty list or
    dictionary) makes [analyze_text] raise [AttributeError], in the simple
    variant too, whose [try] block starts later; on every other object the
    simple variant returns a result. *)
Theorem analyze_text_attribute_error
    (polarity_scores : string → Enhanced.vader_scores)
    (textblob_sentiment : string → outcome (Q * Q))
    (set_order : list string → list string) (self : Enhanced.analyzer)
    (text : value) :
  (text_like text = false →
   Simple.analyze_text textblob_sentiment text = Raise AttributeError
   ∧ Enhanced.analyze_text polarity_scores textblob_sentiment set_order self text
     = Raise AttributeError)
  ∧ (text_like text = true →
     (∃ r, Simple.analyze_text textblob_sentiment text = Ok r)
     ∧ Enhanced.analyze_text polarity_scores textblob_sentiment set_order self text
       ≠ Raise AttributeError).
Proof.
  unfold text_like, Simple.analyze_text, Enhanced.analyze_text. split.
  - destruct (truthy text); cbn [negb orb]; [|done].
    destruct text; done.
  - destruct (truthy text); cbn [negb orb]; [|eauto].
    destruct text; try done. intros _.
    destruct (is_empty (strip s)); [eauto|]. split; [eauto|].
    unfold Enhanced.analyze_nonblank.
    destruct (textblob_sentiment s) as [e|[p q]]; done.
Qed.

Lemma analyze_text_attribute_error_witness :
  Simple.analyze_text (fixed_polarity (1 # 2) (1 # 2)) (VNum 5) = Raise AttributeError
  ∧ Enhanced.analyze_text sample_scores (fixed_polarity (1 # 2) (1 # 2)) (λ l, l)
      Enhanced.init (VList [VStr "a"]) = Raise AttributeError.
Proof.
  split.
  - by apply (analyze_text_attribute_error sample_scores
                (fixed_polarity (1 # 2) (1 # 2)) (λ l, l) Enhanced.init (VNum 5)).
  - by apply (analyze_text_attribute_error sample_scores
                (fixed_polarity (1 # 2) (1 # 2)) (λ l, l) Enhanced.init
                (VList [VStr "a"])).
Defined.

(** ** Rounding *)

(** Rounding never crosses an integer. *)
Lemma round_half_even_ge (k : Z) (y : Q) :
  (inject_Z k <= y)%Q → (k <= round_half_even y)%Z.
Proof.
  destruct y as [n d]. unfold round_half_even, Qle, inject_Z. cbn [Qnum Qden].
  intros H. rewrite Z.mul_1_r in H.
  pose proof (Z.div_mod n (Z.pos d) ltac:(lia)) as Hdm.
  pose proof (Z.mod_pos_bound n (Z.pos d) ltac:(lia)) as Hr.
  set (fl := (n / Z.pos d)%Z) in *. set (r := (n mod Z.pos d)%Z) in *.
  assert (k <= fl)%Z by nia.
  destruct (Z.ltb_spec (2 * r) (Z.pos d)); [lia|].
  destruct (Z.ltb_spec (Z.pos d) (2 * r)); [lia|].
  destruct (Z.even fl); lia.
Qed.

Lemma round_half_even_le (k : Z) (y : Q) :
  (y <= inject_Z k)%Q → (round_half_even y <= k)%Z.
Proof.
  destruct y as [n d]. unfold round_half_even, Qle, inject_Z. cbn [Qnum Qden].
  intros H. rewrite Z.mul_1_r in H.
  pose proof (Z.div_mod n (Z.pos d) ltac:(lia)) as Hdm.
  pose proof (Z.mod_pos_bound n (Z.pos d) ltac:(lia)) as Hr.
  set (fl := (n / Z.pos d)%Z) in *. set (r := (n mod Z.pos d)%Z) in *.
  assert (Hcases : (fl < k)%Z ∨ (fl = k ∧ r = 0)%Z) by nia.
  destruct (Z.ltb_spec (2 * r) (Z.pos d)); [lia|].
  destruct (Z.ltb_spec (Z.pos d) (2 * r)); [lia|].
  destruct (Z.even fl); lia.
Qed.

(** Rounding commutes with the change of sign. *)
Lemma round_half_even_opp (y : Q) : round_half_even (- y) = (- round_half_even y)%Z.
Proof.
  destruct y as [n d]. unfold round_half_even, Qopp. cbn [Qnum Qden].
  pose proof (Z.div_mod n (Z.pos d) ltac:(lia)) as Hdm.
  pose proof (Z.mod_pos_bound n (Z.pos d) ltac:(lia)) as Hr.
  set (fl := (n / Z.pos d)%Z) in *. set (r := (n mod Z.pos d)%Z) in *.
  destruct (Z.eq_dec r 0%Z) as [Hr0|Hr0].
  - assert (Hq : (- n / Z.pos d = - fl)%Z)
      by (symmetry; apply (Z.div_unique _ _ _ 0%Z); lia).
    assert (Hm : (- n mod Z.pos d = 0)%Z)
      by (symmetry; apply (Z.mod_unique _ _ (- fl)); lia).
    rewrite Hq, Hm, Hr0.
    destruct (Z.ltb_spec (2 * 0) (Z.pos d)); lia.
  - assert (Hq : (- n / Z.pos d = - fl - 1)%Z)
      by (symmetry; apply (Z.div_unique _ _ _ (Z.pos d - r)); lia).
    assert (Hm : (- n mod Z.pos d = Z.pos d - r)%Z)
      by (symmetry; apply (Z.mod_unique _ _ (- fl - 1)); lia).
    rewrite Hq, Hm.
    destruct (Z.ltb_spec (2 * r) (Z.pos d)), (Z.ltb_spec (Z.pos d) (2 * r)),
      (Z.ltb_spec (2 * (Z.pos d - r)) (Z.pos d)),
      (Z.ltb_spec (Z.pos d) (2 * (Z.pos d - r))); try lia.
    replace (- fl - 1)%Z with (- (fl + 1))%Z by lia.
    rewrite Z.even_opp, Z.even_add. cbn [Z.even].
    destruct (Z.even fl); cbn [Bool.eqb]; lia.
Qed.

Lemma py_round_opp (x : Q) (ndigits : nat) :
  py_round (- x) ndigits = (- py_round x ndigits)%Q.
Proof.
  unfold py_round. cbv zeta.
  set (scale := match ndigits with O => 1%positive | S _ => _ end).
  assert (E : (- x * (Z.pos scale # 1))%Q = (- (x * (Z.pos scale # 1)))%Q).
  { destruct x as [n d]. unfold Qmult, Qopp. cbn [Qnum Qden]. f_equal. lia. }
  rewrite E, round_half_even_opp. reflexivity.
Qed.

Lemma py_round_abs (x : Q) (ndigits : nat) :
  py_round (Qabs x) ndigits = Qabs (py_round x ndigits).
Proof.
  destruct x as [n d]. destruct n as [|n|n].
  - destruct ndigits; reflexivity.
  - change (Qabs (Z.pos n # d)) with (Z.pos n # d).
    unfold py_round. cbv zeta.
    set (scale := match ndigits with O => 1%positive | S _ => _ end).
    pose proof (round_half_even_ge 0%Z ((Z.pos n # d) * (Z.pos scale # 1))) as H.
    unfold Qabs. cbn [Qnum Qden]. f_equal. symmetry. apply Z.abs_eq. apply H.
    unfold Qle. cbn. lia.
  - change (Qabs (Z.neg n # d)) with (- (Z.neg n # d))%Q.
    rewrite py_round_opp. unfold py_round. cbv zeta.
    set (scale := match ndigits with O => 1%positive | S _ => _ end).
    pose proof (round_half_even_le 0%Z ((Z.neg n # d) * (Z.pos scale # 1))) as H.
    unfold Qabs, Qopp. cbn [Qnum Qden]. f_equal. symmetry. apply Z.abs_neq. apply H.
    unfold Qle. cbn. lia.
Qed.

(** A bound that is a multiple of 1/1000 survives rounding to 3 decimals. *)
Lemma py_round_3_ge (k : Z) (x : Q) : (k # 1000 <= x)%Q → (k # 1000 <= py_round x 3)%Q.
Proof.
  intros H. unfold py_round. change (Pos.pow 10 (Pos.of_nat 3)) with 1000%positive.
  cbv zeta.
  pose proof (round_half_even_ge k (x * (1000 # 1))) as Hk.
  set (z := round_half_even (x * (1000 # 1))) in *.
  enough (k <= z)%Z by (unfold Qle; cbn [Qnum Qden]; lia).
  apply Hk. clear Hk z.
  destruct x as [n d]. unfold Qle, Qmult, inject_Z in *. cbn [Qnum Qden] in *. lia.
Qed.

Lemma py_round_3_le (k : Z) (x : Q) : (x <= k # 1000)%Q → (py_round x 3 <= k # 1000)%Q.
Proof.
  intros H. unfold py_round. change (Pos.pow 10 (Pos.of_nat 3)) with 1000%positive.
  cbv zeta.
  pose proof (round_half_even_le k (x * (1000 # 1))) as Hk.
  set (z := round_half_even (x * (1000 # 1))) in *.
  enough (z <= k)%Z by (unfold Qle; cbn [Qnum Qden]; lia).
  apply Hk. clear Hk z.
  destruct x as [n d]. unfold Qle, Qmult, inject_Z in *. cbn [Qnum Qden] in *. lia.
Qed.

Lemma py_round_3_ge_q (k : Z) (a x : Q) :
  (a == k # 1000)%Q → (a <= x)%Q → (a <= py_round x 3)%Q.
Proof. intros E H. rewrite E in *. by apply py_round_3_ge. Qed.

Lemma py_round_3_le_q (k : Z) (a x : Q) :
  (a == k # 1000)%Q → (x <= a)%Q → (py_round x 3 <= a)%Q.
Proof. intros E H. rewrite E in *. by apply py_round_3_le. Qed.

(** ** Results of the simple variant *)

(** X11.  Every result of the simple variant carries one of the three
    labels, and its numbers agree with the label as the unit tests expect:
    the reported polarity is at least 0.1 under ['positive'], at most -0.1
    under ['negative'] and between -0.1 and 0.1 under ['neutral']; the
    reported confidence is the absolute value of the reported polarity. *)
Theorem simple_result_consistent (textblob_sentiment : string → outcome (Q * Q))
    (text : value) (r : Simple.analysis) :
  Simple.analyze_text textblob_sentiment text = Ok r →
  Simple.sentiment r ∈ ["positive"; "negative"; "neutral"]
  ∧ (Simple.sentiment r = "positive" → (1 # 10 <= Simple.polarity r)%Q)
  ∧ (Simple.sentiment r = "negative" → (Simple.polarity r <= - (1 # 10))%Q)
  ∧ (Simple.sentiment r = "neutral" →
       (- (1 # 10) <= Simple.polarity r)%Q ∧ (Simple.polarity r <= 1 # 10)%Q)
  ∧ Simple.confidence r = Qabs (Simple.polarity r).
Proof.
  unfold Simple.analyze_text. intros Hr.
  assert (Hcases : r = Simple.neutral_result None
            ∨ ∃ s, r = Simple.analyze_nonblank textblob_sentiment s).
  { destruct (negb (truthy text)); [left; congruence|].
    destruct text; try done.
    destruct (is_empty (strip s)); [left; congruence|right; exists s; congruence]. }
  assert (Hneutral : ∀ e,
    Simple.sentiment (Simple.neutral_result e) ∈ ["positive"; "negative"; "neutral"]
    ∧ (Simple.sentiment (Simple.neutral_result e) = "positive" →
         (1 # 10 <= Simple.polarity (Simple.neutral_result e))%Q)
    ∧ (Simple.sentiment (Simple.neutral_result e) = "negative" →
         (Simple.polarity (Simple.neutral_result e) <= - (1 # 10))%Q)
    ∧ (Simple.sentiment (Simple.neutral_result e) = "neutral" →
         (- (1 # 10) <= Simple.polarity (Simple.neutral_result e))%Q
         ∧ (Simple.polarity (Simple.neutral_result e) <= 1 # 10)%Q)
    ∧ Simple.confidence (Simple.neutral_result e)
      = Qabs (Simple.polarity (Simple.neutral_result e))).
  { intros e. simpl. split_and!; try done.
    rewrite !elem_of_cons. auto. }
  destruct Hcases as [->|[s ->]]; [apply Hneutral|].
  unfold Simple.analyze_nonblank.
  destruct (textblob_sentiment s) as [e|[p q]]; [apply Hneutral|].
  cbn [Simple.sentiment Simple.polarity Simple.confidence].
  unfold Simple.classify, Simple.POSITIVE_THRESHOLD, Simple.NEGATIVE_THRESHOLD, py_abs.
  rewrite py_round_abs.
  destruct (Qltb (1 # 10) p) eqn:Hp; [apply Qltb_lt in Hp|apply Qltb_ge in Hp].
  { split_and!; try done; [rewrite !elem_of_cons; auto|].
    intros _. apply (py_round_3_ge_q 100); [done|]. by apply Qlt_le_weak. }
  destruct (Qltb p (- (1 # 10))) eqn:Hn; [apply Qltb_lt in Hn|apply Qltb_ge in Hn].
  { split_and!; try done; [rewrite !elem_of_cons; auto|].
    intros _. apply (py_round_3_le_q (-100)); [done|]. by apply Qlt_le_weak. }
  split_and!; try done; [rewrite !elem_of_cons; auto|].
  intros _. split; [by apply (py_round_3_ge_q (-100))|by apply (py_round_3_le_q 100)].
Qed.

Lemma simple_result_consistent_witness :
  ∃ r,
    Simple.analyze_text (fixed_polarity (- (3 # 4)) (1 # 2)) (VStr "awful") = Ok r
    ∧ Simple.sentiment r = "negative"
    ∧ (Simple.polarity r <= - (1 # 10))%Q
    ∧ Simple.confidence r = Qabs (Simple.polarity r).
Proof.
  destruct (Simple.analyze_text (fixed_polarity (- (3 # 4)) (1 # 2)) (VStr "awful"))
    as [r|e] eqn:Hr; [|vm_compute in Hr; discriminate Hr].
  destruct (simple_result_consistent _ _ _ Hr) as (_ & _ & Hneg & _ & Hconf).
  exists r. split; [reflexivity|].
  assert (Hs : Simple.sentiment r = "negative")
    by (vm_compute in Hr; by injection Hr as <-).
  split; [exact Hs|]. split; [exact (Hneg Hs)|exact Hconf].
Defined.

(** ** The distribution, continued *)

Lemma sentiment_of_countable (post : dict) :
  countable post = true →
  Shared.analysis_field post "sentiment" (VStr "neutral") = Ok (sentiment_value post)
  ∧ hashable (sentiment_value post) = Ok (sentiment_value post)
  ∧ eq_str (sentiment_value post) "positive" = has_sentiment "positive" post
  ∧ eq_str (sentiment_value post) "negative" = has_sentiment "negative" post
  ∧ eq_str (sentiment_value post) "neutral" = counted_neutral post.
Proof.
  unfold countable, Shared.analysis_field, sentiment_value, has_sentiment,
    counted_neutral, get_default.
  destruct (post !! "sentiment_analysis") as [[| | | |a]|]; simpl; try done.
  unfold get_default. destruct (a !! "sentiment") as [[]|]; simpl; done.
Qed.

Lemma for_each_hashable (l : list value) :
  Forall (λ v, hashable v = Ok v) l → for_each hashable l = Ok l.
Proof.
  intros H. rewrite (for_each_ok _ (λ v, v)); [by rewrite list_fmap_id|done].
Qed.

Lemma count_label_filter (posts : list dict) (label : string) (f : dict → bool) :
  Forall (λ p, eq_str (sentiment_value p) label = f p) posts →
  Shared.count_label (sentiment_value <$> posts) label
    = length (filter (λ p, f p = true) posts).
Proof.
  unfold Shared.count_label. induction 1 as [|p posts Hp _ IH]; [done|].
  cbn [fmap list_fmap]. rewrite !filter_cons, Hp.
  destruct (decide (f p = true)); simpl; by rewrite IH.
Qed.

Lemma distribution_of_countable (posts : list dict) :
  Forall (λ p, countable p = true) posts →
  ∃ d,
    Shared.get_sentiment_distribution posts = Ok d
    ∧ Shared.total d = length posts
    ∧ Shared.positive d = length (filter (λ p, has_sentiment "positive" p = true) posts)
    ∧ Shared.negative d = length (filter (λ p, has_sentiment "negative" p = true) posts)
    ∧ Shared.neutral d = length (filter (λ p, counted_neutral p = true) posts).
Proof.
  intros Hc. destruct posts as [|post posts]; [by eexists|].
  unfold Shared.get_sentiment_distribution.
  rewrite (for_each_ok _ sentiment_value)
    by (eapply Forall_impl; [exact Hc|]; intros p Hp;
        by destruct (sentiment_of_countable p Hp)).
  cbn [mbind result_bind].
  rewrite for_each_hashable
    by (apply Forall_fmap; eapply Forall_impl; [exact Hc|]; intros p Hp;
        by destruct (sentiment_of_countable p Hp) as (_ & ? & _)).
  cbv zeta. cbn [mbind result_bind length]. rewrite !percentage_succ.
  cbn [mbind result_bind]. eexists. split; [reflexivity|].
  cbn [Shared.total Shared.positive Shared.negative Shared.neutral].
  split; [done|].
  split_and!; apply count_label_filter; (eapply Forall_impl; [exact Hc|]);
    intros p Hp; by destruct (sentiment_of_countable p Hp) as (_ & _ & ? & ? & ?).
Qed.

Lemma labels_exclusive (post : dict) :
  countable post = true →
  (if has_sentiment "positive" post then 1 else 0)
  + (if has_sentiment "negative" post then 1 else 0)
  + (if counted_neutral post then 1 else 0) ≤ 1.
Proof.
  intros Hp. destruct (sentiment_of_countable post Hp) as (_ & _ & <- & <- & <-).
  destruct (sentiment_value post) as [| |s| |]; simpl; try lia.
  destruct (String.eqb_spec s "positive") as [->|]; [simpl; lia|].
  destruct (String.eqb_spec s "negative") as [->|]; [simpl; lia|].
  destruct (String.eqb s "neutral"); lia.
Qed.

Lemma filter_length_indicator {A : Type} (f : A → bool) (x : A) (l : list A) :
  length (filter (λ p, f p = true) (x :: l))
    = (if f x then 1 else 0) + length (filter (λ p, f p = true) l).
Proof. rewrite filter_cons. by destruct (f x). Qed.

Lemma three_counts (posts : list dict) :
  Forall (λ p, countable p = true) posts →
  length (filter (λ p, has_sentiment "positive" p = true) posts)
  + length (filter (λ p, has_sentiment "negative" p = true) posts)
  + length (filter (λ p, counted_neutral p = true) posts) ≤ length posts
  ∧ (length (filter (λ p, has_sentiment "positive" p = true) posts)
     + length (filter (λ p, has_sentiment "negative" p = true) posts)
     + length (filter (λ p, counted_neutral p = true) posts) = length posts
     ↔ Forall (λ p, has_sentiment "positive" p || has_sentiment "negative" p
                    || counted_neutral p = true) posts).
Proof.
  intros Hc.
  induction Hc as [|p posts Hp _ IH]; [split; [done|split; [constructor|done]]|].
  rewrite !filter_length_indicator, Forall_cons. cbn [length].
  pose proof (labels_exclusive p Hp) as Hex.
  destruct IH as [IHle IHeq].
  destruct (has_sentiment "positive" p), (has_sentiment "negative" p),
    (counted_neutral p); cbn [orb] in *; split; try lia;
    (split; [intros H; split; [done|]; apply IHeq; lia
            |intros [H1 H2]; apply IHeq in H2; try done; lia]).
Qed.

(** X12.  On posts whose analysis, if any, is a dictionary with a hashable
    sentiment, the distribution returns: the total is the number of posts,
    ['positive'] and ['negative'] count the posts with that sentiment, and
    ['neutral'] counts the posts with sentiment ['neutral'] together with
    the posts that have no analysis or no sentiment.  A post with any other
    sentiment is in the total but in none of the three counts, so the three
    counts add up to at most the total, and to the total exactly when every
    post falls in one of the three groups. *)
Theorem distribution_counts (posts : list dict) :
  Forall (λ p, countable p = true) posts →
  ∃ d,
    Shared.get_sentiment_distribution posts = Ok d
    ∧ Shared.total d = length posts
    ∧ Shared.positive d = length (filter (λ p, has_sentiment "positive" p = true) posts)
    ∧ Shared.negative d = length (filter (λ p, has_sentiment "negative" p = true) posts)
    ∧ Shared.neutral d = length (filter (λ p, counted_neutral p = true) posts)
    ∧ Shared.positive d + Shared.negative d + Shared.neutral d ≤ Shared.total d
    ∧ (Shared.positive d + Shared.negative d + Shared.neutral d = Shared.total d
       ↔ Forall (λ p, has_sentiment "positive" p || has_sentiment "negative" p
                      || counted_neutral p = true) posts).
Proof.
  intros Hc.
  destruct (distribution_of_countable posts Hc) as (d & Hd & Ht & Hp & Hn & Hu).
  exists d. split; [exact Hd|]. do 4 (split; [done|]).
  rewrite Ht, Hp, Hn, Hu. by apply three_counts.
Qed.

Lemma distribution_counts_witness :
  ∃ d,
    Shared.get_sentiment_distribution
      [simple_post "a" "positive" (1 # 2); ∅; simple_post "b" "mixed" 0] = Ok d
    ∧ Shared.total d = 3 ∧ Shared.positive d = 1
    ∧ Shared.negative d = 0 ∧ Shared.neutral d = 1.
Proof.
  destruct (distribution_counts
              [simple_post "a" "positive" (1 # 2); ∅; simple_post "b" "mixed" 0])
    as (d & Hd & Ht & Hp & Hn & Hu & _); [repeat constructor|].
  exists d. split; [exact Hd|].
  rewrite Ht, Hp, Hn, Hu. by vm_compute.
Defined.

(** ** Percentages *)

Lemma percentage_of_none (n : nat) : Shared.percentage 0 (S n) = Ok Float.zero.
Proof. reflexivity. Qed.

Lemma percentage_of_all (n : nat) :
  Shared.percentage (S n) (S n) = Ok (Float.of_Z 100).
Proof.
  rewrite percentage_succ. f_equal.
  change (Z.of_nat (S n)) with (Z.pos (Pos.of_succ_nat n)).
  rewrite <-Pos.of_nat_succ, of_Q_whole. by vm_compute.
Qed.

(** X13.  The percentages of the distribution are exact at both ends: on a
    non-empty batch the distribution can count, a label that no post
    carries gets 0.0 and a label that every post carries gets 100.0; so a
    batch with one label only has the percentages 100.0, 0.0 and 0.0. *)
Theorem percentages_at_the_ends (posts : list dict) :
  posts ≠ [] →
  Forall (λ p, countable p = true) posts →
  ∃ d,
    Shared.get_sentiment_distribution posts = Ok d
    ∧ Forall (λ cp : nat * Float.float,
        (cp.1 = 0 → cp.2 = Float.zero)
        ∧ (cp.1 = length posts → cp.2 = Float.of_Z 100))
        [ (Shared.positive d, Shared.positive_pct d);
          (Shared.negative d, Shared.negative_pct d);
          (Shared.neutral d, Shared.neutral_pct d) ].
Proof.
  intros Hne Hc.
  destruct (distribution_of_countable posts Hc) as (d & Hd & _).
  exists d. split; [exact Hd|].
  destruct (distribution_cases posts d Hd) as [[? _]|(Hpos & Ht & Hp & Hn & Hu)];
    [done|].
  rewrite <-Ht. destruct (Shared.total d) as [|n]; [lia|].
  assert (Hone : ∀ count pct,
    Shared.percentage count (S n) = Ok pct →
    (count = 0 → pct = Float.zero) ∧ (count = S n → pct = Float.of_Z 100)).
  { intros count pct Hpct. split; intros ->.
    - rewrite percentage_of_none in Hpct. by injection Hpct.
    - rewrite percentage_of_all in Hpct. by injection Hpct. }
  rewrite !Forall_cons. cbn [fst snd].
  split; [by apply Hone|]. split; [by apply Hone|]. split; [by apply Hone|].
  by apply Forall_nil.
Qed.

Lemma percentages_at_the_ends_witness :
  ∃ d,
    Shared.get_sentiment_distribution
      [simple_post "a" "positive" (1 # 2); simple_post "b" "positive" (1 # 4)]
      = Ok d
    ∧ Shared.positive_pct d = Float.of_Z 100
    ∧ Shared.negative_pct d = Float.zero
    ∧ Shared.neutral_pct d = Float.zero.
Proof.
  destruct (percentages_at_the_ends
              [simple_post "a" "positive" (1 # 2); simple_post "b" "positive" (1 # 4)])
    as (d & Hd & Hends); [done|repeat constructor|].
  exists d. split; [exact Hd|].
  assert (Hv : Shared.positive d = 2 ∧ Shared.negative d = 0 ∧ Shared.neutral d = 0)
    by (vm_compute in Hd; injection Hd as <-; by vm_compute).
  destruct Hv as (H1 & H2 & H3).
  rewrite !Forall_cons in Hends. cbn [fst snd length] in Hends.
  destruct Hends as ((_ & Hp) & (Hn & _) & (Hu & _) & _).
  split; [by apply Hp|]. split; [by apply Hn|by apply Hu].
Defined.

(** ** The platform breakdown *)

Lemma key_eqb_refl (k : value) : is_hashable k = true → Simple.key_eqb k k = true.
Proof.
  destruct k; simpl; try done; intros _.
  - apply Qeq_bool_iff. reflexivity.
  - apply String.eqb_refl.
Qed.

Lemma key_eqb_trans (a b c : value) :
  Simple.key_eqb a b = true → Simple.key_eqb b c = true → Simple.key_eqb a c = true.
Proof.
  destruct a, b, c; simpl; try done.
  - rewrite !Qeq_bool_iff. intros -> ->. reflexivity.
  - intros ->%String.eqb_eq ->%String.eqb_eq. apply String.eqb_refl.
Qed.

Lemma group_append_keys {A : Type} (platform : value) (post : A)
    (groups : list (value * list A)) :
  (Simple.group_append platform post groups).*1
    = if existsb (λ k, Simple.key_eqb k platform) groups.*1
      then groups.*1 else groups.*1 ++ [platform].
Proof.
  induction groups as [|[k l] groups IH]; [done|].
  cbn [Simple.group_append fmap list_fmap fst existsb].
  destruct (Simple.key_eqb k platform); [done|].
  cbn [fmap list_fmap fst orb].
  change (list_fmap _ _ fst ?x) with (x.*1). rewrite IH.
  by destruct (existsb _ _).
Qed.

Lemma group_append_concat {A : Type} (platform : value) (post : A)
    (groups : list (value * list A)) :
  concat (Simple.group_append platform post groups).*2 ≡ₚ post :: concat groups.*2.
Proof.
  induction groups as [|[k l] groups IH]; [done|].
  cbn [Simple.group_append].
  destruct (Simple.key_eqb k platform); cbn [fmap list_fmap snd concat];
    change (list_fmap _ _ snd ?x) with (x.*2).
  - rewrite <-app_assoc. cbn [app]. by rewrite <-Permutation_middle.
  - rewrite IH. by rewrite <-Permutation_middle.
Qed.

Lemma group_append_members (platform : value) (post : dict)
    (groups : list (value * list dict)) :
  Simple.key_eqb platform (platform_of post) = true →
  is_hashable platform = true →
  Forall (λ g, g.2 ≠ []
               ∧ Forall (λ p, Simple.key_eqb g.1 (platform_of p) = true) g.2) groups →
  Forall (λ g, g.2 ≠ []
               ∧ Forall (λ p, Simple.key_eqb g.1 (platform_of p) = true) g.2)
    (Simple.group_append platform post groups).
Proof.
  intros Hp Hh. induction 1 as [|[k l] groups [Hne Hl] Htail IH]; simpl.
  - repeat constructor; simpl; done.
  - destruct (Simple.key_eqb k platform) eqn:E.
    + constructor; [|done]. simpl in *. split; [by destruct l|].
      apply Forall_app. split; [done|]. constructor; [|done].
      by eapply key_eqb_trans.
    + by constructor.
Qed.

Lemma pairwise_distinct_snoc (keys : list value) (k : value) :
  pairwise_distinct keys →
  existsb (λ k', Simple.key_eqb k' k) keys = false →
  pairwise_distinct (keys ++ [k]).
Proof.
  induction keys as [|a keys IH]; simpl; [done|].
  intros [Ha Hd] [Hak Hex]%orb_false_iff. split; [|by apply IH].
  apply Forall_app. split; [done|]. by constructor.
Qed.

Lemma group_append_grouping (post : dict) (posts : list dict)
    (groups : list (value * list dict)) :
  is_hashable (platform_of post) = true →
  is_grouping posts groups →
  is_grouping (posts ++ [post]) (Simple.group_append (platform_of post) post groups).
Proof.
  intros Hh (Hd & Hm & Hc). split_and!.
  - rewrite group_append_keys.
    destruct (existsb _ _) eqn:E; [done|]. by apply pairwise_distinct_snoc.
  - apply group_append_members; [by apply key_eqb_refl|done|done].
  - rewrite group_append_concat, Hc. by rewrite <-Permutation_cons_append.
Qed.

Lemma grouping_fold (posts processed : list dict) (groups : list (value * list dict)) :
  Forall (λ p, is_hashable (platform_of p) = true) posts →
  is_grouping processed groups →
  ∃ groups',
    fold_each (λ groups post,
        platform ← hashable (get_default post "platform" (VStr "unknown"));
        Ok (Simple.group_append platform post groups)) groups posts = Ok groups'
    ∧ is_grouping (processed ++ posts) groups'.
Proof.
  intros Hh. revert processed groups.
  induction Hh as [|post posts Hp _ IH]; intros processed groups Hg.
  - exists groups. by rewrite app_nil_r.
  - cbn [fold_each].
    assert (E : hashable (get_default post "platform" (VStr "unknown"))
                = Ok (platform_of post)).
    { unfold platform_of in *. by destruct (get_default post _ _). }
    rewrite E. cbn [mbind result_bind].
    destruct (IH (processed ++ [post])
                (Simple.group_append (platform_of post) post groups))
      as (groups' & Hf & Hg'); [by apply group_append_grouping|].
    exists groups'. split; [exact Hf|]. by rewrite <-app_assoc in Hg'.
Qed.

Lemma filter_none {A : Type} (P : A → Prop) `{!∀ x, Decision (P x)} (l : list A) :
  Forall (λ x, ¬ P x) l → filter P l = [].
Proof.
  induction 1 as [|x l Hx _ IH]; [done|]. by rewrite filter_cons, decide_False.
Qed.

Lemma key_eqb_sym (a b : value) : Simple.key_eqb a b = Simple.key_eqb b a.
Proof.
  destruct a, b; simpl; try done.
  - apply eq_true_iff_eq. rewrite !Qeq_bool_iff. split; by intros ->.
  - apply String.eqb_sym.
Qed.

(** Each group holds, in the order of the batch, the posts of its key. *)
Lemma group_append_filter (post : dict) (processed : list dict)
    (groups : list (value * list dict)) :
  is_hashable (platform_of post) = true →
  pairwise_distinct groups.*1 →
  Forall (λ g, g.2 = filter (λ p, Simple.key_eqb g.1 (platform_of p) = true)
                       processed) groups →
  (existsb (λ k, Simple.key_eqb k (platform_of post)) groups.*1 = false →
   filter (λ p, Simple.key_eqb (platform_of post) (platform_of p) = true) processed
   = []) →
  Forall (λ g, g.2 = filter (λ p, Simple.key_eqb g.1 (platform_of p) = true)
                       (processed ++ [post]))
    (Simple.group_append (platform_of post) post groups).
Proof.
  intros Hh. induction groups as [|[k l] groups IH]; intros Hd Hg Hnew.
  - cbn [Simple.group_append]. constructor; [|done]. cbn [fst snd].
    rewrite filter_app, Hnew by done.
    by rewrite filter_cons, decide_True by (by apply key_eqb_refl).
  - cbn [fmap list_fmap fst pairwise_distinct] in Hd. destruct Hd as [Hk Hd].
    apply Forall_cons in Hg as [Hl Hg]. cbn [fst snd] in Hl.
    cbn [Simple.group_append].
    destruct (Simple.key_eqb k (platform_of post)) eqn:E.
    + constructor; cbn [fst snd].
      * rewrite filter_app, <-Hl. by rewrite filter_cons, decide_True.
      * apply Forall_forall. intros [k' l'] Hin. cbn [fst snd].
        eapply Forall_forall in Hg; [|exact Hin]. cbn [fst snd] in Hg.
        rewrite filter_app, <-Hg, filter_cons.
        rewrite decide_False; [by rewrite app_nil_r|].
        intros E'. eapply Forall_forall in Hk;
          [|apply list_elem_of_fmap; by exists (k', l')]. cbn [fst] in Hk.
        rewrite (key_eqb_trans k (platform_of post) k') in Hk; [done|done|].
        by rewrite key_eqb_sym.
    + constructor; cbn [fst snd].
      * rewrite filter_app, <-Hl, filter_cons.
        rewrite decide_False by (by rewrite E). by rewrite app_nil_r.
      * apply IH; [done|done|]. intros Hex. apply Hnew.
        cbn [fmap list_fmap fst existsb]. by rewrite E.
Qed.

Lemma grouping_fold_exact (posts processed : list dict)
    (groups : list (value * list dict)) :
  Forall (λ p, is_hashable (platform_of p) = true) posts →
  pairwise_distinct groups.*1 →
  Forall (λ g, g.2 = filter (λ p, Simple.key_eqb g.1 (platform_of p) = true)
                       processed) groups →
  Forall (λ p, ∃ k, k ∈ groups.*1 ∧ Simple.key_eqb k (platform_of p) = true)
    processed →
  ∃ groups',
    fold_each (λ groups post,
        platform ← hashable (get_default post "platform" (VStr "unknown"));
        Ok (Simple.group_append platform post groups)) groups posts = Ok groups'
    ∧ Forall (λ g, g.2 = filter (λ p, Simple.key_eqb g.1 (platform_of p) = true)
                           (processed ++ posts)) groups'.
Proof.
  intros Hh. revert processed groups.
  induction Hh as [|post posts Hp _ IH]; intros processed groups Hd Hg Hcov.
  - exists groups. by rewrite app_nil_r.
  - cbn [fold_each].
    assert (E : hashable (get_default post "platform" (VStr "unknown"))
                = Ok (platform_of post)).
    { unfold platform_of in *. by destruct (get_default post _ _). }
    rewrite E. cbn [mbind result_bind].
    destruct (IH (processed ++ [post])
                (Simple.group_append (platform_of post) post groups))
      as (groups' & Hf & Hg').
    + rewrite group_append_keys.
      destruct (existsb _ _) eqn:Hex; [done|]. by apply pairwise_distinct_snoc.
    + apply group_append_filter; [done..|].
      intros Hex. apply filter_none. apply Forall_forall. intros p Hin E'.
      eapply Forall_forall in Hcov as (k & Hk & Hkp); [|exact Hin].
      assert (Hm : Simple.key_eqb k (platform_of post) = true).
      { eapply key_eqb_trans; [exact Hkp|]. by rewrite key_eqb_sym. }
      assert (Ht : existsb (λ k, Simple.key_eqb k (platform_of post)) groups.*1 = true).
      { apply existsb_exists. exists k. split; [by apply list_elem_of_In|done]. }
      congruence.
    + rewrite group_append_keys. apply Forall_app. split.
      * eapply Forall_impl; [exact Hcov|]. intros p (k & Hk & Hkp).
        exists k. split; [|done].
        destruct (existsb _ _); [done|]. apply elem_of_app. by left.
      * constructor; [|done].
        destruct (existsb _ _) eqn:Hex.
        -- apply existsb_exists in Hex as (k & Hk & Hkp).
           exists k. split; [by apply list_elem_of_In|done].
        -- exists (platform_of post). split; [|by apply key_eqb_refl].
           apply elem_of_app. right. by left.
    + exists groups'. split; [exact Hf|]. by rewrite <-app_assoc in Hg'.
Qed.

Lemma for_each_Forall2 {A B : Type} (f : A → result B) (R : A → B → Prop)
    (l : list A) :
  Forall (λ x, ∃ y, f x = Ok y ∧ R x y) l →
  ∃ out, for_each f l = Ok out ∧ Forall2 R l out.
Proof.
  induction 1 as [|x l (y & Hy & HR) _ (out & Hout & HF)]; [by exists []|].
  exists (y :: out). simpl. rewrite Hy, Hout. split; [done|by constructor].
Qed.

Lemma filter_concat_length {A : Type} (P : A → Prop) `{!∀ x, Decision (P x)}
    (ls : list (list A)) :
  length (filter P (concat ls)) = sum_list ((λ l, length (filter P l)) <$> ls).
Proof.
  induction ls as [|l ls IH]; [done|]. simpl.
  by rewrite filter_app, length_app, IH.
Qed.

Lemma concat_length_sum {A : Type} (ls : list (list A)) :
  length (concat ls) = sum_list (length <$> ls).
Proof. induction ls as [|l ls IH]; [done|]. simpl. by rewrite length_app, IH. Qed.

(** X14.  The platform breakdown partitions the batch.  On posts the
    distribution can count and whose platform is hashable it returns one
    distribution per platform, under pairwise distinct keys in which every
    post finds its platform (['unknown'] for a post without one); the
    distribution under a key is the distribution of the posts of that
    platform, taken in the order of the batch; no listed platform is empty,
    and the totals and the positive, negative and neutral counts of the
    platforms add up to those of the distribution of the whole batch. *)
Theorem platform_breakdown_partitions (posts : list dict) :
  Forall (λ p, countable p = true ∧ is_hashable (platform_of p) = true) posts →
  ∃ breakdown d,
    Simple.get_platform_sentiment posts = Ok breakdown
    ∧ Shared.get_sentiment_distribution posts = Ok d
    ∧ pairwise_distinct breakdown.*1
    ∧ Forall (λ p, ∃ k, k ∈ breakdown.*1
                        ∧ Simple.key_eqb k (platform_of p) = true) posts
    ∧ Forall (λ g : value * Shared.distribution,
        Simple.get_sentiment_distribution
          (filter (λ p, Simple.key_eqb g.1 (platform_of p) = true) posts)
        = Ok g.2) breakdown
    ∧ Forall (λ g, 1 ≤ Shared.total g.2) breakdown
    ∧ sum_list (Shared.total <$> breakdown.*2) = Shared.total d
    ∧ sum_list (Shared.positive <$> breakdown.*2) = Shared.positive d
    ∧ sum_list (Shared.negative <$> breakdown.*2) = Shared.negative d
    ∧ sum_list (Shared.neutral <$> breakdown.*2) = Shared.neutral d.
Proof.
  intros Hall.
  assert (Hc : Forall (λ p, countable p = true) posts)
    by (eapply Forall_impl; [exact Hall|]; by intros p [??]).
  assert (Hh : Forall (λ p, is_hashable (platform_of p) = true) posts)
    by (eapply Forall_impl; [exact Hall|]; by intros p [??]).
  destruct (grouping_fold posts [] [] Hh) as (groups & Hfold & Hd & Hm & Hperm).
  { split_and!; [done|constructor|done]. }
  rewrite app_nil_l in Hperm.
  destruct (grouping_fold_exact posts [] [] Hh) as (groups0 & Hfold0 & Hexact);
    [done|constructor|constructor|].
  rewrite Hfold in Hfold0. injection Hfold0 as <-. rewrite app_nil_l in Hexact.
  destruct (distribution_of_countable posts Hc) as (d & Hdist & Ht & Hp & Hn & Hu).
  pose (R := λ (g : value * list dict) (gd : value * Shared.distribution),
    gd.1 = g.1
    ∧ Simple.get_sentiment_distribution g.2 = Ok gd.2
    ∧ Shared.total gd.2 = length g.2
    ∧ Shared.positive gd.2
      = length (filter (λ p, has_sentiment "positive" p = true) g.2)
    ∧ Shared.negative gd.2
      = length (filter (λ p, has_sentiment "negative" p = true) g.2)
    ∧ Shared.neutral gd.2 = length (filter (λ p, counted_neutral p = true) g.2)).
  destruct (for_each_Forall2
              (λ g : value * list dict,
                 d ← Simple.get_sentiment_distribution g.2; Ok (g.1, d)) R groups)
    as (breakdown & Hbreak & HR).
  { apply Forall_forall. intros [k l] Hin.
    assert (Hl : Forall (λ p, countable p = true) l).
    { apply Forall_forall. intros p Hp'. eapply Forall_forall in Hc; [exact Hc|].
      rewrite <-Hperm. apply list_elem_of_In, in_concat. exists l.
      split; [|by apply list_elem_of_In].
      apply list_elem_of_In, list_elem_of_fmap. by exists (k, l). }
    destruct (distribution_of_countable l Hl) as (dl & Hdl & ?).
    exists (k, dl). unfold Simple.get_sentiment_distribution. simpl.
    rewrite Hdl. by split_and!. }
  exists breakdown, d. unfold Simple.get_platform_sentiment.
  rewrite Hfold. cbn [mbind result_bind]. split; [exact Hbreak|].
  split; [exact Hdist|].
  assert (Hkeys : breakdown.*1 = groups.*1).
  { clear -HR. induction HR as [|g gd groups breakdown (E & _) _ IH]; [done|].
    cbn [fmap list_fmap]. by rewrite E, IH. }
  assert (HR' : Forall2 (λ (g : value * list dict) (gd : value * Shared.distribution),
            Shared.total gd.2 = length g.2
            ∧ Shared.positive gd.2
              = length (filter (λ p, has_sentiment "positive" p = true) g.2)
            ∧ Shared.negative gd.2
              = length (filter (λ p, has_sentiment "negative" p = true) g.2)
            ∧ Shared.neutral gd.2
              = length (filter (λ p, counted_neutral p = true) g.2))
            groups breakdown)
    by (eapply Forall2_impl; [exact HR|]; by intros ?? (? & ? & ?)).
  assert (Hsum : ∀ (proj : Shared.distribution → nat) (cnt : list dict → nat),
    Forall2 (λ g gd, proj gd.2 = cnt g.2) groups breakdown →
    sum_list (proj <$> breakdown.*2) = sum_list (cnt <$> groups.*2)).
  { intros proj cnt HF. clear -HF.
    induction HF as [|g gd groups breakdown E _ IH]; [done|].
    cbn [fmap list_fmap sum_list sum_list_with]. simpl in *. by rewrite E, IH. }
  split_and!.
  - by rewrite Hkeys.
  - rewrite Hkeys. apply Forall_forall. intros p Hp'.
    rewrite <-Hperm in Hp'. apply list_elem_of_In, in_concat in Hp' as (l & Hl & Hpl).
    apply list_elem_of_In, list_elem_of_fmap in Hl as ([k l'] & -> & Hin).
    exists k. split; [apply list_elem_of_fmap; by exists (k, l')|].
    eapply Forall_forall in Hm as [_ Hm]; [|exact Hin].
    eapply Forall_forall in Hm; [exact Hm|by apply list_elem_of_In].
  - clear -HR Hexact.
    induction HR as [|g gd groups breakdown (Ek & Ed & _) _ IH]; [constructor|].
    apply Forall_cons in Hexact as [Hg Hexact]. constructor; [|by apply IH].
    by rewrite Ek, <-Hg.
  - clear -HR' Hm. induction HR' as [|g gd groups breakdown (E & _) _ IH];
      [constructor|].
    apply Forall_cons in Hm as [[Hne _] Hm]. constructor; [|by apply IH].
    rewrite E. destruct g.2; [done|simpl; lia].
  - rewrite (Hsum Shared.total length)
      by (eapply Forall2_impl; [exact HR'|]; by intros ?? (? & ?)).
    by rewrite Ht, <-Hperm, concat_length_sum.
  - rewrite (Hsum Shared.positive
               (λ l, length (filter (λ p, has_sentiment "positive" p = true) l)))
      by (eapply Forall2_impl; [exact HR'|]; by intros ?? (? & ? & ?)).
    by rewrite Hp, <-Hperm, filter_concat_length.
  - rewrite (Hsum Shared.negative
               (λ l, length (filter (λ p, has_sentiment "negative" p = true) l)))
      by (eapply Forall2_impl; [exact HR'|]; by intros ?? (? & ? & ? & ?)).
    by rewrite Hn, <-Hperm, filter_concat_length.
  - rewrite (Hsum Shared.neutral
               (λ l, length (filter (λ p, counted_neutral p = true) l)))
      by (eapply Forall2_impl; [exact HR'|]; by intros ?? (? & ? & ? & ?)).
    by rewrite Hu, <-Hperm, filter_concat_length.
Qed.

Lemma platform_breakdown_partitions_witness :
  let posts := [ on_platform "reddit" (simple_post "a" "positive" (1 # 2));
                 ∅;
                 on_platform "reddit" (simple_post "b" "negative" (- (1 # 2))) ] in
  ∃ breakdown d,
    Simple.get_platform_sentiment posts = Ok breakdown
    ∧ Shared.get_sentiment_distribution posts = Ok d
    ∧ breakdown.*1 = [VStr "reddit"; VStr "unknown"]
    ∧ Shared.total <$> breakdown.*2 = [2; 1]
    ∧ sum_list (Shared.total <$> breakdown.*2) = Shared.total d.
Proof.
  intros posts.
  destruct (platform_breakdown_partitions posts)
    as (breakdown & d & Hb & Hd & _ & _ & _ & _ & Ht & _); [repeat constructor|].
  exists breakdown, d. split; [exact Hb|]. split; [exact Hd|].
  assert (E : fmap (M := result) (fmap (λ g : value * Shared.distribution,
                                         (g.1, Shared.total g.2)))
                (Simple.get_platform_sentiment posts)
              = Ok [(VStr "reddit", 2); (VStr "unknown", 1)])
    by (vm_compute; reflexivity).
  rewrite Hb in E. injection E as E.
  split; [|split; [|exact Ht]]; clear Hb Ht;
    destruct breakdown as [|[k1 d1] [|[k2 d2] [|??]]]; try discriminate E;
    cbn in E; injection E as E1 E2 E3 E4; cbn; by rewrite ?E1, ?E2, ?E3, ?E4.
Defined.

(** ** From the batch analysis to the aggregates *)

Lemma records_of_new (h new : Store.heap) :
  records (h ++ new) (seq (length h) (length new)) = new.
Proof.
  unfold records. revert h. induction new as [|d new IH]; intros h; [done|].
  cbn [length seq]. rewrite omap_cons_eq.
  rewrite lookup_app_r, Nat.sub_diag by done. cbn [lookup list_lookup].
  f_equal. specialize (IH (h ++ [d])).
  rewrite length_app, Nat.add_1_r, <-app_assoc in IH. exact IH.
Qed.

(** The batch analysis returns records that carry an analysis and agree
    with the posts on every other key. *)
Lemma analysed_batch (analyze_text : value → result dict)
    (h : Store.heap) (posts : list Store.loc) :
  Forall (λ post, ∃ d a, h !! post = Some d
                         ∧ analyze_text (Shared.post_text d) = Ok a) posts →
  ∃ out h',
    Shared.analyze_posts analyze_text posts h = (Ok out, h')
    ∧ length (records h' out) = length posts
    ∧ Forall (carries analyze_text) (records h' out)
    ∧ Forall2 (λ post record,
        ∃ d, h !! post = Some d
             ∧ ∀ k, k ≠ "sentiment_analysis" → record !! k = d !! k)
        posts (records h' out).
Proof.
  intros Hall. unfold Shared.analyze_posts.
  destruct (analyze_posts_loop_ok analyze_text posts [] h Hall)
    as (new & Hrun & Hlen & Hnew).
  exists (seq (length h) (length posts)), (h ++ new).
  split; [exact Hrun|]. rewrite <-Hlen, records_of_new.
  split; [done|].
  assert (Heach : ∀ i record, new !! i = Some record →
            ∃ post d a, posts !! i = Some post ∧ h !! post = Some d
                        ∧ analyze_text (Shared.post_text d) = Ok a
                        ∧ record = <["sentiment_analysis" := VDict a]> d).
  { intros i record Hi.
    assert (Hlt : i < length posts) by (rewrite <-Hlen; by eapply lookup_lt_Some).
    apply lookup_lt_is_Some in Hlt as [post Hpost].
    eapply Forall_lookup in Hall as (d & a0 & Hd & _); [|exact Hpost].
    destruct (Hnew i post d Hpost Hd) as (a & Ha & Hrec).
    rewrite Hi in Hrec. injection Hrec as ->. by exists post, d, a. }
  split.
  - apply Forall_lookup. intros i record Hi.
    destruct (Heach i record Hi) as (post & d & a & _ & _ & Ha & ->).
    exists (Shared.post_text d), a. split; [done|]. apply lookup_insert_eq.
  - apply Forall2_same_length_lookup. split; [by rewrite Hlen|].
    intros i post record Hpost Hi.
    destruct (Heach i record Hi) as (post' & d & a & Hpost' & Hd & _ & ->).
    rewrite Hpost in Hpost'. injection Hpost' as <-.
    exists d. split; [done|]. intros k Hk. by apply lookup_insert_ne.
Qed.

Lemma simple_analysis_dict_lookup (r : Simple.analysis) :
  Simple.analysis_dict r !! "polarity" = Some (VNum (Simple.polarity r))
  ∧ Simple.analysis_dict r !! "subjectivity" = Some (VNum (Simple.subjectivity r))
  ∧ Simple.analysis_dict r !! "sentiment" = Some (VStr (Simple.sentiment r))
  ∧ Simple.analysis_dict r !! "confidence" = Some (VNum (Simple.confidence r)).
Proof.
  unfold Simple.analysis_dict.
  destruct (Simple.error r); rewrite ?lookup_insert_ne by done;
    split_and!; reflexivity.
Qed.

Lemma enhanced_analysis_dict_lookup (r : Enhanced.analysis) :
  Enhanced.analysis_dict r !! "vader_compound" = Some (VNum (Enhanced.vader_compound r))
  ∧ Enhanced.analysis_dict r !! "textblob_subjectivity"
    = Some (VNum (Enhanced.textblob_subjectivity r))
  ∧ Enhanced.analysis_dict r !! "sentiment" = Some (VStr (Enhanced.sentiment r))
  ∧ Enhanced.analysis_dict r !! "confidence" = Some (VStr (Enhanced.confidence r))
  ∧ Enhanced.analysis_dict r !! "polarity" = None
  ∧ Enhanced.analysis_dict r !! "subjectivity" = None.
Proof. unfold Enhanced.analysis_dict. split_and!; reflexivity. Qed.

Lemma simple_label (textblob_sentiment : string → outcome (Q * Q))
    (text : value) (r : Simple.analysis) :
  Simple.analyze_text textblob_sentiment text = Ok r →
  Simple.sentiment r = "positive" ∨ Simple.sentiment r = "negative"
  ∨ Simple.sentiment r = "neutral".
Proof.
  unfold Simple.analyze_text. intros Hr.
  assert (Hcases : r = Simple.neutral_result None
            ∨ ∃ s, r = Simple.analyze_nonblank textblob_sentiment s).
  { destruct (negb (truthy text)); [left; congruence|].
    destruct text; try done.
    destruct (is_empty (strip s)); [left; congruence|right; exists s; congruence]. }
  destruct Hcases as [->|[s ->]]; [auto|].
  unfold Simple.analyze_nonblank.
  destruct (textblob_sentiment s) as [e|[p q]]; [auto|]. simpl.
  unfold Simple.classify. destruct (Qltb _ _); [auto|]. destruct (Qltb _ _); auto.
Qed.

Lemma enhanced_label
    (polarity_scores : string → Enhanced.vader_scores)
    (textblob_sentiment : string → outcome (Q * Q))
    (set_order : list string → list string) (self : Enhanced.analyzer)
    (text : value) (r : Enhanced.analysis) :
  Enhanced.analyze_text polarity_scores textblob_sentiment set_order self text = Ok r →
  (Enhanced.sentiment r = "positive" ∨ Enhanced.sentiment r = "negative"
   ∨ Enhanced.sentiment r = "neutral")
  ∧ (Enhanced.confidence r = "high" ∨ Enhanced.confidence r = "low"
     ∨ Enhanced.confidence r = "moderate").
Proof.
  unfold Enhanced.analyze_text. intros Hr.
  assert (Hcases : r = Enhanced._empty_result
            ∨ ∃ t, Enhanced.analyze_nonblank polarity_scores textblob_sentiment
                     set_order self t = Ok r).
  { destruct (negb (truthy text)); [left; congruence|].
    destruct text; try done.
    destruct (is_empty (strip s)); [left; congruence|by right; eexists]. }
  destruct Hcases as [->|[t Ht]]; [simpl; auto|].
  unfold Enhanced.analyze_nonblank in Ht.
  destruct (textblob_sentiment t) as [e|[p q]]; [done|].
  simpl in Ht. injection Ht as <-. simpl.
  unfold Enhanced.classify, Enhanced.confidence_of.
  repeat match goal with |- context [Qleb ?a ?b] => destruct (Qleb a b) end; auto.
Qed.

(** What the aggregates read from a record of the simple variant. *)
Lemma simple_record_fields (textblob_sentiment : string → outcome (Q * Q))
    (record : dict) :
  carries (λ text, Simple.analysis_dict <$>
                     Simple.analyze_text textblob_sentiment text) record →
  countable record = true
  ∧ has_sentiment "positive" record || has_sentiment "negative" record
    || counted_neutral record = true
  ∧ well_typed_field record "polarity" = true
  ∧ well_typed_field record "subjectivity" = true
  ∧ well_typed_field record "confidence" = true.
Proof.
  intros (text & a & Ha & Hrec).
  destruct (Simple.analyze_text textblob_sentiment text) as [r|] eqn:Hr; [|done].
  injection Ha as <-.
  destruct (simple_analysis_dict_lookup r) as (Hp & Hs & Hl & Hc).
  unfold countable, has_sentiment, counted_neutral, well_typed_field.
  rewrite Hrec, Hp, Hs, Hl, Hc. split_and!; try done. simpl.
  destruct (simple_label _ _ _ Hr) as [-> | [-> | ->]]; done.
Qed.

(** What the aggregates read from a record of the enhanced variant. *)
Lemma enhanced_record_fields
    (polarity_scores : string → Enhanced.vader_scores)
    (textblob_sentiment : string → outcome (Q * Q))
    (set_order : list string → list string) (self : Enhanced.analyzer)
    (record : dict) :
  carries (λ text, Enhanced.analysis_dict <$>
                     Enhanced.analyze_text polarity_scores textblob_sentiment
                       set_order self text) record →
  countable record = true
  ∧ has_sentiment "positive" record || has_sentiment "negative" record
    || counted_neutral record = true
  ∧ well_typed_field record "vader_compound" = true
  ∧ well_typed_field record "textblob_subjectivity" = true
  ∧ well_typed_field record "polarity" = true
  ∧ well_typed_field record "subjectivity" = true
  ∧ field_or_zero "polarity" record = 0%Q
  ∧ ∃ label, label ∈ ["high"; "low"; "moderate"]
             ∧ Shared.analysis_field record "confidence" (VNum 0) = Ok (VStr label)
             ∧ label_rank record
               = (if String.eqb label "moderate" then 2
                  else if String.eqb label "low" then 1 else 0)%Q.
Proof.
  intros (text & a & Ha & Hrec).
  destruct (Enhanced.analyze_text polarity_scores textblob_sentiment set_order self
              text) as [r|] eqn:Hr; [|done].
  injection Ha as <-.
  destruct (enhanced_analysis_dict_lookup r) as (Hv & Hs & Hl & Hc & Hp & Hsub).
  destruct (enhanced_label _ _ _ _ _ _ Hr) as [Hlab Hconf].
  unfold countable, has_sentiment, counted_neutral, well_typed_field, field_or_zero,
    label_rank, Shared.analysis_field, get_default.
  rewrite Hrec. cbn [default obj_get]. unfold get_default.
  rewrite Hv, Hs, Hl, Hc, Hp, Hsub. split_and!; try done.
  - simpl. destruct Hlab as [-> | [-> | ->]]; done.
  - exists (Enhanced.confidence r). simpl. unfold get_default. rewrite Hc.
    cbn [default]. rewrite !elem_of_cons.
    destruct Hconf as [-> | [-> | ->]]; simpl; auto 10.
Qed.

Lemma average_of_well_typed (post : dict) (posts : list dict) :
  Forall (λ p, well_typed_field p "polarity" = true
               ∧ well_typed_field p "subjectivity" = true) (post :: posts) →
  let mean_polarity := float_mean (field_or_zero "polarity" <$> post :: posts) in
  Simple.get_average_sentiment (post :: posts)
    = Ok {| Simple.avg_polarity := py_round_float mean_polarity 3;
            Simple.avg_subjectivity :=
              py_round_float
                (float_mean (field_or_zero "subjectivity" <$> post :: posts)) 3;
            Simple.overall_sentiment :=
              if Float.ltb (Float.of_Q (1 # 10)) mean_polarity then "positive"
              else if Float.ltb mean_polarity (Float.of_Q (- (1 # 10)))
                   then "negative"
              else "neutral" |}.
Proof.
  intros Hwt. unfold Simple.get_average_sentiment.
  rewrite !field_values_numeric
    by (eapply Forall_impl; [exact Hwt|]; by intros p [??]).
  cbn [mbind result_bind]. rewrite !py_sum_numeric. cbn [mbind result_bind].
  rewrite !mean_len by done. reflexivity.
Qed.

Lemma app_average_of_well_typed (post : dict) (posts : list dict) :
  Forall (λ p, well_typed_field p "vader_compound" = true
               ∧ well_typed_field p "textblob_subjectivity" = true) (post :: posts) →
  let mean_compound := float_mean (field_or_zero "vader_compound" <$> post :: posts) in
  App.average_sentiment (post :: posts)
    = Ok {| Simple.avg_polarity := py_round_float mean_compound 3;
            Simple.avg_subjectivity :=
              py_round_float
                (float_mean (field_or_zero "textblob_subjectivity"
                               <$> post :: posts)) 3;
            Simple.overall_sentiment :=
              if Float.ltb (Float.of_Q (5 # 100)) mean_compound then "positive"
              else if Float.ltb mean_compound (Float.of_Q (- (5 # 100)))
                   then "negative"
              else "neutral" |}.
Proof.
  intros Hwt. unfold App.average_sentiment, App.compound_key.
  rewrite !field_values_numeric
    by (eapply Forall_impl; [exact Hwt|]; by intros p [??]).
  cbn [mbind result_bind]. rewrite !py_sum_numeric.
  change (Enhanced.nonempty (VNum <$> (?f <$> post :: posts))) with true.
  cbn [mbind result_bind]. rewrite !mean_len by done. reflexivity.
Qed.

(** [sorted] on keys of any kind whose comparisons follow a numeric rank. *)
Lemma insert_keyed_ranked {A : Type} (kv : A → value) (rank : A → Q)
    (reverse : bool) (x : A) (l : list A) :
  Forall (λ y, py_lt (kv x) (kv y) = Ok (Qltb (rank x) (rank y))
               ∧ py_lt (kv y) (kv x) = Ok (Qltb (rank y) (rank x))) l →
  insert_keyed reverse (kv x, x) ((λ y, (kv y, y)) <$> l)
    = Ok ((λ y, (kv y, y)) <$> insert_by rank reverse x l).
Proof.
  induction 1 as [|y l [Hxy Hyx] _ IH]; [done|].
  cbn [fmap list_fmap insert_keyed insert_by fst].
  assert (Hlt : (if reverse then py_lt (kv x) (kv y) else py_lt (kv y) (kv x))
                = Ok (behind reverse (rank x) (rank y)))
    by (destruct reverse; [exact Hxy|exact Hyx]).
  rewrite Hlt. cbn [mbind result_bind].
  destruct (behind reverse (rank x) (rank y)); [|done].
  change (list_fmap _ _ ?f l) with (f <$> l). by rewrite IH.
Qed.

Lemma sort_keyed_ranked {A : Type} (kv : A → value) (rank : A → Q)
    (reverse : bool) (l : list A) :
  (∀ x y, x ∈ l → y ∈ l → py_lt (kv x) (kv y) = Ok (Qltb (rank x) (rank y))) →
  sort_keyed reverse ((λ y, (kv y, y)) <$> l)
    = Ok ((λ y, (kv y, y)) <$> sort_by rank reverse l).
Proof.
  induction l as [|x l IH]; intros Hcmp; [done|].
  cbn [fmap list_fmap sort_keyed sort_by].
  change (list_fmap _ _ ?f l) with (f <$> l).
  rewrite IH by (intros; apply Hcmp; by right).
  cbn [mbind result_bind]. apply insert_keyed_ranked.
  apply Forall_forall. intros y Hy. rewrite sort_by_perm in Hy.
  split; apply Hcmp; (by left) || (by right).
Qed.

Lemma sorted_ranked {A : Type} (keyf : A → result value) (kv : A → value)
    (rank : A → Q) (reverse : bool) (l : list A) :
  Forall (λ x, keyf x = Ok (kv x)) l →
  (∀ x y, x ∈ l → y ∈ l → py_lt (kv x) (kv y) = Ok (Qltb (rank x) (rank y))) →
  sorted keyf reverse l = Ok (sort_by rank reverse l).
Proof.
  intros H Hcmp. unfold sorted.
  rewrite (for_each_ok _ (λ y, (kv y, y))).
  - cbn [mbind result_bind]. rewrite (sort_keyed_ranked kv rank) by done.
    cbn [mbind result_bind]. f_equal. rewrite <-list_fmap_compose.
    apply list_fmap_id.
  - eapply Forall_impl; [exact H|]. intros x Hx. simpl. by rewrite Hx.
Qed.

(** X15.  The records [SentimentAnalyzer.analyze_posts] returns can be
    handed to every aggregate of the class: on them the distribution
    returns with total equal to the number of posts and with positive,
    negative and neutral counts that add up to it, the average returns, and
    the ranking returns at most [k] posts for every label and every [k]. *)
Theorem simple_batch_feeds_aggregates
    (textblob_sentiment : string → outcome (Q * Q))
    (h : Store.heap) (posts : list Store.loc) :
  Forall (λ post, ∃ d, h !! post = Some d
                       ∧ text_like (Shared.post_text d) = true) posts →
  ∃ out h' d,
    Simple.analyze_posts textblob_sentiment posts h = (Ok out, h')
    ∧ let analysed := records h' out in
      length analysed = length posts
      ∧ Simple.get_sentiment_distribution analysed = Ok d
      ∧ Shared.total d = length posts
      ∧ Shared.positive d + Shared.negative d + Shared.neutral d = length posts
      ∧ (∃ a, Simple.get_average_sentiment analysed = Ok a)
      ∧ ∀ (label : string) (k : nat),
          ∃ top, Simple.get_top_posts_by_sentiment analysed label (Z.of_nat k) = Ok top
                 ∧ length top ≤ k.
Proof.
  intros Hall.
  destruct (analysed_batch
              (λ text, Simple.analysis_dict <$>
                         Simple.analyze_text textblob_sentiment text) h posts)
    as (out & h' & Hrun & Hlen & Hcar & _).
  { eapply Forall_impl; [exact Hall|]. intros post (d & Hd & Ht).
    destruct (simple_analyze_text_returns textblob_sentiment _ Ht) as [r Hr].
    exists d, (Simple.analysis_dict r). by rewrite Hr. }
  set (analysed := records h' out) in *.
  assert (Hfields : Forall (λ record,
            countable record = true
            ∧ has_sentiment "positive" record || has_sentiment "negative" record
              || counted_neutral record = true
            ∧ well_typed_field record "polarity" = true
            ∧ well_typed_field record "subjectivity" = true
            ∧ well_typed_field record "confidence" = true) analysed).
  { eapply Forall_impl; [exact Hcar|]. intros record Hrec.
    by apply (simple_record_fields textblob_sentiment). }
  assert (Hc : Forall (λ p, countable p = true) analysed)
    by (eapply Forall_impl; [exact Hfields|]; by intros p (? & _)).
  destruct (distribution_of_countable analysed Hc) as (d & Hd & Ht & Hp & Hn & Hu).
  exists out, h', d. split; [exact Hrun|]. cbv zeta. fold analysed.
  split; [exact Hlen|]. split; [exact Hd|]. split; [by rewrite Ht|].
  split; [|split].
  - rewrite Hp, Hn, Hu, <-Hlen. apply three_counts; [exact Hc|].
    eapply Forall_impl; [exact Hfields|]. by intros p (_ & ? & _).
  - destruct analysed as [|record analysed']; [by eexists|].
    eexists. apply average_of_well_typed.
    eapply Forall_impl; [exact Hfields|]. by intros p (_ & _ & ? & ? & _).
  - intros label k. eexists. split.
    + unfold Simple.get_top_posts_by_sentiment.
      apply (ranking_computation analysed "confidence" label true k).
      eapply Forall_impl; [exact Hfields|]. by intros p (_ & _ & _ & _ & ?).
    + rewrite length_take. lia.
Qed.

Lemma simple_batch_feeds_aggregates_witness :
  let h : Store.heap := [text_post "I love it"; ∅] in
  ∃ out h' d,
    Simple.analyze_posts (fixed_polarity (1 # 2) (1 # 2)) [0; 1] h = (Ok out, h')
    ∧ Simple.get_sentiment_distribution (records h' out) = Ok d
    ∧ Shared.total d = 2
    ∧ Shared.positive d + Shared.negative d + Shared.neutral d = 2.
Proof.
  intros h.
  destruct (simple_batch_feeds_aggregates (fixed_polarity (1 # 2) (1 # 2)) h [0; 1])
    as (out & h' & d & Hrun & _ & Hd & Ht & Hsum & _).
  { repeat constructor; eexists; (split; [reflexivity|by vm_compute]). }
  by exists out, h', d.
Defined.

(** X16.  The records [EnhancedSentimentAnalyzer.analyze_posts] returns can
    be handed to the distribution, whose three counts then add up to the
    number of posts, and to the rankings and the average of [app.py], which
    all return; the rankings hold at most 5 posts. *)
Theorem enhanced_batch_feeds_aggregates
    (polarity_scores : string → Enhanced.vader_scores)
    (textblob_sentiment : string → outcome (Q * Q))
    (set_order : list string → list string) (self : Enhanced.analyzer)
    (h : Store.heap) (posts : list Store.loc) :
  Forall (λ post, ∃ d a, h !! post = Some d
                         ∧ Enhanced.analyze_text polarity_scores textblob_sentiment
                             set_order self (Shared.post_text d) = Ok a) posts →
  ∃ out h' d,
    Enhanced.analyze_posts polarity_scores textblob_sentiment set_order self posts h
      = (Ok out, h')
    ∧ let analysed := records h' out in
      length analysed = length posts
      ∧ Enhanced.get_sentiment_distribution analysed = Ok d
      ∧ Shared.total d = length posts
      ∧ Shared.positive d + Shared.negative d + Shared.neutral d = length posts
      ∧ (∃ top, App.top_positive analysed = Ok top ∧ length top ≤ 5)
      ∧ (∃ top, App.top_negative analysed = Ok top ∧ length top ≤ 5)
      ∧ (∃ a, App.average_sentiment analysed = Ok a).
Proof.
  intros Hall.
  destruct (analysed_batch
              (λ text, Enhanced.analysis_dict <$>
                         Enhanced.analyze_text polarity_scores textblob_sentiment
                           set_order self text) h posts)
    as (out & h' & Hrun & Hlen & Hcar & _).
  { eapply Forall_impl; [exact Hall|]. intros post (d & a & Hd & Ha).
    exists d, (Enhanced.analysis_dict a). by rewrite Ha. }
  set (analysed := records h' out) in *.
  assert (Hfields : Forall (λ record,
            countable record = true
            ∧ has_sentiment "positive" record || has_sentiment "negative" record
              || counted_neutral record = true
            ∧ well_typed_field record "vader_compound" = true
            ∧ well_typed_field record "textblob_subjectivity" = true) analysed).
  { eapply Forall_impl; [exact Hcar|]. intros record Hrec.
    destruct (enhanced_record_fields _ _ _ _ _ Hrec) as (? & ? & ? & ? & _).
    done. }
  assert (Hc : Forall (λ p, countable p = true) analysed)
    by (eapply Forall_impl; [exact Hfields|]; by intros p (? & _)).
  assert (Hv : Forall (λ p, well_typed_field p "vader_compound" = true) analysed)
    by (eapply Forall_impl; [exact Hfields|]; by intros p (_ & _ & ? & _)).
  destruct (distribution_of_countable analysed Hc) as (d & Hd & Ht & Hp & Hn & Hu).
  exists out, h', d. split; [exact Hrun|]. cbv zeta. fold analysed.
  split; [exact Hlen|]. split; [exact Hd|]. split; [by rewrite Ht|].
  split_and!.
  - rewrite Hp, Hn, Hu, <-Hlen. apply three_counts; [exact Hc|].
    eapply Forall_impl; [exact Hfields|]. by intros p (_ & ? & _).
  - eexists. split.
    + apply (ranking_computation analysed "vader_compound" "positive" true 5 Hv).
    + rewrite length_take. lia.
  - eexists. split.
    + apply (ranking_computation analysed "vader_compound" "negative" false 5 Hv).
    + rewrite length_take. lia.
  - destruct analysed as [|record analysed'].
    + by eexists.
    + eexists. apply app_average_of_well_typed.
      eapply Forall_impl; [exact Hfields|]. by intros p (_ & _ & ? & ?).
Qed.

Lemma enhanced_batch_feeds_aggregates_witness :
  let h : Store.heap := [text_post "I love it"; ∅] in
  ∃ out h' d,
    Enhanced.analyze_posts sample_scores (fixed_polarity (1 # 2) (1 # 2)) (λ l, l)
      Enhanced.init [0; 1] h = (Ok out, h')
    ∧ Enhanced.get_sentiment_distribution (records h' out) = Ok d
    ∧ Shared.total d = 2
    ∧ Shared.positive d + Shared.negative d + Shared.neutral d = 2.
Proof.
  intros h.
  destruct (enhanced_batch_feeds_aggregates sample_scores
              (fixed_polarity (1 # 2) (1 # 2)) (λ l, l) Enhanced.init h [0; 1])
    as (out & h' & d & Hrun & _ & Hd & Ht & Hsum & _).
  { assert (Hret : ∀ text, text_like text = true →
              ∃ a, Enhanced.analyze_text sample_scores (fixed_polarity (1 # 2) (1 # 2))
                     (λ l, l) Enhanced.init text = Ok a).
    { intros text Ht. apply enhanced_analyze_text_returns; [exact Ht|].
      intros s. by eexists. }
    repeat constructor.
    - destruct (Hret (Shared.post_text (text_post "I love it"))) as [a Ha];
        [by vm_compute|]. by exists (text_post "I love it"), a.
    - destruct (Hret (Shared.post_text ∅)) as [a Ha]; [by vm_compute|].
      by exists ∅, a. }
  by exists out, h', d.
Defined.

(** ** The aggregates of one variant on the records of the other *)

Lemma float_mean_zeros (l : list Q) :
  l ≠ [] → Forall (λ q, q = 0%Q) l → float_mean l = Float.zero.
Proof.
  intros Hl H. unfold float_mean. rewrite float_sum_zeros.
  - destruct l; [done|apply div_zero_by_length].
  - apply Forall_fmap. eapply Forall_impl; [exact H|]. by intros q ->.
Qed.

Lemma enhanced_record_no_polarity
    (polarity_scores : string → Enhanced.vader_scores)
    (textblob_sentiment : string → outcome (Q * Q))
    (set_order : list string → list string) (self : Enhanced.analyzer)
    (record : dict) :
  carries (λ text, Enhanced.analysis_dict <$>
                     Enhanced.analyze_text polarity_scores textblob_sentiment
                       set_order self text) record →
  field_or_zero "polarity" record = 0%Q
  ∧ field_or_zero "subjectivity" record = 0%Q.
Proof.
  intros (text & a & Ha & Hrec).
  destruct (Enhanced.analyze_text polarity_scores textblob_sentiment set_order self
              text) as [r|]; [|done].
  injection Ha as <-.
  destruct (enhanced_analysis_dict_lookup r) as (_ & _ & _ & _ & Hp & Hsub).
  unfold field_or_zero. by rewrite Hrec, Hp, Hsub.
Qed.

(** The confidence labels of the enhanced variant compare, as strings, the
    way their ranks do. *)
Lemma confidence_labels_by_rank (a b : string) :
  a ∈ ["high"; "low"; "moderate"] → b ∈ ["high"; "low"; "moderate"] →
  String.ltb a b
  = Qltb (if String.eqb a "moderate" then 2 else if String.eqb a "low" then 1 else 0)
         (if String.eqb b "moderate" then 2 else if String.eqb b "low" then 1 else 0).
Proof.
  rewrite !elem_of_cons, !elem_of_nil.
  intros [-> | [-> | [-> | []]]] [-> | [-> | [-> | []]]]; reflexivity.
Qed.

(** X17.  The aggregates of [SentimentAnalyzer] do not fail on the records
    of [EnhancedSentimentAnalyzer], which have no ['polarity'] and no
    ['subjectivity'] and a confidence that is a label: the average is 0, 0
    and ['neutral'] whatever the posts say, and the ranking orders the posts
    by their confidence label as a string, ['moderate'] before ['low']
    before ['high']. *)
Theorem simple_aggregates_on_enhanced_records
    (polarity_scores : string → Enhanced.vader_scores)
    (textblob_sentiment : string → outcome (Q * Q))
    (set_order : list string → list string) (self : Enhanced.analyzer)
    (analysed : list dict) :
  Forall (carries (λ text, Enhanced.analysis_dict <$>
                     Enhanced.analyze_text polarity_scores textblob_sentiment
                       set_order self text)) analysed →
  (∃ a, Simple.get_average_sentiment analysed = Ok a
        ∧ Simple.avg_polarity a = Float.zero
        ∧ Simple.avg_subjectivity a = Float.zero
        ∧ Simple.overall_sentiment a = "neutral")
  ∧ ∀ (label : string) (k : nat),
      ∃ top, Simple.get_top_posts_by_sentiment analysed label (Z.of_nat k) = Ok top
             ∧ is_ranking label_rank true label k analysed top.
Proof.
  intros Hcar. split.
  - destruct analysed as [|record analysed']; [by eexists|].
    set (analysed := record :: analysed') in *.
    assert (Hp : float_mean (field_or_zero "polarity" <$> analysed) = Float.zero).
    { apply float_mean_zeros; [done|]. apply Forall_fmap.
      eapply Forall_impl; [exact Hcar|].
      intros p Hp. by destruct (enhanced_record_no_polarity _ _ _ _ _ Hp). }
    assert (Hs : float_mean (field_or_zero "subjectivity" <$> analysed) = Float.zero).
    { apply float_mean_zeros; [done|]. apply Forall_fmap.
      eapply Forall_impl; [exact Hcar|].
      intros p Hq. by destruct (enhanced_record_no_polarity _ _ _ _ _ Hq). }
    eexists. split.
    + apply average_of_well_typed. eapply Forall_impl; [exact Hcar|].
      intros p Hq.
      by destruct (enhanced_record_fields _ _ _ _ _ Hq) as (_ & _ & _ & _ & ? & ? & _).
    + cbv zeta.
      cbn [Simple.avg_polarity Simple.avg_subjectivity Simple.overall_sentiment].
      fold analysed. rewrite Hp, Hs. by split_and!.
  - intros label k.
    exists (take k (sort_by label_rank true
                      (filter (λ p, has_sentiment label p = true) analysed))).
    split; [|apply ranking_is_ranking].
    unfold Simple.get_top_posts_by_sentiment.
    rewrite (posts_with_sentiment_ok _ "vader_compound").
    2:{ eapply Forall_impl; [exact Hcar|]. intros p Hq.
        by destruct (enhanced_record_fields _ _ _ _ _ Hq) as (_ & _ & ? & _). }
    cbn [mbind result_bind].
    set (kv := λ p : dict,
           match Shared.analysis_field p "confidence" (VNum 0) with
           | Ok v => v
           | Raise _ => VNone
           end).
    assert (Hkey : ∀ p, p ∈ filter (λ p, has_sentiment label p = true) analysed →
              ∃ l, l ∈ ["high"; "low"; "moderate"]
                   ∧ Shared.analysis_field p "confidence" (VNum 0) = Ok (VStr l)
                   ∧ kv p = VStr l
                   ∧ label_rank p
                     = (if String.eqb l "moderate" then 2
                        else if String.eqb l "low" then 1 else 0)%Q).
    { intros p [_ Hin]%list_elem_of_filter.
      eapply Forall_forall in Hcar; [|exact Hin].
      destruct (enhanced_record_fields _ _ _ _ _ Hcar)
        as (_ & _ & _ & _ & _ & _ & _ & l & Hl & Hf & Hr).
      exists l. unfold kv. by rewrite Hf. }
    rewrite (sorted_ranked _ kv label_rank).
    + cbn [mbind result_bind]. by rewrite slice_to_nat.
    + apply Forall_forall. intros p Hin.
      destruct (Hkey p Hin) as (l & _ & Hf & Hk & _). by rewrite Hf, Hk.
    + intros x y Hx Hy.
      destruct (Hkey x Hx) as (lx & Hlx & _ & -> & ->).
      destruct (Hkey y Hy) as (ly & Hly & _ & -> & ->).
      cbn [py_lt]. f_equal. by apply confidence_labels_by_rank.
Qed.

Lemma simple_aggregates_on_enhanced_records_witness :
  let h : Store.heap := [text_post "superb"; text_post "good"; text_post "great"] in
  ∃ out h' a top,
    Enhanced.analyze_posts graded_scores (fixed_polarity (1 # 2) (1 # 2)) (λ l, l)
      Enhanced.init [0; 1; 2] h = (Ok out, h')
    ∧ Simple.get_average_sentiment (records h' out) = Ok a
    ∧ Simple.overall_sentiment a = "neutral"
    ∧ Simple.get_top_posts_by_sentiment (records h' out) "positive" 3 = Ok top
    ∧ is_ranking label_rank true "positive" 3 (records h' out) top
    ∧ (λ p : dict, p !! "text") <$> top
      = [Some (VStr "great"); Some (VStr "good"); Some (VStr "superb")].
Proof.
  intros h.
  destruct (analysed_batch
              (λ text, Enhanced.analysis_dict <$>
                 Enhanced.analyze_text graded_scores (fixed_polarity (1 # 2) (1 # 2))
                   (λ l, l) Enhanced.init text) h [0; 1; 2])
    as (out & h' & Hrun & _ & Hcar & _).
  { assert (Hret : ∀ d, text_like (Shared.post_text d) = true →
              ∃ a, (Enhanced.analysis_dict <$>
                      Enhanced.analyze_text graded_scores
                        (fixed_polarity (1 # 2) (1 # 2)) (λ l, l) Enhanced.init
                        (Shared.post_text d)) = Ok a).
    { intros d Ht.
      destruct (enhanced_analyze_text_returns graded_scores
                  (fixed_polarity (1 # 2) (1 # 2)) (λ l, l) Enhanced.init _ Ht)
        as [a Ha]; [intros s; by eexists|].
      exists (Enhanced.analysis_dict a). by rewrite Ha. }
    repeat constructor.
    - destruct (Hret (text_post "superb")) as [a Ha]; [by vm_compute|].
      by exists (text_post "superb"), a.
    - destruct (Hret (text_post "good")) as [a Ha]; [by vm_compute|].
      by exists (text_post "good"), a.
    - destruct (Hret (text_post "great")) as [a Ha]; [by vm_compute|].
      by exists (text_post "great"), a. }
  destruct (simple_aggregates_on_enhanced_records graded_scores
              (fixed_polarity (1 # 2) (1 # 2)) (λ l, l) Enhanced.init
              (records h' out) Hcar)
    as [(a & Ha & _ & _ & Hn) Htop].
  destruct (Htop "positive" 3) as (top & Ht & Hr).
  change (Z.of_nat 3) with 3%Z in Ht.
  exists out, h', a, top. do 5 (split; [done|]).
  assert (Hsome : Some ((λ p : dict, p !! "text") <$> top)
                  = Some [Some (VStr "great"); Some (VStr "good"); Some (VStr "superb")]);
    [|by injection Hsome].
  transitivity (match Simple.get_top_posts_by_sentiment (records h' out) "positive" 3
                with Ok l => Some ((λ p : dict, p !! "text") <$> l) | _ => None end);
    [by rewrite Ht|].
  transitivity (match Enhanced.analyze_posts graded_scores
                        (fixed_polarity (1 # 2) (1 # 2)) (λ l, l) Enhanced.init
                        [0; 1; 2] h with
                | (Ok o, hh) =>
                    match Simple.get_top_posts_by_sentiment (records hh o) "positive" 3
                    with
                    | Ok l => Some (fmap (M := list) (λ p : dict, p !! "text") l)
                    | Raise _ => None
                    end
                | (Raise _, _) => None
                end); [|by vm_compute].
  unfold Enhanced.analyze_posts. by rewrite Hrun.
Defined.

(** ** Batches that fail, batches analysed again *)

Section BatchOutcomes.
Import Store.
Variable analyze_text : value → result dict.

Lemma analyze_posts_loop_raises (before : list loc) (bad : loc) (after : list loc)
    (analyzed : list loc) (h : heap) (d : dict) (e : exn) :
  Forall (λ post, ∃ d a, h !! post = Some d
                         ∧ analyze_text (Shared.post_text d) = Ok a) before →
  h !! bad = Some d →
  analyze_text (Shared.post_text d) = Raise e →
  ∃ new,
    Shared.analyze_posts_loop analyze_text (before ++ bad :: after) analyzed h
      = (Raise e, h ++ new)
    ∧ length new = length before
    ∧ Forall (λ record, record !! "sentiment_analysis" ≠ None) new.
Proof.
  revert analyzed h. induction before as [|post rest IH]; intros analyzed h Hall Hd He.
  { exists []. rewrite app_nil_r. split; [|done].
    cbn [app Shared.analyze_posts_loop].
    rewrite bind_run, (read_some _ _ _ Hd). cbv beta iota zeta.
    rewrite bind_run. unfold lift at 1. by rewrite He. }
  apply Forall_cons in Hall as [(d' & a & Hd' & Ha) Hrest].
  cbn [app]. rewrite (analyze_posts_step _ _ _ _ _ _ _ Hd' Ha).
  destruct (IH (analyzed ++ [length h])
              (h ++ [<["sentiment_analysis" := VDict a]> d']))
    as (new & -> & Hlen & Hnew).
  - eapply Forall_impl; [exact Hrest|]. intros p (d'' & a'' & ? & ?).
    exists d'', a''. split; [by apply lookup_app_l_Some|done].
  - by apply lookup_app_l_Some.
  - exact He.
  - exists (<["sentiment_analysis" := VDict a]> d' :: new).
    split; [by rewrite <-app_assoc|]. cbn [length]. split; [by rewrite Hlen|].
    constructor; [by rewrite lookup_insert_eq|exact Hnew].
Qed.

Lemma post_text_of_record (d : dict) (a : dict) :
  Shared.post_text (<["sentiment_analysis" := VDict a]> d) = Shared.post_text d.
Proof.
  unfold Shared.post_text, get, get_default. by rewrite !lookup_insert_ne.
Qed.

(** X20.  [analyze_posts] of either class stops at the first post whose
    analysis raises: the exception leaves the call, no list is returned,
    the posts after it are not looked at; the store holds the posts as they
    were, followed by the copies made of the posts before the failing one. *)
Theorem batch_aborts_at_first_failure (before : list loc) (bad : loc)
    (after : list loc) (h : heap) (d : dict) (e : exn) :
  Forall (λ post, ∃ d a, h !! post = Some d
                         ∧ analyze_text (Shared.post_text d) = Ok a) before →
  h !! bad = Some d →
  analyze_text (Shared.post_text d) = Raise e →
  ∃ new,
    Shared.analyze_posts analyze_text (before ++ bad :: after) h = (Raise e, h ++ new)
    ∧ length new = length before
    ∧ Forall (λ record, record !! "sentiment_analysis" ≠ None) new.
Proof.
  intros Hall Hd He. unfold Shared.analyze_posts.
  by apply (analyze_posts_loop_raises before bad after [] h d e).
Qed.

(** X21.  Analysing an analysed batch again changes nothing: the records
    the second call returns hold what the records of the first call hold.
    The text a record is analysed on is the text of the post it was copied
    from, and the new analysis takes the place of the old one. *)
Theorem batch_analysis_idempotent (h : heap) (posts : list loc) :
  Forall (λ post, ∃ d a, h !! post = Some d
                         ∧ analyze_text (Shared.post_text d) = Ok a) posts →
  ∃ out h' out' h'',
    Shared.analyze_posts analyze_text posts h = (Ok out, h')
    ∧ Shared.analyze_posts analyze_text out h' = (Ok out', h'')
    ∧ length out' = length posts
    ∧ records h'' out' = records h' out.
Proof.
  intros Hall. unfold Shared.analyze_posts.
  destruct (analyze_posts_loop_ok analyze_text posts [] h Hall)
    as (new & Hrun & Hlen & Hnew).
  cbn [app] in Hrun.
  assert (Hall' : Forall (λ post, ∃ d a, (h ++ new) !! post = Some d
                    ∧ analyze_text (Shared.post_text d) = Ok a)
                    (seq (length h) (length posts))).
  { apply Forall_forall. intros l Hl. apply elem_of_seq in Hl.
    assert (Hi : l - length h < length posts) by lia.
    destruct (lookup_lt_is_Some_2 posts _ Hi) as [post Hpost].
    pose proof Hall as Hall0.
    eapply Forall_lookup in Hall0 as (d & a & Hd & Ha); [|exact Hpost].
    destruct (Hnew _ post d Hpost Hd) as (a' & Ha' & Hrec).
    exists (<["sentiment_analysis" := VDict a']> d), a'. split.
    - by rewrite lookup_app_r by lia.
    - by rewrite post_text_of_record. }
  destruct (analyze_posts_loop_ok analyze_text (seq (length h) (length posts)) []
              (h ++ new) Hall') as (new' & Hrun' & Hlen' & Hnew').
  cbn [app] in Hrun'. rewrite length_seq in Hrun', Hlen'.
  eexists _, _, _, _. split; [exact Hrun|]. split; [exact Hrun'|].
  split; [apply length_seq|].
  rewrite <-Hlen at 2. rewrite records_of_new.
  rewrite <-Hlen' at 1. rewrite records_of_new.
  apply list_eq. intros i.
  destruct (decide (i < length posts)) as [Hi|Hi].
  2:{ rewrite !lookup_ge_None_2 by lia. done. }
  destruct (lookup_lt_is_Some_2 posts _ Hi) as [post Hpost].
  pose proof Hall as Hall0.
  eapply Forall_lookup in Hall0 as (d & a & Hd & Ha); [|exact Hpost].
  destruct (Hnew _ post d Hpost Hd) as (a' & Ha' & Hrec).
  assert (Hseq : seq (length h) (length posts) !! i = Some (length h + i))
    by (by apply lookup_seq_lt).
  assert (Hd' : (h ++ new) !! (length h + i)
                = Some (<["sentiment_analysis" := VDict a']> d)).
  { rewrite lookup_app_r by lia.
    by replace (length h + i - length h) with i by lia. }
  destruct (Hnew' _ _ _ Hseq Hd') as (a'' & Ha'' & Hrec').
  rewrite post_text_of_record, Ha' in Ha''. injection Ha'' as <-.
  by rewrite Hrec', Hrec, insert_insert_eq.
Qed.

End BatchOutcomes.

Lemma batch_aborts_at_first_failure_witness :
  let h : Store.heap :=
    [text_post "I love it"; {[ "text" := VNum 5 ]}; text_post "later"] in
  ∃ new,
    Simple.analyze_posts (fixed_polarity (1 # 2) (1 # 2)) [0; 1; 2] h
      = (Raise AttributeError, h ++ new)
    ∧ length new = 1.
Proof.
  intros h.
  destruct (batch_aborts_at_first_failure
              (λ text, Simple.analysis_dict <$>
                 Simple.analyze_text (fixed_polarity (1 # 2) (1 # 2)) text)
              [0] 1 [2] h {[ "text" := VNum 5 ]} AttributeError)
    as (new & Hrun & Hlen & _).
  - repeat constructor.
    destruct (simple_analyze_text_returns (fixed_polarity (1 # 2) (1 # 2))
                (Shared.post_text (text_post "I love it"))) as [r Hr];
      [by vm_compute|].
    exists (text_post "I love it"), (Simple.analysis_dict r).
    split; [reflexivity|]. by rewrite Hr.
  - reflexivity.
  - by vm_compute.
  - by exists new.
Defined.

Lemma batch_analysis_idempotent_witness :
  let h : Store.heap := [text_post "I love it"; ∅] in
  ∃ out h' out' h'',
    Simple.analyze_posts (fixed_polarity (1 # 2) (1 # 2)) [0; 1] h = (Ok out, h')
    ∧ Simple.analyze_posts (fixed_polarity (1 # 2) (1 # 2)) out h' = (Ok out', h'')
    ∧ length out' = 2
    ∧ records h'' out' = records h' out.
Proof.
  intros h.
  destruct (batch_analysis_idempotent
              (λ text, Simple.analysis_dict <$>
                 Simple.analyze_text (fixed_polarity (1 # 2) (1 # 2)) text)
              h [0; 1])
    as (out & h' & out' & h'' & H1 & H2 & Hlen & Heq).
  { assert (Hret : ∀ d, text_like (Shared.post_text d) = true →
              ∃ a, (Simple.analysis_dict <$>
                      Simple.analyze_text (fixed_polarity (1 # 2) (1 # 2))
                        (Shared.post_text d)) = Ok a).
    { intros d Ht.
      destruct (simple_analyze_text_returns (fixed_polarity (1 # 2) (1 # 2)) _ Ht)
        as [r Hr].
      exists (Simple.analysis_dict r). by rewrite Hr. }
    repeat constructor.
    - destruct (Hret (text_post "I love it")) as [a Ha]; [by vm_compute|].
      by exists (text_post "I love it"), a.
    - destruct (Hret ∅) as [a Ha]; [by vm_compute|]. by exists ∅, a. }
  by exists out, h', out', h''.
Defined.

(** ** Limits of the ranking *)

Lemma ranking_with_limit (posts : list dict) (label : string) (limit : Z) :
  Forall (λ p, well_typed_field p "confidence" = true) posts →
  Simple.get_top_posts_by_sentiment posts label limit
  = Ok (slice_to limit
          (sort_by (field_or_zero "confidence") true
             (filter (λ p, has_sentiment label p = true) posts))).
Proof.
  intros H. unfold Simple.get_top_posts_by_sentiment.
  rewrite (posts_with_sentiment_ok _ "confidence") by done.
  cbn [mbind result_bind].
  rewrite (sorted_numeric (field_or_zero "confidence")); [done|].
  apply Forall_forall. intros p [_ Hp]%list_elem_of_filter.
  apply analysis_field_numeric. by eapply Forall_forall in H.
Qed.

(** X22.  A limit that is not positive does not make
    [get_top_posts_by_sentiment] fail: with limit 0 it returns no post, and
    with limit [-n] it returns the whole ranking of the labelled posts
    without its last [n] posts, the ones of lowest confidence. *)
Theorem nonpositive_limit_cuts_from_the_end (posts : list dict) (label : string)
    (n : nat) :
  Forall (λ p, well_typed_field p "confidence" = true) posts →
  ∃ full,
    Simple.get_top_posts_by_sentiment posts label (Z.of_nat (length posts)) = Ok full
    ∧ is_ranking (field_or_zero "confidence") true label (length posts) posts full
    ∧ length full = length (filter (λ p, has_sentiment label p = true) posts)
    ∧ Simple.get_top_posts_by_sentiment posts label 0 = Ok []
    ∧ (0 < n →
       Simple.get_top_posts_by_sentiment posts label (- Z.of_nat n)
       = Ok (take (length full - n) full)).
Proof.
  intros H.
  set (candidates := filter (λ p, has_sentiment label p = true) posts).
  set (ranked := sort_by (field_or_zero "confidence") true candidates).
  assert (Hlen : length ranked = length candidates)
    by (unfold ranked; by rewrite sort_by_perm).
  assert (Hle : length candidates ≤ length posts) by apply length_filter.
  assert (Hfull : take (length posts) ranked = ranked) by (apply take_ge; lia).
  exists ranked. split_and!.
  - rewrite ranking_with_limit, slice_to_nat by done.
    fold candidates. fold ranked. by rewrite Hfull.
  - rewrite <-Hfull. apply ranking_is_ranking.
  - exact Hlen.
  - by rewrite ranking_with_limit by done.
  - intros Hn. rewrite ranking_with_limit by done. fold candidates. fold ranked.
    unfold slice_to. destruct (Z.leb_spec 0 (- Z.of_nat n)); [lia|].
    by rewrite Z.opp_involutive, Nat2Z.id.
Qed.

Lemma nonpositive_limit_cuts_from_the_end_witness :
  let posts := [ simple_post "a" "positive" (1 # 2);
                 simple_post "c" "positive" (3 # 4);
                 simple_post "d" "positive" (1 # 4) ] in
  ∃ full,
    Simple.get_top_posts_by_sentiment posts "positive" 3 = Ok full
    ∧ Simple.get_top_posts_by_sentiment posts "positive" (-1)
      = Ok (take (length full - 1) full).
Proof.
  intros posts.
  destruct (nonpositive_limit_cuts_from_the_end posts "positive" 1)
    as (full & Hfull & _ & _ & _ & Hcut).
  { repeat constructor; by vm_compute. }
  exists full. split; [exact Hfull|]. apply Hcut. lia.
Defined.
